(** * Bot-detection pipeline: tiered scoring, text coordination, feature extraction

    A shallow embedding of the decision logic of the repository:

    - [src/src/bot_scorer.py]          : class [BotScorer]
    - [src/src/troll_farm_detector.py] : class [TrollFarmDetector]
    - [src/src/feature_extractor.py]   : class [FeatureExtractor]

    followed by the properties of the specification, one module of
    lemmas per class.

    Numbers.  Python floats are modelled by exact rationals ([Q], compared
    with [==]).  For the scorer this is exact and not an approximation:
    every tier score is a sum of the constants 15, 10, 7.5, 7, 5, 3, 2, so
    a pre-discount total is a whole number of halves and its product with
    0.75 a whole number of eighths ([BotScorerSpec.totals_are_dyadic]),
    which binary floating point represents and computes without rounding.
    The features are decimals of two or three places; a float comparison
    of such a feature with a decimal threshold has the result of the
    comparison of the two decimals.  [round] rounds the exact value, half
    to even.  The share of bots of a group is computed exactly; at the
    default threshold 50 the float computation decides the same.

    Missing values.  A DataFrame cell that can hold the missing marker
    (NaN, None) is a [cell]; every comparison with a missing number is
    false, and the missing marker is truthy, as in Python.

    Libraries.  What the code calls in [datetime], [re] and [str] is
    written out (calendar, pattern scanners, case and character classes);
    [strptime], the TF-IDF similarity matrix and the clock are parameters
    of the extractor. *)

From Stdlib Require Import ZArith QArith Qround Qminmax Qabs Bool List String Ascii.
From Stdlib Require Import DecimalString Permutation Sorted Lia Lqa.
From Stdlib Require OrdersEx.
Import ListNotations.

Open Scope Q_scope.

(** ** DataFrame cells *)

Inductive cell (A : Type) : Type :=
| Present (a : A)
| Missing.

Arguments Present {A} a.
Arguments Missing {A}.

Definition num := cell Q.

(** [x < q], [x <= q], [x > q], [x >= q], [x == q] on a cell that may be NaN. *)
Definition num_lt (x : num) (q : Q) : bool :=
  match x with Present v => negb (Qle_bool q v) | Missing => false end.
Definition num_le (x : num) (q : Q) : bool :=
  match x with Present v => Qle_bool v q | Missing => false end.
Definition num_gt (x : num) (q : Q) : bool :=
  match x with Present v => negb (Qle_bool v q) | Missing => false end.
Definition num_ge (x : num) (q : Q) : bool :=
  match x with Present v => Qle_bool q v | Missing => false end.
Definition num_eq (x : num) (q : Q) : bool :=
  match x with Present v => Qeq_bool v q | Missing => false end.

(** Python truth value of a cell holding a boolean: [bool(float('nan'))] is
    [True]. *)
Definition truthy (x : cell bool) : bool :=
  match x with Present b => b | Missing => true end.

Definition year_is (x : cell Z) (y : Z) : bool :=
  match x with Present v => Z.eqb v y | Missing => false end.

(** A value of the [retweetedTweet] column as [read_csv] delivers it for
    a column that mixes [False] with serialized tweet objects: the
    missing marker, a parsed boolean, or the raw text of the field.  (A
    column of numbers is not a value of this field.) *)
Inductive pyval : Type :=
| PyNull
| PyBool (b : bool)
| PyStr (s : string).

(** ** The feature table row (output of the extractor, input of the scorer) *)

Record FeatureVector : Type := mkFeatureVector {
  username : string;
  user_id : string;
  followersCount : Z;
  friendsCount : Z;
  (* tier 1 *)
  follower_following_ratio : num;
  avg_engagement_per_tweet : num;
  favorites_tweets_ratio : num;
  account_created_date : cell string;
  account_created_year : cell Z;
  account_age_days : cell Z;
  first_tweet_date : cell string;
  created_same_month_as_dataset : cell bool;
  lifetime_tweets_per_day : num;
  (* tier 2 *)
  posting_freq_tweets_per_day : num;
  reply_ratio_pct : num;
  avg_text_similarity_pct : num;
  bot_username_pattern : bool;
  username_ends_with_digits : bool;
  has_default_profile_image : bool;
  topic_concentration_pct : num;
  dominant_keyword : cell string;
  (* tier 3 *)
  avg_hashtags_per_tweet : num;
  has_long_hashtag : bool;
  retweet_ratio_pct : num;
  has_empty_description : bool;
  has_no_location : bool;
  avg_mentions_per_tweet : num;
  is_verified : bool;
  has_blue : bool
}.

(** ** BotScorer *)

Module BotScorer.

(** [username in self.troll_farm_members] *)
Definition in_farm (troll_farm_members : list string) (u : string) : bool :=
  existsb (String.eqb u) troll_farm_members.

Section Scorer.

Variable troll_farm_members : list string.

(** [_calculate_tier1_score]: nine indicators of 15 points each. *)
Definition _calculate_tier1_score (feature_row : FeatureVector) : Q :=
  let score := 0 in
  (* Troll farm membership *)
  let score := score +
    (if in_farm troll_farm_members (username feature_row) then 15 else 0) in
  (* Follower/following ratio *)
  let ratio := follower_following_ratio feature_row in
  let score := score +
    (if num_lt ratio 0.1 then 15
     else if num_le ratio 0.3 then 10
     else if num_le ratio 0.5 then 5 else 0) in
  (* Low engagement rate *)
  let engagement := avg_engagement_per_tweet feature_row in
  let score := score +
    (if num_lt engagement 0.5 then 15
     else if num_le engagement 2 then 10
     else if num_le engagement 5 then 5 else 0) in
  (* Favorites-to-tweets ratio *)
  let fav_ratio := favorites_tweets_ratio feature_row in
  let score := score +
    (if num_lt fav_ratio 0.1 then 15
     else if num_le fav_ratio 0.3 then 10
     else if num_le fav_ratio 0.5 then 5 else 0) in
  (* Account age *)
  let created_year := account_created_year feature_row in
  let same_month := created_same_month_as_dataset feature_row in
  let score := score +
    (if truthy same_month then 15
     else if year_is created_year 2024 then 7.5 else 0) in
  (* Account activity metrics *)
  let lifetime_tweets := lifetime_tweets_per_day feature_row in
  let score := score +
    (if num_gt lifetime_tweets 100 then 15
     else if num_ge lifetime_tweets 50 then 10
     else if num_ge lifetime_tweets 25 then 5 else 0) in
  (* Reply to post ratio *)
  let reply_ratio := reply_ratio_pct feature_row in
  let score := score +
    (if num_ge reply_ratio 80 then 15
     else if num_ge reply_ratio 66 then 10
     else if num_ge reply_ratio 50 then 5 else 0) in
  (* Text similarity *)
  let similarity := avg_text_similarity_pct feature_row in
  let score := score +
    (if num_gt similarity 80 then 15
     else if num_ge similarity 60 then 10
     else if num_ge similarity 40 then 5 else 0) in
  (* Topic diversity *)
  let concentration := topic_concentration_pct feature_row in
  let score := score +
    (if num_eq concentration 100 then 15
     else if num_ge concentration 80 then 10
     else if num_gt concentration 70 then 5 else 0) in
  score.

(** [_calculate_tier2_score] *)
Definition _calculate_tier2_score (feature_row : FeatureVector) : Q :=
  let score := 0 in
  let tweets_per_day := posting_freq_tweets_per_day feature_row in
  let score := score +
    (if num_gt tweets_per_day 50 then 10
     else if num_ge tweets_per_day 30 then 7
     else if num_ge tweets_per_day 20 then 3 else 0) in
  let score := score + (if bot_username_pattern feature_row then 10 else 0) in
  let score := score + (if has_default_profile_image feature_row then 10 else 0) in
  score.

(** [_calculate_tier3_score] *)
Definition _calculate_tier3_score (feature_row : FeatureVector) : Q :=
  let score := 0 in
  let avg_hashtags := avg_hashtags_per_tweet feature_row in
  let has_long := has_long_hashtag feature_row in
  let score := score +
    (if num_gt avg_hashtags 3 then 5 else if has_long then 3 else 0) in
  let retweet_ratio := retweet_ratio_pct feature_row in
  let score := score +
    (if num_gt retweet_ratio 80 then 5
     else if num_ge retweet_ratio 60 then 3 else 0) in
  let profile_score := 0 in
  let profile_score :=
    profile_score + (if has_empty_description feature_row then 2 else 0) in
  let profile_score :=
    profile_score + (if has_no_location feature_row then 2 else 0) in
  let score := score + Qmin profile_score 5 in
  let avg_mentions := avg_mentions_per_tweet feature_row in
  let score := score + (if num_gt avg_mentions 3 then 5 else 0) in
  score.

(** [_classify_user] *)
Definition _classify_user (total_score : Q) : string :=
  if Qle_bool total_score 35 then "Likely Human"%string
  else if Qle_bool total_score 60 then "Suspicious"%string
  else if Qle_bool total_score 85 then "Likely Bot"%string
  else "Definite Bot"%string.

(** One row of [self.scores]. *)
Record ScoreRecord : Type := mkScoreRecord {
  s_username : string;
  s_user_id : string;
  tier1_score : Q;
  tier2_score : Q;
  tier3_score : Q;
  total_score_before_verification : Q;
  s_is_verified : bool;
  s_has_blue : bool;
  is_verified_or_blue : bool;
  total_score : Q;
  classification : string;
  flagged_for_review : bool
}.

(** The body of [calculate_all_scores] for one row: the column
    operations of the source are all element-wise. *)
Definition score_row (row : FeatureVector) : ScoreRecord :=
  let t1 := _calculate_tier1_score row in
  let t2 := _calculate_tier2_score row in
  let t3 := _calculate_tier3_score row in
  let before := t1 + t2 + t3 in
  let vb := is_verified row || has_blue row in
  let total := if vb then before * 0.75 else before in
  {| s_username := username row;
     s_user_id := user_id row;
     tier1_score := t1;
     tier2_score := t2;
     tier3_score := t3;
     total_score_before_verification := before;
     s_is_verified := is_verified row;
     s_has_blue := has_blue row;
     is_verified_or_blue := vb;
     total_score := total;
     classification := _classify_user total;
     flagged_for_review := Qle_bool 86 total |}.

(** [calculate_all_scores]: one score record per feature row, in order. *)
Definition calculate_all_scores (features : list FeatureVector)
  : list ScoreRecord :=
  map score_row features.

End Scorer.

End BotScorer.

(** ** Text

    A Python [str] is modelled by [string], whose characters are the code
    points below 256 (ASCII and Latin-1); code points above U+00FF are
    outside the model. *)

Module Text.

#[local] Open Scope string_scope.
#[local] Open Scope N_scope.

Definition code (c : ascii) : N := N_of_ascii c.

(** [c.isspace()], which is also the class [\s] of [re] on a [str]:
    TAB..CR, FS..US, SPACE, NEL and NBSP. *)
Definition is_space (c : ascii) : bool :=
  let n := code c in
  ((9 <=? n) && (n <=? 13)) || ((28 <=? n) && (n <=? 32))
  || (n =? 133) || (n =? 160).

(** [c.lower()] for one character. *)
Definition lower_char (c : ascii) : ascii :=
  let n := code c in
  if ((65 <=? n) && (n <=? 90))
     || ((192 <=? n) && (n <=? 222) && negb (n =? 215))
  then ascii_of_N (n + 32) else c.

(** [s.lower()] *)
Fixpoint lower (s : string) : string :=
  match s with
  | EmptyString => EmptyString
  | String c s' => String (lower_char c) (lower s')
  end.

(** [c.isdigit()]: 0-9 and the superscripts 1, 2, 3. *)
Definition is_digit (c : ascii) : bool :=
  let n := code c in
  ((48 <=? n) && (n <=? 57)) || (n =? 178) || (n =? 179) || (n =? 185).

(** The class [\d] of [re] on a [str]: decimal digits only. *)
Definition is_decimal (c : ascii) : bool :=
  let n := code c in (48 <=? n) && (n <=? 57).

(** [c.isalpha()] *)
Definition is_alpha (c : ascii) : bool :=
  let n := code c in
  ((65 <=? n) && (n <=? 90)) || ((97 <=? n) && (n <=? 122))
  || (n =? 170) || (n =? 181) || (n =? 186)
  || ((192 <=? n) && (n <=? 214)) || ((216 <=? n) && (n <=? 246))
  || (248 <=? n).

(** [s.startswith(p)] *)
Fixpoint starts_with (p s : string) : bool :=
  match p, s with
  | EmptyString, _ => true
  | String a p', String b s' => Ascii.eqb a b && starts_with p' s'
  | String _ _, EmptyString => false
  end.

(** [p in s] *)
Fixpoint contains (p s : string) : bool :=
  starts_with p s
  || match s with
     | EmptyString => false
     | String _ s' => contains p s'
     end.

(** [s.count(c)] for a one-character pattern. *)
Fixpoint count_char (c : ascii) (s : string) : nat :=
  match s with
  | EmptyString => O
  | String a s' => ((if Ascii.eqb a c then 1 else 0) + count_char c s')%nat
  end.

(** [s.count(p)] for a non-empty pattern: occurrences counted left to
    right without overlap.  [skip] is the number of characters of the
    current occurrence still to be passed over. *)
Fixpoint count_from (p : string) (skip : nat) (s : string) : nat :=
  match s with
  | EmptyString => O
  | String _ s' =>
      match skip with
      | S k => count_from p k s'
      | O => if starts_with p s
             then S (count_from p (pred (String.length p)) s')
             else count_from p O s'
      end
  end.

Definition count (p s : string) : nat := count_from p O s.

(** [s.lstrip()] *)
Fixpoint lstrip (s : string) : string :=
  match s with
  | EmptyString => EmptyString
  | String c s' => if is_space c then lstrip s' else s
  end.

(** [s.rstrip()] *)
Fixpoint rstrip (s : string) : string :=
  match s with
  | EmptyString => EmptyString
  | String c s' =>
      match rstrip s' with
      | EmptyString => if is_space c then EmptyString else String c EmptyString
      | r => String c r
      end
  end.

(** [s.strip()] *)
Definition strip (s : string) : string := rstrip (lstrip s).

End Text.

(** ** TrollFarmDetector *)

Module TrollFarmDetector.

Import Text.
#[local] Open Scope string_scope.

(** One row of [self.raw_tweets]; only the columns the detector reads. *)
Record Tweet : Type := mkTweet {
  tw_username : string;
  tw_text : cell string;
  tw_retweetedTweet : pyval
}.

(** The row mask of [filter_original_tweets]. *)
Definition is_original (v : pyval) : bool :=
  match v with
  | PyNull => true                                  (* .isna() *)
  | PyBool b => negb b                              (* == False *)
  | PyStr s =>
      (s =? "False") || (s =? "") || (s =? "nan") || (s =? "[]")
  end.

(** [filter_original_tweets] *)
Definition filter_original_tweets (raw_tweets : list Tweet) : list Tweet :=
  filter (fun t => is_original (tw_retweetedTweet t)) raw_tweets.

(** The pattern [http\S+|https\S+] matches at the head of [s]: the four
    characters [http] and at least one more character that is not
    whitespace (the second alternative matches nothing the first does
    not). *)
Definition url_at (s : string) : bool :=
  match s with
  | String c1 (String c2 (String c3 (String c4 (String c5 _)))) =>
      Ascii.eqb c1 "h" && Ascii.eqb c2 "t" && Ascii.eqb c3 "t"
      && Ascii.eqb c4 "p" && negb (is_space c5)
  | _ => false
  end.

(** [re.sub(r'http\S+|https\S+', '', s)] as the scanner runs it, left to
    right: outside a match a character is copied unless a match starts
    there; inside a match ([in_match]) characters are dropped up to, and
    not including, the next whitespace, since [\S+] is greedy. *)
Fixpoint sub_urls (in_match : bool) (s : string) : string :=
  match s with
  | EmptyString => EmptyString
  | String c s' =>
      if in_match then
        if is_space c then String c (sub_urls false s') else sub_urls true s'
      else if url_at s then sub_urls true s'
      else String c (sub_urls false s')
  end.

(** [re.sub(r'\s+', ' ', s)]: each maximal run of whitespace becomes one
    space; [in_run] says the previous character was whitespace. *)
Fixpoint sub_spaces (in_run : bool) (s : string) : string :=
  match s with
  | EmptyString => EmptyString
  | String c s' =>
      if is_space c then
        if in_run then sub_spaces true s' else String " " (sub_spaces true s')
      else String c (sub_spaces false s')
  end.

(** [normalize_text] *)
Definition normalize_text (text : cell string) : string :=
  match text with
  | Missing => ""
  | Present text =>
      if text =? "" then ""
      else
        let text := lower text in
        let text := sub_urls false text in
        let text := sub_spaces false text in
        let text := strip text in
        text
  end.

(** [message_groups[normalized_msg][username] += 1] on insertion-ordered
    dictionaries: a new key goes to the end. *)
Fixpoint bump (u : string) (users : list (string * nat))
  : list (string * nat) :=
  match users with
  | [] => [(u, 1%nat)]
  | (v, n) :: rest =>
      if v =? u then (v, S n) :: rest else (v, n) :: bump u rest
  end.

Fixpoint add_post (msg u : string)
  (groups : list (string * list (string * nat)))
  : list (string * list (string * nat)) :=
  match groups with
  | [] => [(msg, [(u, 1%nat)])]
  | (m, users) :: rest =>
      if m =? msg then (m, bump u users) :: rest
      else (m, users) :: add_post msg u rest
  end.

(** The normalized-text column, the removal of empty texts and the loop
    that fills [message_groups]. *)
Definition message_groups (tweets : list Tweet)
  : list (string * list (string * nat)) :=
  let normalized :=
    map (fun t => (normalize_text (tw_text t), tw_username t)) tweets in
  let kept := filter (fun p => negb (fst p =? "")) normalized in
  fold_left (fun groups p => add_post (fst p) (snd p) groups) kept [].

(** The columns of [self.bot_scores] the detector selects. *)
Record ScoreRow : Type := mkScoreRow {
  sc_username : string;
  sc_classification : cell string;
  sc_total_score : num
}.

(** A row of [users_df] after the merge. *)
Record Member : Type := mkMember {
  m_username : string;
  message_frequency : nat;
  bot_label : cell string;
  m_total_score : num
}.

(** [users_df.merge(bot_scores, on='username', how='left')]: every left
    row in order, once per matching right row, and once with missing
    right columns when nothing matches. *)
Definition merge_one (bot_scores : list ScoreRow) (u : string * nat)
  : list Member :=
  match filter (fun r => sc_username r =? fst u) bot_scores with
  | [] => [mkMember (fst u) (snd u) Missing Missing]
  | rows =>
      map (fun r => mkMember (fst u) (snd u)
                      (sc_classification r) (sc_total_score r)) rows
  end.

Definition merge_left (users : list (string * nat))
  (bot_scores : list ScoreRow) : list Member :=
  flat_map (merge_one bot_scores) users.

Definition bot_labels : list string :=
  ["Suspicious"; "Likely Bot"; "Definite Bot"].

(** [classification.isin(bot_labels)]; a missing label is in no list. *)
Definition isin (x : cell string) (labels : list string) : bool :=
  match x with
  | Present s => existsb (String.eqb s) labels
  | Missing => false
  end.

Definition bot_count (users_df : list Member) : nat :=
  List.length (filter (fun m => isin (bot_label m) bot_labels) users_df).

Definition Qnat (n : nat) : Q := inject_Z (Z.of_nat n).

(** [(bot_count / num_users) * 100] *)
Definition bot_percentage (bot_count num_users : nat) : Q :=
  (Qnat bot_count / Qnat num_users) * 100.

Record Farm : Type := mkFarm {
  shared_message : string;
  farm_size : nat;
  farm_bot_count : nat;
  farm_bot_percentage : Q;
  users_data : list Member
}.

Section Qualify.

Variable min_accounts : Z.
Variable min_bot_percentage : Q.
Variable bot_scores : list ScoreRow.

(** The body of the loop over [message_groups.items()]: the farm the
    group contributes to [potential_farms], if any. *)
Definition qualify (group : string * list (string * nat)) : option Farm :=
  let message := fst group in
  let users := snd group in
  let num_users := List.length users in
  if (min_accounts <=? Z.of_nat num_users)%Z then
    let users_df := merge_left users bot_scores in
    let bc := bot_count users_df in
    let pct := bot_percentage bc num_users in
    if Qle_bool min_bot_percentage pct then
      Some (mkFarm message num_users bc pct users_df)
    else None
  else None.

Fixpoint potential_farms (groups : list (string * list (string * nat)))
  : list Farm :=
  match groups with
  | [] => []
  | g :: rest =>
      match qualify g with
      | Some farm => farm :: potential_farms rest
      | None => potential_farms rest
      end
  end.

(** [identify_troll_farms], up to the numbering of the farms:
    [enumerate(potential_farms, start=1)].  The final [sort_values] only
    reorders the member rows and is not modelled. *)
Definition identify_troll_farms (raw_tweets : list Tweet)
  : list (nat * Farm) :=
  let farms := potential_farms (message_groups raw_tweets) in
  combine (seq 1 (List.length farms)) farms.

End Qualify.

(** [main]: [filter_original_tweets] runs before [identify_troll_farms],
    with the defaults [min_accounts=10], [min_bot_percentage=50]. *)
Definition detect (raw_tweets : list Tweet) (bot_scores : list ScoreRow)
  : list (nat * Farm) :=
  identify_troll_farms 10 50 bot_scores (filter_original_tweets raw_tweets).

(** [get_troll_farm_usernames]: the distinct usernames of all farms. *)
Definition get_troll_farm_usernames (farms : list (nat * Farm))
  : list string :=
  nodup string_dec
    (flat_map (fun f => map m_username (users_data (snd f))) farms).

End TrollFarmDetector.

(** ** FeatureExtractor *)

Module FeatureExtractor.

Import Text.
#[local] Open Scope string_scope.

(** The [created] field of a user row: absent, a timezone-aware datetime
    (given by its POSIX time in seconds), or text still to be parsed. *)
Inductive created_val : Type :=
| CreatedNull
| CreatedAt (posix : Z)
| CreatedText (s : string).

(** One row of [user_data], as [DataLoader.aggregate_by_user] builds it:
    the profile fields of the first post of the account, and one list
    per post column.  The counts are integers (0 when the profile has
    none); the serialized hashtag and mention lists are text, as read
    from the CSV files; times are POSIX seconds, in UTC. *)
Record UserRow : Type := mkUserRow {
  ur_username : string;
  ur_user_id : string;
  ur_created : created_val;
  ur_followersCount : Z;
  ur_friendsCount : Z;
  ur_statusesCount : Z;
  ur_favouritesCount : Z;
  ur_location : cell string;
  ur_rawDescription : cell string;
  ur_profileImageUrl : string;
  ur_verified : bool;
  ur_blue : bool;
  ur_text : list (cell string);
  ur_epoch : list (cell Z);
  ur_replyCount : list num;
  ur_retweetCount : list num;
  ur_likeCount : list num;
  ur_hashtags : list (cell string);
  ur_mentionedUsers : list (cell string);
  ur_retweetedTweet : list pyval;
  ur_in_reply_to_status_id_str : list (cell string)
}.

(** *** Numbers *)

Definition QZ (z : Z) : Q := inject_Z z.
Definition Qlen {A : Type} (l : list A) : Q := QZ (Z.of_nat (List.length l)).

(** Rounding to the nearest integer, ties to the even one. *)
Definition round_half_even (x : Q) : Z :=
  let f := Qfloor x in
  match Qcompare (x - QZ f) (1 # 2) with
  | Lt => f
  | Gt => (f + 1)%Z
  | Eq => if Z.even f then f else (f + 1)%Z
  end.

(** [round(x, ndigits)] on the exact value of [x]. *)
Definition round (x : Q) (ndigits : nat) : Q :=
  let scale := Pos.pow 10 (Pos.of_nat ndigits) in
  match ndigits with
  | O => QZ (round_half_even x)
  | S _ => Qmake (round_half_even (x * QZ (Zpos scale))) scale
  end.

Definition Qsum (l : list Q) : Q := fold_right Qplus 0 l.

(** [np.mean(l) if l else 0] *)
Definition mean_or_zero (l : list Q) : Q :=
  match l with
  | [] => 0
  | _ => Qsum l / Qlen l
  end.

(** [v if pd.notna(v) else 0] *)
Definition or_zero (v : num) : Q :=
  match v with Present q => q | Missing => 0 end.

(** [[e for e in l if pd.notna(e)]] *)
Fixpoint present {A : Type} (l : list (cell A)) : list A :=
  match l with
  | [] => []
  | Present a :: rest => a :: present rest
  | Missing :: rest => present rest
  end.

(** [min(l)] and [max(l)] of a list with head [a]. *)
Definition Zmin_list (a : Z) (l : list Z) : Z := fold_left Z.min l a.
Definition Zmax_list (a : Z) (l : list Z) : Z := fold_left Z.max l a.

(** *** Calendar *)

(** Year, month and day of the UTC date that lies [z] days after
    1970-01-01 (proleptic Gregorian calendar). *)
Definition civil_from_days (z : Z) : Z * Z * Z :=
  (let z := z + 719468 in
   let era := z / 146097 in
   let doe := z - era * 146097 in
   let yoe := (doe - doe / 1460 + doe / 36524 - doe / 146096) / 365 in
   let y := yoe + era * 400 in
   let doy := doe - (365 * yoe + yoe / 4 - yoe / 100) in
   let mp := (5 * doy + 2) / 153 in
   let d := doy - (153 * mp + 2) / 5 + 1 in
   let m := if mp <? 10 then mp + 3 else mp - 9 in
   (if m <=? 2 then y + 1 else y, m, d))%Z.

Definition year_of (posix : Z) : Z :=
  fst (fst (civil_from_days (posix / 86400))).
Definition month_of (posix : Z) : Z :=
  snd (fst (civil_from_days (posix / 86400))).
Definition day_of (posix : Z) : Z :=
  snd (civil_from_days (posix / 86400)).

Definition digits (z : Z) : string :=
  DecimalString.NilZero.string_of_uint (N.to_uint (Z.to_N z)).
Definition two_digits (z : Z) : string :=
  if (z <? 10)%Z then "0" ++ digits z else digits z.

(** [d.strftime("%Y-%m-%d")] *)
Definition strftime_ymd (posix : Z) : string :=
  digits (year_of posix) ++ "-" ++ two_digits (month_of posix)
  ++ "-" ++ two_digits (day_of posix).

(** [(a - b).days] for two datetimes given by their POSIX times. *)
Definition days_between (a b : Z) : Z := ((a - b) / 86400)%Z.

Section Extractor.

(** [datetime.strptime(s, "%a %b %d %H:%M:%S %z %Y")] as the POSIX time of
    the result; [None] when it raises. *)
Variable strptime : string -> option Z.

(** [cosine_similarity(TfidfVectorizer(max_features=100).fit_transform(texts)).sum()],
    the sum of all entries of the pairwise similarity matrix; [None] when
    the vectorizer raises. *)
Variable similarity_sum : list string -> option Q.

(** The value [datetime.now(pytz.UTC)] returns when the extractor reads
    the clock, as POSIX time. *)
Variable now : Z.

(** The shared body of the two [try] blocks: the account creation time. *)
Definition parse_created (created : created_val) : option Z :=
  match created with
  | CreatedNull => None
  | CreatedAt posix => Some posix
  | CreatedText s => strptime s
  end.

Definition _calc_follower_ratio (user_row : UserRow) : Q :=
  let followers := ur_followersCount user_row in
  let following := ur_friendsCount user_row in
  let ratio :=
    if (following =? 0)%Z then 999 else QZ followers / QZ following in
  round ratio 3.

Fixpoint zip3 (a b c : list num) : list (num * num * num) :=
  match a, b, c with
  | x :: a', y :: b', z :: c' => (x, y, z) :: zip3 a' b' c'
  | _, _, _ => []
  end.

Definition _calc_engagement_rate (user_row : UserRow) : Q :=
  let total_engagement :=
    map (fun t => match t with
                  | (r, rt, l) => or_zero r + or_zero rt + or_zero l
                  end)
        (zip3 (ur_replyCount user_row) (ur_retweetCount user_row)
              (ur_likeCount user_row)) in
  round (mean_or_zero total_engagement) 2.

Definition _calc_favorites_ratio (user_row : UserRow) : Q :=
  let favorites := ur_favouritesCount user_row in
  let statuses := ur_statusesCount user_row in
  let ratio :=
    if (statuses =? 0)%Z then 0 else QZ favorites / QZ statuses in
  round ratio 3.

(** The five fields [_calc_account_age] contributes. *)
Record AccountAge : Type := mkAccountAge {
  aa_account_created_date : cell string;
  aa_account_created_year : cell Z;
  aa_account_age_days : cell Z;
  aa_first_tweet_date : cell string;
  aa_created_same_month_as_dataset : cell bool
}.

Definition no_account_age : AccountAge :=
  mkAccountAge Missing Missing Missing Missing Missing.

(** [_calc_account_age]; [None] is the [ValueError] that [min] raises on
    a non-empty [epoch] list without a single timestamp, which nothing
    catches. *)
Definition _calc_account_age (user_row : UserRow) : option AccountAge :=
  let created := ur_created user_row in
  let epochs := ur_epoch user_row in
  match epochs, present epochs with
  | _ :: _, [] => None
  | [], _ => Some no_account_age
  | _ :: _, e :: es =>
      let first_tweet_epoch := Zmin_list e es in
      match created with
      | CreatedNull => Some no_account_age
      | _ =>
          if (first_tweet_epoch =? 0)%Z then Some no_account_age
          else
            match parse_created created with
            | None => Some no_account_age
            | Some account_created =>
                let first_tweet_date := first_tweet_epoch in
                let age_days := days_between first_tweet_date account_created in
                let same_month :=
                  ((year_of account_created =? year_of first_tweet_date)
                   && (month_of account_created =? month_of first_tweet_date))%Z in
                Some (mkAccountAge
                        (Present (strftime_ymd account_created))
                        (Present (year_of account_created))
                        (Present age_days)
                        (Present (strftime_ymd first_tweet_date))
                        (Present same_month))
            end
      end
  end.

Definition _calc_account_activity (user_row : UserRow) : Q :=
  let statuses := ur_statusesCount user_row in
  let created := ur_created user_row in
  match created with
  | CreatedNull => 0
  | _ =>
      if (statuses =? 0)%Z then 0
      else
        match parse_created created with
        | None => 0
        | Some account_created =>
            let days_since_creation := days_between now account_created in
            let days_since_creation := Z.max days_since_creation 1 in
            let tweets_per_day := QZ statuses / QZ days_since_creation in
            round tweets_per_day 2
        end
  end.

Definition _calc_posting_frequency (user_row : UserRow) : Q :=
  let epochs := ur_epoch user_row in
  match epochs with
  | [] => 0
  | _ =>
      let timestamps := present epochs in
      let tweets_per_day :=
        match timestamps with
        | t :: ((_ :: _) as rest) =>
            let min_time := Zmin_list t rest in
            let max_time := Zmax_list t rest in
            let days := QZ (max_time - min_time) / 86400 in
            let days := Qmax days 1 in
            Qlen timestamps / days
        | _ => Qlen timestamps
        end in
      round tweets_per_day 2
  end.

Definition _calc_reply_ratio (user_row : UserRow) : Q :=
  let reply_ids := ur_in_reply_to_status_id_str user_row in
  match reply_ids with
  | [] => 0
  | _ =>
      let reply_count := Qlen (present reply_ids) in
      let total := Qlen reply_ids in
      let reply_pct := reply_count / total * 100 in
      round reply_pct 2
  end.

Definition _calc_text_similarity (user_row : UserRow) : Q :=
  let texts := ur_text user_row in
  if (List.length texts <? 2)%nat then 0
  else
    let texts :=
      filter (fun t => (0 <? String.length t)%nat) (present texts) in
    if (List.length texts <? 2)%nat then 0
    else
      let sample_texts := firstn 50 texts in
      match similarity_sum sample_texts with
      | None => 0
      | Some total =>
          let n := Qlen sample_texts in
          let total_similarity := (total - n) / (n * (n - 1)) in
          let similarity_pct := total_similarity * 100 in
          round similarity_pct 2
      end.

(** [re.search(r'\d{6,}$', username)]: six decimal digits end the string,
    or end it up to one final newline, which [$] lets pass. *)
Fixpoint leading_decimals (l : list ascii) : nat :=
  match l with
  | c :: rest => if is_decimal c then S (leading_decimals rest) else O
  | [] => O
  end.

Definition ends_with_six_digits (s : string) : bool :=
  let backwards := rev (list_ascii_of_string s) in
  (6 <=? leading_decimals backwards)%nat
  || match backwards with
     | c :: rest =>
         Ascii.eqb c "010" && (6 <=? leading_decimals rest)%nat
     | [] => false
     end.

(** The loop over [range(len(username) - 1)]. *)
Fixpoint transitions (s : string) : nat :=
  match s with
  | String a ((String b _) as rest) =>
      ((if Bool.eqb (is_alpha a) (is_alpha b) then 0 else 1)
       + transitions rest)%nat
  | _ => O
  end.

Fixpoint any_char (f : ascii -> bool) (s : string) : bool :=
  match s with
  | EmptyString => false
  | String c rest => f c || any_char f rest
  end.

(** [_calc_username_pattern]: [(bot_username_pattern, username_ends_with_digits)] *)
Definition _calc_username_pattern (user_row : UserRow) : bool * bool :=
  let username := ur_username user_row in
  let ends_with_digits := ends_with_six_digits username in
  let random_mix :=
    (3 <=? transitions username)%nat && any_char is_digit username in
  let is_bot_username := ends_with_digits || random_mix in
  (is_bot_username, ends_with_digits).

Definition default_patterns : list string :=
  ["default_profile"; "default_avatar"; "egg"; "placeholder"].

Definition _calc_default_profile (user_row : UserRow) : bool :=
  let profile_url := ur_profileImageUrl user_row in
  existsb (fun pattern => contains pattern (lower profile_url))
          default_patterns.

Definition political_keywords : list string :=
  ["trump"; "biden"; "harris"; "election"; "vote"; "ballot";
   "democrat"; "republican"; "liberal"; "conservative";
   "maga"; "gop"; "dnc"; "rnc"].

(** [str(text)] of a cell of the text column. *)
Definition str_of (t : cell string) : string :=
  match t with Present s => s | Missing => "nan" end.

(** [max(keyword_counts, key=keyword_counts.get)]: the first key, in
    insertion order, whose count is the largest. *)
Fixpoint max_by_count (best : string * nat) (l : list (string * nat))
  : string * nat :=
  match l with
  | [] => best
  | kv :: rest =>
      if (snd best <? snd kv)%nat then max_by_count kv rest
      else max_by_count best rest
  end.

(** [_calc_topic_diversity]: [(topic_concentration_pct, dominant_keyword)] *)
Definition _calc_topic_diversity (user_row : UserRow) : Q * cell string :=
  let texts := ur_text user_row in
  if (List.length texts <? 5)%nat then (0, Missing)
  else
    let counted :=
      map (fun keyword =>
             (keyword,
              List.length
                (filter (fun text => contains keyword (lower (str_of text)))
                        texts)))
          political_keywords in
    let keyword_counts := filter (fun kv => (0 <? snd kv)%nat) counted in
    match keyword_counts with
    | [] => (0, Missing)
    | kv :: rest =>
        let dominant := max_by_count kv rest in
        let dominant_keyword := fst dominant in
        let dominant_count := snd dominant in
        let concentration_pct :=
          QZ (Z.of_nat dominant_count) / Qlen texts * 100 in
        (round concentration_pct 2, Present dominant_keyword)
    end.

(** The entry a hashtag cell adds to [hashtag_counts]. *)
Definition hashtag_count (hashtag_list : cell string) : Q :=
  match hashtag_list with
  | Present h =>
      if h =? "[]" then 0
      else QZ (Z.of_nat (count_char "," h + 1))
  | Missing => 0
  end.

Definition hashtag_is_long (hashtag_list : cell string) : bool :=
  match hashtag_list with
  | Present h => negb (h =? "[]") && (30 <? String.length h)%nat
  | Missing => false
  end.

(** [_calc_hashtag_usage]: [(avg_hashtags_per_tweet, has_long_hashtag)] *)
Definition _calc_hashtag_usage (user_row : UserRow) : Q * bool :=
  let hashtags := ur_hashtags user_row in
  match hashtags with
  | [] => (0, false)
  | _ =>
      let hashtag_counts := map hashtag_count hashtags in
      let has_long := existsb hashtag_is_long hashtags in
      let avg_hashtags := mean_or_zero hashtag_counts in
      (round avg_hashtags 2, has_long)
  end.

(** [rt == True or rt == 'True'] *)
Definition is_retweet (rt : pyval) : bool :=
  match rt with
  | PyBool b => b
  | PyStr s => s =? "True"
  | PyNull => false
  end.

Definition _calc_retweet_ratio (user_row : UserRow) : Q :=
  let retweets := ur_retweetedTweet user_row in
  match retweets with
  | [] => 0
  | _ =>
      let retweet_count := Qlen (filter is_retweet retweets) in
      let total := Qlen retweets in
      let retweet_pct := retweet_count / total * 100 in
      round retweet_pct 2
  end.

(** [pd.isna(v) or v == '' or v == 'PW'] *)
Definition is_blank (v : cell string) : bool :=
  match v with
  | Missing => true
  | Present s => (s =? "") || (s =? "PW")
  end.

(** [_calc_profile_completeness]: [(has_empty_description, has_no_location)] *)
Definition _calc_profile_completeness (user_row : UserRow) : bool * bool :=
  (is_blank (ur_rawDescription user_row), is_blank (ur_location user_row)).

(** The entry a mention cell adds to [mention_counts]. *)
Definition mention_count (mention_list : cell string) : Q :=
  match mention_list with
  | Present m =>
      if m =? "[]" then 0 else QZ (Z.of_nat (count "id_str" m))
  | Missing => 0
  end.

Definition _calc_mention_spam (user_row : UserRow) : Q :=
  let mentions := ur_mentionedUsers user_row in
  match mentions with
  | [] => 0
  | _ => round (mean_or_zero (map mention_count mentions)) 2
  end.

(** [_extract_user_features]: the dictionary that [_tier1_features],
    [_tier2_features] and [_tier3_features] fill, as one record; [None]
    when [_calc_account_age] raises. *)
Definition _extract_user_features (user_row : UserRow)
  : option FeatureVector :=
  match _calc_account_age user_row with
  | None => None
  | Some age =>
      let pattern := _calc_username_pattern user_row in
      let topic := _calc_topic_diversity user_row in
      let hashtag := _calc_hashtag_usage user_row in
      let profile := _calc_profile_completeness user_row in
      Some {|
        username := ur_username user_row;
        user_id := ur_user_id user_row;
        followersCount := ur_followersCount user_row;
        friendsCount := ur_friendsCount user_row;
        follower_following_ratio := Present (_calc_follower_ratio user_row);
        avg_engagement_per_tweet := Present (_calc_engagement_rate user_row);
        favorites_tweets_ratio := Present (_calc_favorites_ratio user_row);
        account_created_date := aa_account_created_date age;
        account_created_year := aa_account_created_year age;
        account_age_days := aa_account_age_days age;
        first_tweet_date := aa_first_tweet_date age;
        created_same_month_as_dataset := aa_created_same_month_as_dataset age;
        lifetime_tweets_per_day := Present (_calc_account_activity user_row);
        posting_freq_tweets_per_day := Present (_calc_posting_frequency user_row);
        reply_ratio_pct := Present (_calc_reply_ratio user_row);
        avg_text_similarity_pct := Present (_calc_text_similarity user_row);
        bot_username_pattern := fst pattern;
        username_ends_with_digits := snd pattern;
        has_default_profile_image := _calc_default_profile user_row;
        topic_concentration_pct := Present (fst topic);
        dominant_keyword := snd topic;
        avg_hashtags_per_tweet := Present (fst hashtag);
        has_long_hashtag := snd hashtag;
        retweet_ratio_pct := Present (_calc_retweet_ratio user_row);
        has_empty_description := fst profile;
        has_no_location := snd profile;
        avg_mentions_per_tweet := Present (_calc_mention_spam user_row);
        is_verified := ur_verified user_row;
        has_blue := ur_blue user_row
      |}
  end.

End Extractor.

(** [extract_all_features]: the rows in order; the first exception ends
    the run.  Every row reads the clock anew: [clock i] is what it
    returns while row [i] is processed. *)
Fixpoint extract_rows (strptime : string -> option Z)
  (similarity_sum : list string -> option Q) (clock : nat -> Z)
  (i : nat) (user_data : list UserRow) : option (list FeatureVector) :=
  match user_data with
  | [] => Some []
  | user_row :: rest =>
      match _extract_user_features strptime similarity_sum (clock i)
              user_row with
      | None => None
      | Some user_features =>
          match extract_rows strptime similarity_sum clock (S i) rest with
          | None => None
          | Some all_features => Some (user_features :: all_features)
          end
      end
  end.

Definition extract_all_features (strptime : string -> option Z)
  (similarity_sum : list string -> option Q) (clock : nat -> Z)
  (user_data : list UserRow) : option (list FeatureVector) :=
  extract_rows strptime similarity_sum clock 0 user_data.


End FeatureExtractor.

(** ** Vocabulary of the properties *)

(** The position of a classification label in the order of the bands. *)
Definition band_rank (label : string) : nat :=
  if (label =? "Likely Human")%string then 0%nat
  else if (label =? "Suspicious")%string then 1%nat
  else if (label =? "Likely Bot")%string then 2%nat
  else 3%nat.

(** A feature row whose pre-discount total is 85.5: four tier-1 bands at
    15 points and the 7.5 points of an account created in 2024 outside the
    month of its first post, the username pattern, and 5 + 3 points of
    tier 3. *)
Definition row_85_5 : FeatureVector := {|
  username := "news_fan_2024";
  user_id := "42";
  followersCount := 0;
  friendsCount := 250;
  follower_following_ratio := Present 0;
  avg_engagement_per_tweet := Present 0;
  favorites_tweets_ratio := Present 0;
  account_created_date := Present "2024-03-02"%string;
  account_created_year := Present 2024%Z;
  account_age_days := Present 213%Z;
  first_tweet_date := Present "2024-10-01"%string;
  created_same_month_as_dataset := Present false;
  lifetime_tweets_per_day := Present 0;
  posting_freq_tweets_per_day := Present 0;
  reply_ratio_pct := Present 0;
  avg_text_similarity_pct := Present 90;
  bot_username_pattern := true;
  username_ends_with_digits := false;
  has_default_profile_image := false;
  topic_concentration_pct := Present 0;
  dominant_keyword := Missing;
  avg_hashtags_per_tweet := Present 4;
  has_long_hashtag := false;
  retweet_ratio_pct := Present 70;
  has_empty_description := false;
  has_no_location := false;
  avg_mentions_per_tweet := Present 0;
  is_verified := false;
  has_blue := false
|}.

(** The text after the first run of characters that are not whitespace:
    where a match of [http\S+] that starts at the head of [s] ends. *)
Fixpoint skip_nonspace (s : string) : string :=
  match s with
  | EmptyString => EmptyString
  | String c s' => if Text.is_space c then s else skip_nonspace s'
  end.

(** No match of the URL pattern starts anywhere in [s]. *)
Fixpoint no_url (s : string) : bool :=
  match s with
  | EmptyString => true
  | String _ s' => negb (TrollFarmDetector.url_at s) && no_url s'
  end.

(** Every whitespace character of [s] is a space that follows a
    character which is not whitespace ([after_space] tells whether the
    text before [s] ended in whitespace). *)
Fixpoint single_spaced (after_space : bool) (s : string) : bool :=
  match s with
  | EmptyString => true
  | String c s' =>
      if Text.is_space c
      then Ascii.eqb c " " && negb after_space && single_spaced true s'
      else single_spaced false s'
  end.

(** [s.split()]: the maximal runs of characters that are not whitespace;
    [cur] is the token being read. *)
Fixpoint split_ws (cur : string) (s : string) : list string :=
  match s with
  | EmptyString => if (cur =? "")%string then [] else [cur]
  | String c s' =>
      if Text.is_space c
      then if (cur =? "")%string then split_ws "" s'
           else cur :: split_ws "" s'
      else split_ws (cur ++ String c "") s'
  end.

(** No token of [s] begins with [http] (which covers [https]). *)
Definition http_token_free (s : string) : bool :=
  forallb (fun token => negb (Text.starts_with "http" token))
          (split_ws "" s).

(** The four steps of [normalize_text] on a text that is not empty. *)
Definition steps (text : string) : string :=
  Text.strip
    (TrollFarmDetector.sub_spaces false
       (TrollFarmDetector.sub_urls false (Text.lower text))).

(** A character that is not whitespace at the head of the result was at
    the head of the argument. *)
Definition head_kept (f : string -> string) : Prop :=
  forall s a r,
    f s = String a r -> Text.is_space a = false ->
    exists s', s = String a s' /\ r = f s'.

(** The label the score table holds for [u]: that of the first row with
    this username, and missing when there is none. *)
Definition classification_of (bot_scores : list TrollFarmDetector.ScoreRow)
  (u : string) : cell string :=
  match find (fun r => (TrollFarmDetector.sc_username r =? u)%string)
             bot_scores with
  | Some r => TrollFarmDetector.sc_classification r
  | None => Missing
  end.

(** The member [u] carries one of the three bot labels. *)
Definition has_bot_label (bot_scores : list TrollFarmDetector.ScoreRow)
  (u : string * nat) : bool :=
  TrollFarmDetector.isin (classification_of bot_scores (fst u))
                         TrollFarmDetector.bot_labels.




(** The account [u] has a post in [tweets] whose normalized text is [m]. *)
Definition posted (tweets : list TrollFarmDetector.Tweet) (m u : string)
  : Prop :=
  exists t, In t tweets
            /\ TrollFarmDetector.normalize_text (TrollFarmDetector.tw_text t) = m
            /\ TrollFarmDetector.tw_username t = u.

(** The dictionary after the posts [l], given as pairs of normalized text
    and username, have been added in order. *)
Definition grouped (l : list (string * string))
  : list (string * list (string * nat)) :=
  fold_left (fun groups p => TrollFarmDetector.add_post (fst p) (snd p) groups)
            l [].


(** [q] is a decimal with at most [n] digits after the point. *)
Definition decimals (n : nat) (q : Q) : Prop :=
  exists k : Z, q == inject_Z k / inject_Z (10 ^ Z.of_nat n).

(** The cell holds a number with at most [n] digits after the point. *)
Definition field_decimals (n : nat) (x : num) : Prop :=
  match x with
  | Present v => decimals n v
  | Missing => False
  end.

(** The cell holds a number within half a unit of the [n]-th decimal
    place of [x]. *)
Definition field_nearest (n : nat) (x : Q) (y : num) : Prop :=
  match y with
  | Present v =>
      Qabs (v - x) <= (1 # 2) / inject_Z (10 ^ Z.of_nat n)
  | Missing => False
  end.

(** The feature record without its [lifetime_tweets_per_day]. *)
Definition forget_lifetime (f : FeatureVector) : FeatureVector := {|
  username := username f;
  user_id := user_id f;
  followersCount := followersCount f;
  friendsCount := friendsCount f;
  follower_following_ratio := follower_following_ratio f;
  avg_engagement_per_tweet := avg_engagement_per_tweet f;
  favorites_tweets_ratio := favorites_tweets_ratio f;
  account_created_date := account_created_date f;
  account_created_year := account_created_year f;
  account_age_days := account_age_days f;
  first_tweet_date := first_tweet_date f;
  created_same_month_as_dataset := created_same_month_as_dataset f;
  lifetime_tweets_per_day := Missing;
  posting_freq_tweets_per_day := posting_freq_tweets_per_day f;
  reply_ratio_pct := reply_ratio_pct f;
  avg_text_similarity_pct := avg_text_similarity_pct f;
  bot_username_pattern := bot_username_pattern f;
  username_ends_with_digits := username_ends_with_digits f;
  has_default_profile_image := has_default_profile_image f;
  topic_concentration_pct := topic_concentration_pct f;
  dominant_keyword := dominant_keyword f;
  avg_hashtags_per_tweet := avg_hashtags_per_tweet f;
  has_long_hashtag := has_long_hashtag f;
  retweet_ratio_pct := retweet_ratio_pct f;
  has_empty_description := has_empty_description f;
  has_no_location := has_no_location f;
  avg_mentions_per_tweet := avg_mentions_per_tweet f;
  is_verified := is_verified f;
  has_blue := has_blue f
|}.

(** An account created on 2024-10-01 (POSIX time 1727740800) that follows
    125 accounts, has 38 followers, 100 lifetime posts and 60 likes, and
    posted twice on 2024-10-05. *)
Definition account_38_125 : FeatureExtractor.UserRow := {|
  FeatureExtractor.ur_username := "maple_reader";
  FeatureExtractor.ur_user_id := "7001";
  FeatureExtractor.ur_created := FeatureExtractor.CreatedAt 1727740800;
  FeatureExtractor.ur_followersCount := 38;
  FeatureExtractor.ur_friendsCount := 125;
  FeatureExtractor.ur_statusesCount := 100;
  FeatureExtractor.ur_favouritesCount := 60;
  FeatureExtractor.ur_location := Present "Ottawa"%string;
  FeatureExtractor.ur_rawDescription := Present "reader"%string;
  FeatureExtractor.ur_profileImageUrl := "https://pbs.example/img/7001.jpg";
  FeatureExtractor.ur_verified := false;
  FeatureExtractor.ur_blue := false;
  FeatureExtractor.ur_text :=
    [Present "Early voting opens today"%string;
     Present "Lines are short at the library"%string];
  FeatureExtractor.ur_epoch := [Present 1728122400%Z; Present 1728129600%Z];
  FeatureExtractor.ur_replyCount := [Present 0; Present 1];
  FeatureExtractor.ur_retweetCount := [Present 2; Missing];
  FeatureExtractor.ur_likeCount := [Present 3; Present 1];
  FeatureExtractor.ur_hashtags := [Present "[]"%string; Present "['vote']"%string];
  FeatureExtractor.ur_mentionedUsers := [Missing; Present "[]"%string];
  FeatureExtractor.ur_retweetedTweet := [PyBool false; PyNull];
  FeatureExtractor.ur_in_reply_to_status_id_str := [Missing; Missing]
|}.

(** [q] is a whole number of halves, respectively of eighths: numbers
    that binary floating point holds exactly (below 2^53). *)
Definition in_halves (q : Q) : Prop := exists k : Z, q == inject_Z k / 2.
Definition in_eighths (q : Q) : Prop := exists k : Z, q == inject_Z k / 8.

(** An account created on 2024-03-02 that follows 250 accounts and has no
    follower, no like and no engagement; its three posts of 2024-10-01
    are replies with four hashtags each, two of them retweets, and share
    no word, so that their similarity matrix is the identity, of sum 3. *)
Definition account_85_5 : FeatureExtractor.UserRow := {|
  FeatureExtractor.ur_username := "news_fan_2024";
  FeatureExtractor.ur_user_id := "42";
  FeatureExtractor.ur_created := FeatureExtractor.CreatedAt 1709380800;
  FeatureExtractor.ur_followersCount := 0;
  FeatureExtractor.ur_friendsCount := 250;
  FeatureExtractor.ur_statusesCount := 400;
  FeatureExtractor.ur_favouritesCount := 0;
  FeatureExtractor.ur_location := Present "Dayton"%string;
  FeatureExtractor.ur_rawDescription := Present "news, mostly"%string;
  FeatureExtractor.ur_profileImageUrl := "https://pbs.example/img/42.jpg";
  FeatureExtractor.ur_verified := false;
  FeatureExtractor.ur_blue := false;
  FeatureExtractor.ur_text :=
    [Present "Polls open at seven"%string;
     Present "RT: turnout looks strong"%string;
     Present "Final results after eight"%string];
  FeatureExtractor.ur_epoch :=
    [Present 1727776800%Z; Present 1727780400%Z; Present 1727784000%Z];
  FeatureExtractor.ur_replyCount := [Present 0; Present 0; Present 0];
  FeatureExtractor.ur_retweetCount := [Present 0; Present 0; Present 0];
  FeatureExtractor.ur_likeCount := [Present 0; Present 0; Present 0];
  FeatureExtractor.ur_hashtags :=
    [Present "['a', 'b', 'c', 'd']"%string;
     Present "['a', 'b', 'c', 'd']"%string;
     Present "['a', 'b', 'c', 'd']"%string];
  FeatureExtractor.ur_mentionedUsers := [Missing; Missing; Missing];
  FeatureExtractor.ur_retweetedTweet := [PyBool false; PyBool true; PyBool true];
  FeatureExtractor.ur_in_reply_to_status_id_str :=
    [Present "991"%string; Present "992"%string; Present "993"%string]
|}.

(** ** BotScorer: the reports *)

Module ScorerReports.

Import BotScorer.

(** [sort_values('total_score', ascending=False)] by insertion.  The
    library does not fix the order of rows with equal totals; this one
    leaves them in their order of arrival. *)
Fixpoint insert_desc (s : ScoreRecord) (sorted : list ScoreRecord)
  : list ScoreRecord :=
  match sorted with
  | [] => [s]
  | x :: rest =>
      if Qle_bool (total_score x) (total_score s) then s :: sorted
      else x :: insert_desc s rest
  end.

Definition sort_by_total_desc (scores : list ScoreRecord)
  : list ScoreRecord :=
  fold_right insert_desc [] scores.

(** [get_flagged_accounts] *)
Definition get_flagged_accounts (scores : list ScoreRecord)
  : list ScoreRecord :=
  let flagged := filter flagged_for_review scores in
  sort_by_total_desc flagged.

(** [generate_summary_report]: [classification_counts.get(label, 0)] of
    [self.scores['classification'].value_counts()]. *)
Definition classification_count (label : string)
  (scores : list ScoreRecord) : nat :=
  List.length (filter (fun s => (classification s =? label)%string) scores).

(** [self.scores['flagged_for_review'].sum()] *)
Definition flagged_count (scores : list ScoreRecord) : nat :=
  List.length (filter flagged_for_review scores).

End ScorerReports.

(** The order of [get_flagged_accounts]: [a] may stand before [b]. *)
Definition total_ge (a b : BotScorer.ScoreRecord) : Prop :=
  BotScorer.total_score b <= BotScorer.total_score a.

(** A feature row on the highest band of every indicator. *)
Definition row_184 : FeatureVector := {|
  username := "x9y8z7w654321";
  user_id := "9";
  followersCount := 0;
  friendsCount := 5000;
  follower_following_ratio := Present 0;
  avg_engagement_per_tweet := Present 0;
  favorites_tweets_ratio := Present 0;
  account_created_date := Present "2024-10-02"%string;
  account_created_year := Present 2024%Z;
  account_age_days := Present 0%Z;
  first_tweet_date := Present "2024-10-02"%string;
  created_same_month_as_dataset := Present true;
  lifetime_tweets_per_day := Present 150;
  posting_freq_tweets_per_day := Present 60;
  reply_ratio_pct := Present 90;
  avg_text_similarity_pct := Present 95;
  bot_username_pattern := true;
  username_ends_with_digits := true;
  has_default_profile_image := true;
  topic_concentration_pct := Present 100;
  dominant_keyword := Present "vote"%string;
  avg_hashtags_per_tweet := Present 4;
  has_long_hashtag := true;
  retweet_ratio_pct := Present 90;
  has_empty_description := true;
  has_no_location := true;
  avg_mentions_per_tweet := Present 4;
  is_verified := false;
  has_blue := false
|}.

(** An account whose profile carries no creation date, with one post. *)
Definition account_no_date : FeatureExtractor.UserRow :=
  FeatureExtractor.mkUserRow "quiet_one" "77" FeatureExtractor.CreatedNull
    10 20 5 1 (Present "Leeds"%string) (Present "hi"%string)
    "https://pbs.example/img/77.jpg" false false
    [Present "Good morning everyone"%string] [Present 1728122400%Z]
    [Present 2] [Present 0] [Present 7]
    [Present "[]"%string] [Present "[]"%string] [PyBool false] [Missing].

(** The number of posts of [tweets] by the account [u] whose normalized
    text is [m]. *)
Definition post_count (tweets : list TrollFarmDetector.Tweet) (m u : string)
  : nat :=
  List.length
    (filter (fun t =>
               (TrollFarmDetector.normalize_text (TrollFarmDetector.tw_text t)
                =? m)%string
               && (TrollFarmDetector.tw_username t =? u)%string)
            tweets).

(** The number of pairs of [l] equal to [(m, u)]. *)
Definition pair_count (l : list (string * string)) (m u : string) : nat :=
  List.length
    (filter (fun p => (fst p =? m)%string && (snd p =? u)%string) l).

(** An account with 900 followers and 40 likes that follows nobody and
    has neither lifetime posts nor observed posts. *)
Definition account_lurker : FeatureExtractor.UserRow :=
  FeatureExtractor.mkUserRow "lurker" "5"
    (FeatureExtractor.CreatedAt 1727740800) 900 0 0 40
    Missing Missing "" false false [] [] [] [] [] [] [] [] [].

(** ** DataLoader: grouping the posts by account *)

Module DataLoader.

Import FeatureExtractor.

(** One row of [self.raw_tweets] after the profile columns of
    [extract_user_fields] have been joined to it: the username of the
    post (missing when the CSV field is empty), the profile fields, and
    the columns of the post the extractor reads. *)
Record RawTweet : Type := mkRawTweet {
  rt_username : cell string;
  rt_user_id : string;
  rt_created : created_val;
  rt_followersCount : Z;
  rt_friendsCount : Z;
  rt_statusesCount : Z;
  rt_favouritesCount : Z;
  rt_location : cell string;
  rt_rawDescription : cell string;
  rt_profileImageUrl : string;
  rt_verified : bool;
  rt_blue : bool;
  rt_text : cell string;
  rt_epoch : cell Z;
  rt_replyCount : num;
  rt_retweetCount : num;
  rt_likeCount : num;
  rt_hashtags : cell string;
  rt_mentionedUsers : cell string;
  rt_retweetedTweet : pyval;
  rt_in_reply_to_status_id_str : cell string
}.

(** The keys of [groupby('username')]: the usernames that occur, each
    once, in increasing order (the order of Python on strings, character
    by character); rows without username belong to no group. *)
Fixpoint insert_key (u : string) (keys : list string) : list string :=
  match keys with
  | [] => [u]
  | k :: rest =>
      match OrdersEx.String_as_OT.compare u k with
      | Lt => u :: keys
      | Eq => keys
      | Gt => k :: insert_key u rest
      end
  end.

Definition group_keys (raw_tweets : list RawTweet) : list string :=
  fold_right insert_key [] (present (map rt_username raw_tweets)).

(** The rows of the group of [u], in the order of the table. *)
Definition group_of (u : string) (raw_tweets : list RawTweet)
  : list RawTweet :=
  filter (fun t => match rt_username t with
                   | Present v => (v =? u)%string
                   | Missing => false
                   end)
         raw_tweets.

(** The body of the loop over the groups: the profile fields are those of
    the first row ([.iloc[0]]), the post columns become lists.  A group
    is never empty. *)
Definition user_record (u : string) (group : list RawTweet)
  : list UserRow :=
  match group with
  | [] => []
  | first :: _ =>
      [ {| ur_username := u;
           ur_user_id := rt_user_id first;
           ur_created := rt_created first;
           ur_followersCount := rt_followersCount first;
           ur_friendsCount := rt_friendsCount first;
           ur_statusesCount := rt_statusesCount first;
           ur_favouritesCount := rt_favouritesCount first;
           ur_location := rt_location first;
           ur_rawDescription := rt_rawDescription first;
           ur_profileImageUrl := rt_profileImageUrl first;
           ur_verified := rt_verified first;
           ur_blue := rt_blue first;
           ur_text := map rt_text group;
           ur_epoch := map rt_epoch group;
           ur_replyCount := map rt_replyCount group;
           ur_retweetCount := map rt_retweetCount group;
           ur_likeCount := map rt_likeCount group;
           ur_hashtags := map rt_hashtags group;
           ur_mentionedUsers := map rt_mentionedUsers group;
           ur_retweetedTweet := map rt_retweetedTweet group;
           ur_in_reply_to_status_id_str :=
             map rt_in_reply_to_status_id_str group |} ]
  end.

(** [aggregate_by_user], from the loop over the groups on. *)
Definition aggregate_by_user (raw_tweets : list RawTweet) : list UserRow :=
  flat_map (fun u => user_record u (group_of u raw_tweets))
           (group_keys raw_tweets).

End DataLoader.

(** The number of posts of a user record, and that all its post lists
    have this length. *)
Definition aligned (n : nat) (r : FeatureExtractor.UserRow) : Prop :=
  List.length (FeatureExtractor.ur_text r) = n
  /\ List.length (FeatureExtractor.ur_epoch r) = n
  /\ List.length (FeatureExtractor.ur_replyCount r) = n
  /\ List.length (FeatureExtractor.ur_retweetCount r) = n
  /\ List.length (FeatureExtractor.ur_likeCount r) = n
  /\ List.length (FeatureExtractor.ur_hashtags r) = n
  /\ List.length (FeatureExtractor.ur_mentionedUsers r) = n
  /\ List.length (FeatureExtractor.ur_retweetedTweet r) = n
  /\ List.length (FeatureExtractor.ur_in_reply_to_status_id_str r) = n.

(** The number of occurrences of the keyword [k] the topic feature
    counts: the texts that contain it, in lower case. *)
Definition keyword_count (texts : list (cell string)) (k : string) : nat :=
  List.length
    (filter (fun text =>
               Text.contains k (Text.lower (FeatureExtractor.str_of text)))
            texts).

(** The order of the group keys: the usual order of strings. *)
Definition key_lt (a b : string) : Prop := OrdersEx.String_as_OT.lt a b.

(** A raw table of three rows: two posts of one account, the second
    without timestamp, and one post of another account. *)
Definition raw_three : list DataLoader.RawTweet :=
  [ DataLoader.mkRawTweet (Present "zoe"%string) "31"
      (FeatureExtractor.CreatedAt 1727740800) 12 40 300 9
      (Present "Kyiv"%string) (Present "hello"%string)
      "https://pbs.example/img/31.jpg" false false
      (Present "First post"%string) (Present 1728122400%Z)
      (Present 0) (Present 1) (Present 2)
      (Present "[]"%string) (Present "[]"%string) (PyBool false) Missing;
    DataLoader.mkRawTweet (Present "adam"%string) "30"
      FeatureExtractor.CreatedNull 5 5 20 1
      Missing Missing "" false true
      (Present "Only post"%string) (Present 1728122500%Z)
      (Present 0) (Present 0) (Present 0)
      (Present "[]"%string) (Present "[]"%string) (PyBool false) Missing;
    DataLoader.mkRawTweet (Present "zoe"%string) "31"
      (FeatureExtractor.CreatedAt 1727740800) 13 40 301 9
      (Present "Kyiv"%string) (Present "hello"%string)
      "https://pbs.example/img/31.jpg" false false
      (Present "Second post"%string) Missing
      (Present 0) (Present 0) (Present 0)
      (Present "[]"%string) (Present "[]"%string) (PyBool true) Missing ].

(** A verified account with 114 points before the discount: tier 1 is
    90, tier 2 is 10, tier 3 is 14. *)
Definition row_114 : FeatureVector := {|
  username := "desk_editor";
  user_id := "114";
  followersCount := 10;
  friendsCount := 4000;
  follower_following_ratio := Present 0;
  avg_engagement_per_tweet := Present 0;
  favorites_tweets_ratio := Present 0;
  account_created_date := Present "2024-10-02"%string;
  account_created_year := Present 2024%Z;
  account_age_days := Present 1%Z;
  first_tweet_date := Present "2024-10-03"%string;
  created_same_month_as_dataset := Present true;
  lifetime_tweets_per_day := Present 120;
  posting_freq_tweets_per_day := Present 5;
  reply_ratio_pct := Present 85;
  avg_text_similarity_pct := Present 10;
  bot_username_pattern := false;
  username_ends_with_digits := false;
  has_default_profile_image := true;
  topic_concentration_pct := Present 0;
  dominant_keyword := Missing;
  avg_hashtags_per_tweet := Present 4;
  has_long_hashtag := false;
  retweet_ratio_pct := Present 90;
  has_empty_description := true;
  has_no_location := true;
  avg_mentions_per_tweet := Present 0;
  is_verified := true;
  has_blue := false
|}.



(** * Properties *)

(** ** BotScorer *)

Module BotScorerSpec.

Import BotScorer.

Lemma Qle_bool_false (a b : Q) : Qle_bool a b = false <-> b < a.
Proof.
  split; intro H.
  - apply Qnot_le_lt. intro Hle. apply Qle_bool_iff in Hle. congruence.
  - destruct (Qle_bool a b) eqn:E; [|reflexivity].
    apply Qle_bool_iff in E. lra.
Qed.

(** Turns every boolean comparison among the hypotheses into the order
    fact it decides. *)
Ltac order_facts :=
  repeat match goal with
  | H : Qle_bool _ _ = true |- _ => apply Qle_bool_iff in H
  | H : Qle_bool _ _ = false |- _ => apply Qle_bool_false in H
  end.

(** Splits on the comparisons of one chain of [if]s. *)
Ltac split_ifs :=
  repeat match goal with
  | |- context [if ?b then _ else _] => destruct b eqn:?
  end.

Lemma classify_likely_human (t : Q) :
  _classify_user t = "Likely Human"%string <-> t <= 35.
Proof.
  unfold _classify_user. split; intro H.
  - destruct (Qle_bool t 35) eqn:E1; [now apply Qle_bool_iff|].
    destruct (Qle_bool t 60); [discriminate|].
    destruct (Qle_bool t 85); discriminate.
  - apply Qle_bool_iff in H. now rewrite H.
Qed.

Lemma classify_suspicious (t : Q) :
  _classify_user t = "Suspicious"%string <-> 35 < t /\ t <= 60.
Proof.
  unfold _classify_user. split; intro H.
  - destruct (Qle_bool t 35) eqn:E1; [discriminate|].
    destruct (Qle_bool t 60) eqn:E2.
    + order_facts. split; assumption.
    + destruct (Qle_bool t 85); discriminate.
  - destruct H as [H1 H2].
    apply Qle_bool_false in H1. apply Qle_bool_iff in H2.
    now rewrite H1, H2.
Qed.

Lemma classify_likely_bot (t : Q) :
  _classify_user t = "Likely Bot"%string <-> 60 < t /\ t <= 85.
Proof.
  unfold _classify_user. split; intro H.
  - destruct (Qle_bool t 35) eqn:E1; [discriminate|].
    destruct (Qle_bool t 60) eqn:E2; [discriminate|].
    destruct (Qle_bool t 85) eqn:E3; [|discriminate].
    order_facts. split; assumption.
  - destruct H as [H1 H2].
    assert (H0 : 35 < t) by lra.
    apply Qle_bool_false in H0, H1. apply Qle_bool_iff in H2.
    now rewrite H0, H1, H2.
Qed.

Lemma classify_definite_bot (t : Q) :
  _classify_user t = "Definite Bot"%string <-> 85 < t.
Proof.
  unfold _classify_user. split; intro H.
  - destruct (Qle_bool t 35) eqn:E1; [discriminate|].
    destruct (Qle_bool t 60) eqn:E2; [discriminate|].
    destruct (Qle_bool t 85) eqn:E3; [discriminate|].
    now apply Qle_bool_false.
  - assert (H0 : 35 < t) by lra. assert (H1 : 60 < t) by lra.
    apply Qle_bool_false in H0, H1, H.
    now rewrite H0, H1, H.
Qed.

Lemma classify_monotone (t t' : Q) :
  t <= t' ->
  (band_rank (_classify_user t) <= band_rank (_classify_user t'))%nat.
Proof.
  intro Hle. unfold _classify_user.
  destruct (Qle_bool t 35) eqn:A1; destruct (Qle_bool t' 35) eqn:B1;
  destruct (Qle_bool t 60) eqn:A2; destruct (Qle_bool t' 60) eqn:B2;
  destruct (Qle_bool t 85) eqn:A3; destruct (Qle_bool t' 85) eqn:B3;
  cbn; try lia; order_facts; lra.
Qed.

(** The label depends on the value of the total only, not on the
    fraction that represents it. *)
Lemma classify_value (t t' : Q) :
  t == t' -> _classify_user t = _classify_user t'.
Proof.
  intro H. unfold _classify_user.
  rewrite (Qleb_comp t t' H 35 35), (Qleb_comp t t' H 60 60),
    (Qleb_comp t t' H 85 85) by reflexivity.
  reflexivity.
Qed.

(** Abstracts the points of one indicator, keeping only their range. *)
Ltac bound_indicator top :=
  match goal with
  | |- context [Qplus _ (if ?b then ?x else ?y)] =>
      let Hv := fresh "Hv" in
      assert (Hv : 0 <= (if b then x else y) <= top) by (split_ifs; lra);
      revert Hv; generalize (if b then x else y); intros ? Hv
  end.

Lemma tier1_range (farms : list string) (row : FeatureVector) :
  0 <= _calculate_tier1_score farms row <= 135.
Proof.
  unfold _calculate_tier1_score. cbv zeta.
  do 9 bound_indicator 15. lra.
Qed.

Lemma tier2_range (row : FeatureVector) :
  0 <= _calculate_tier2_score row <= 30.
Proof.
  unfold _calculate_tier2_score. cbv zeta.
  do 3 bound_indicator 10. lra.
Qed.

Lemma profile_points_range (a b : bool) :
  0 <= Qmin (0 + (if a then 2 else 0) + (if b then 2 else 0)) 5 <= 5.
Proof.
  split.
  - apply Q.min_glb; [destruct a, b; lra | lra].
  - apply Q.le_min_r.
Qed.

Lemma tier3_range (row : FeatureVector) :
  0 <= _calculate_tier3_score row <= 20.
Proof.
  unfold _calculate_tier3_score. cbv zeta.
  pose proof (profile_points_range (has_empty_description row)
                (has_no_location row)) as Hp.
  revert Hp. generalize (Qmin (0 + (if has_empty_description row then 2 else 0)
                                 + (if has_no_location row then 2 else 0)) 5).
  intros p Hp.
  do 3 bound_indicator 5. lra.
Qed.

Lemma total_before_range (farms : list string) (row : FeatureVector) :
  0 <= total_score_before_verification (score_row farms row) <= 185.
Proof.
  cbn.
  pose proof (tier1_range farms row).
  pose proof (tier2_range row).
  pose proof (tier3_range row).
  lra.
Qed.

Lemma flagged_iff (farms : list string) (row : FeatureVector) :
  flagged_for_review (score_row farms row) = true
  <-> 86 <= total_score (score_row farms row).
Proof.
  cbn. apply Qle_bool_iff.
Qed.

(** *** The totals are dyadic *)

Lemma in_halves_plus (a b : Q) : in_halves a -> in_halves b -> in_halves (a + b).
Proof.
  intros [k Hk] [l Hl]. exists (k + l)%Z.
  rewrite Hk, Hl, inject_Z_plus. unfold Qdiv. ring.
Qed.

(** The points of one indicator, over all its bands. *)
Ltac indicator_in_halves :=
  split_ifs;
  first [ exists 0%Z; reflexivity | exists 30%Z; reflexivity
        | exists 20%Z; reflexivity | exists 10%Z; reflexivity
        | exists 15%Z; reflexivity | exists 14%Z; reflexivity
        | exists 6%Z; reflexivity | exists 4%Z; reflexivity
        | exists 8%Z; reflexivity ].

Lemma tiers_in_halves (farms : list string) (row : FeatureVector) :
  in_halves (_calculate_tier1_score farms row)
  /\ in_halves (_calculate_tier2_score row)
  /\ in_halves (_calculate_tier3_score row).
Proof.
  unfold _calculate_tier1_score, _calculate_tier2_score,
    _calculate_tier3_score. cbv zeta.
  repeat split; repeat apply in_halves_plus; indicator_in_halves.
Qed.

(** Every score is a number that floating point arithmetic computes
    without rounding: the pre-discount total a whole number of halves,
    the final total a whole number of eighths. *)
Lemma totals_are_dyadic (farms : list string) (row : FeatureVector) :
  in_halves (total_score_before_verification (score_row farms row))
  /\ in_eighths (total_score (score_row farms row)).
Proof.
  destruct (tiers_in_halves farms row) as (H1 & H2 & H3).
  assert (H : in_halves (total_score_before_verification (score_row farms row)))
    by (cbn; auto using in_halves_plus).
  split; [exact H|].
  destruct H as [k Hk]. cbn in *.
  destruct (is_verified row || has_blue row).
  - exists (3 * k)%Z. rewrite Hk, inject_Z_mult. unfold Qdiv.
    change (inject_Z 3) with 3. field_simplify_eq. ring.
  - exists (4 * k)%Z. rewrite Hk, inject_Z_mult. unfold Qdiv.
    change (inject_Z 4) with 4. field_simplify_eq. ring.
Qed.

(** C1. For every account the classification label is a step function of
    the post-discount total alone: a total of at most 35 is "Likely
    Human", above 35 and at most 60 "Suspicious", above 60 and at most 85
    "Likely Bot", above 85 "Definite Bot".  The function is monotonic in
    the total, and the boundary values 35, 60 and 85 fall in the lower of
    the two adjacent bands. *)
Theorem classification_is_step_function :
  (forall (farms : list string) (features : list FeatureVector),
     Forall (fun s => classification s = _classify_user (total_score s))
            (calculate_all_scores farms features))
  /\ (forall t : Q,
        (_classify_user t = "Likely Human"%string <-> t <= 35)
        /\ (_classify_user t = "Suspicious"%string <-> 35 < t /\ t <= 60)
        /\ (_classify_user t = "Likely Bot"%string <-> 60 < t /\ t <= 85)
        /\ (_classify_user t = "Definite Bot"%string <-> 85 < t))
  /\ (forall t t' : Q, t == t' -> _classify_user t = _classify_user t')
  /\ (forall t t' : Q,
        t <= t' ->
        (band_rank (_classify_user t) <= band_rank (_classify_user t'))%nat)
  /\ _classify_user 35 = "Likely Human"%string
  /\ _classify_user 35.01 = "Suspicious"%string
  /\ _classify_user 60 = "Suspicious"%string
  /\ _classify_user 85 = "Likely Bot"%string.
Proof.
  split; [|split; [|split; [|split]]].
  - intros farms features. unfold calculate_all_scores.
    apply Forall_map, Forall_forall. intros row _. reflexivity.
  - intro t.
    split; [apply classify_likely_human|].
    split; [apply classify_suspicious|].
    split; [apply classify_likely_bot | apply classify_definite_bot].
  - exact classify_value.
  - exact classify_monotone.
  - repeat split; reflexivity.
Qed.

(** [classification_is_step_function] at the totals 35 and 35.01. *)
Lemma classification_witness :
  35 <= 35.01
  /\ (band_rank (_classify_user 35) <= band_rank (_classify_user 35.01))%nat.
Proof.
  assert (H : 35 <= 35.01) by (unfold Qle; cbn; discriminate).
  split; [exact H|].
  exact (proj1 (proj2 (proj2 (proj2 classification_is_step_function)))
           35 35.01 H).
Defined.

(** C3. For every account the three tier scores add up to the
    pre-discount total, and the pre-discount total lies between 0 and
    185. *)
Theorem tiers_sum_to_total_within_range
  (farms : list string) (features : list FeatureVector) :
  Forall (fun s =>
            tier1_score s + tier2_score s + tier3_score s
            == total_score_before_verification s
            /\ 0 <= total_score_before_verification s
            /\ total_score_before_verification s <= 185)
         (calculate_all_scores farms features).
Proof.
  unfold calculate_all_scores.
  apply Forall_map, Forall_forall. intros row _.
  split; [reflexivity|].
  apply (total_before_range farms row).
Qed.

(** C4. For every account that is verified or has the paid badge the
    final total is the pre-discount total times 0.75; for every other
    account it is the pre-discount total itself. *)
Theorem verification_discount
  (farms : list string) (row : FeatureVector) :
  (is_verified row = true \/ has_blue row = true ->
   total_score (score_row farms row)
   == total_score_before_verification (score_row farms row) * 0.75)
  /\ (is_verified row = false /\ has_blue row = false ->
      total_score (score_row farms row)
      == total_score_before_verification (score_row farms row)).
Proof.
  split.
  - intro H. cbn.
    assert (E : is_verified row || has_blue row = true)
      by (destruct H as [H|H]; rewrite H; auto using orb_true_r).
    rewrite E. reflexivity.
  - intros [H1 H2]. cbn. rewrite H1, H2. reflexivity.
Qed.

(** [verification_discount] at a verified account whose pre-discount
    total is 85.5, and at the same account without the badge. *)
Lemma verification_discount_witness :
  (is_verified row_85_5 = false /\ has_blue row_85_5 = false)
  /\ total_score (score_row [] row_85_5) == 85.5
  /\ total_score
       (score_row []
          {| username := username row_85_5; user_id := user_id row_85_5;
             followersCount := 0; friendsCount := 250;
             follower_following_ratio := Present 0;
             avg_engagement_per_tweet := Present 0;
             favorites_tweets_ratio := Present 0;
             account_created_date := Missing;
             account_created_year := Present 2024%Z;
             account_age_days := Missing;
             first_tweet_date := Missing;
             created_same_month_as_dataset := Present false;
             lifetime_tweets_per_day := Present 0;
             posting_freq_tweets_per_day := Present 0;
             reply_ratio_pct := Present 0;
             avg_text_similarity_pct := Present 90;
             bot_username_pattern := true;
             username_ends_with_digits := false;
             has_default_profile_image := false;
             topic_concentration_pct := Present 0;
             dominant_keyword := Missing;
             avg_hashtags_per_tweet := Present 4;
             has_long_hashtag := false;
             retweet_ratio_pct := Present 70;
             has_empty_description := false;
             has_no_location := false;
             avg_mentions_per_tweet := Present 0;
             is_verified := true;
             has_blue := false |})
     == 85.5 * 0.75.
Proof.
  split; [split; reflexivity|]. split.
  - rewrite (proj2 (verification_discount [] row_85_5));
      [reflexivity | split; reflexivity].
  - rewrite (proj1 (verification_discount [] _)); [reflexivity | now left].
Defined.

(** C2, at the account [account_85_5], whose feature row scores like
    [row_85_5].  The total is 85.5: the label is "Definite Bot" and the
    review flag is off, so the flag and the top band are not the same set
    of accounts, although the flag itself is exactly "total at least
    86". *)
Theorem top_band_without_flag :
  (exists fv,
     FeatureExtractor._extract_user_features
       (fun _ => None) (fun _ => Some 3) 1730678400 account_85_5 = Some fv
     /\ total_score (score_row [] fv) == 85.5
     /\ classification (score_row [] fv) = "Definite Bot"%string
     /\ flagged_for_review (score_row [] fv) = false)
  /\ total_score (score_row [] row_85_5) == 85.5
  /\ classification (score_row [] row_85_5) = "Definite Bot"%string
  /\ flagged_for_review (score_row [] row_85_5) = false
  /\ (forall (farms : list string) (row : FeatureVector),
        flagged_for_review (score_row farms row) = true
        <-> 86 <= total_score (score_row farms row)).
Proof.
  split.
  - eexists. split; [reflexivity|]. repeat split; reflexivity.
  - repeat split; try reflexivity; apply flagged_iff.
Qed.

End BotScorerSpec.

(** ** Text normalization *)

Module NormalizeSpec.

Import Text TrollFarmDetector.
#[local] Open Scope string_scope.

Lemma normalize_text_steps (x : string) :
  normalize_text (Present x) = steps x.
Proof.
  unfold normalize_text. destruct (x =? "") eqn:E; [|reflexivity].
  apply String.eqb_eq in E. subst x. reflexivity.
Qed.

(** *** Characters *)

Lemma lower_char_idem (c : ascii) : lower_char (lower_char c) = lower_char c.
Proof.
  destruct c as [[] [] [] [] [] [] [] []]; reflexivity.
Qed.

Lemma eqb_nonspace (c a : ascii) :
  Ascii.eqb c a = true -> is_space a = false -> is_space c = false.
Proof.
  intros E H. apply Ascii.eqb_eq in E. now subst.
Qed.

Lemma space_not_h (c : ascii) : is_space c = true -> Ascii.eqb c "h" = false.
Proof.
  intro H. destruct (Ascii.eqb c "h") eqn:E; [|reflexivity].
  apply Ascii.eqb_eq in E. subst c. discriminate H.
Qed.

Lemma url_at_space (c : ascii) (s : string) :
  is_space c = true -> url_at (String c s) = false.
Proof.
  intro H. unfold url_at.
  destruct s as [|c2 [|c3 [|c4 [|c5 s]]]]; try reflexivity.
  now rewrite (space_not_h c H).
Qed.

(** *** Prefixes and suffixes *)

Lemma lstrip_suffix (s : string) : exists p, s = p ++ lstrip s.
Proof.
  induction s as [|c s [p IH]]; [now exists ""|].
  cbn. destruct (is_space c).
  - exists (String c p). cbn. now rewrite <- IH.
  - now exists "".
Qed.

Lemma rstrip_prefix (s : string) : exists q, s = rstrip s ++ q.
Proof.
  induction s as [|c s [q IH]]; [now exists ""|].
  cbn. destruct (rstrip s) as [|d r] eqn:E.
  - destruct (is_space c).
    + now exists (String c s).
    + exists q. cbn. now rewrite IH at 1.
  - exists q. cbn. now rewrite IH at 1.
Qed.

Lemma lower_app (p q : string) : lower (p ++ q) = lower p ++ lower q.
Proof.
  induction p as [|c p IH]; [reflexivity|]. cbn. now rewrite IH.
Qed.

Lemma append_inv_length (p p' q q' : string) :
  String.length p = String.length p' -> p ++ q = p' ++ q' -> p = p' /\ q = q'.
Proof.
  revert p'. induction p as [|c p IH]; intros [|c' p'] Hl H;
    try discriminate Hl.
  - now split.
  - cbn in H. injection H as -> H. injection Hl as Hl.
    destruct (IH p' Hl H) as [-> ->]. now split.
Qed.

Lemma lower_length (s : string) : String.length (lower s) = String.length s.
Proof.
  induction s as [|c s IH]; [reflexivity|]. cbn. now rewrite IH.
Qed.

Lemma lowered_app (p q : string) :
  lower (p ++ q) = p ++ q -> lower p = p /\ lower q = q.
Proof.
  rewrite lower_app. apply append_inv_length, lower_length.
Qed.

(** *** Lower case is kept by the later steps *)

Lemma lower_idem (s : string) : lower (lower s) = lower s.
Proof.
  induction s as [|c s IH]; [reflexivity|].
  cbn. now rewrite lower_char_idem, IH.
Qed.

Lemma lowered_sub_urls (b : bool) (s : string) :
  lower s = s -> lower (sub_urls b s) = sub_urls b s.
Proof.
  revert b. induction s as [|c s IH]; intros b H; [reflexivity|].
  cbn in H. injection H as Hc Hs.
  cbn [sub_urls]. destruct b.
  - destruct (is_space c); [cbn; now rewrite Hc, IH | now apply IH].
  - destruct (url_at (String c s)); [now apply IH | cbn; now rewrite Hc, IH].
Qed.

Lemma lowered_sub_spaces (b : bool) (s : string) :
  lower s = s -> lower (sub_spaces b s) = sub_spaces b s.
Proof.
  revert b. induction s as [|c s IH]; intros b H; [reflexivity|].
  cbn in H. injection H as Hc Hs.
  cbn [sub_spaces]. destruct (is_space c).
  - destruct b; [now apply IH | cbn [lower]; now rewrite IH].
  - cbn. now rewrite Hc, IH.
Qed.

Lemma lowered_strip (s : string) : lower s = s -> lower (strip s) = strip s.
Proof.
  intro H. unfold strip.
  destruct (lstrip_suffix s) as [p Hp].
  destruct (rstrip_prefix (lstrip s)) as [q Hq].
  rewrite Hp in H. apply lowered_app in H. destruct H as [_ H].
  rewrite Hq in H. now apply lowered_app in H.
Qed.

(** *** The URL pattern matches nowhere after the substitution *)

Lemma no_url_fixed (s : string) : no_url s = true -> sub_urls false s = s.
Proof.
  induction s as [|c s IH]; [reflexivity|].
  cbn [no_url sub_urls]. intro H. apply andb_true_iff in H. destruct H as [H1 H2].
  apply negb_true_iff in H1. rewrite H1. now rewrite IH.
Qed.

Lemma sub_urls_in_match_head (s : string) :
  sub_urls true s = ""
  \/ exists w r, sub_urls true s = String w r /\ is_space w = true.
Proof.
  induction s as [|c s IH]; [now left|].
  cbn [sub_urls]. destruct (is_space c) eqn:E; [|exact IH].
  right. now exists c, (sub_urls false s).
Qed.

Lemma sub_urls_head_kept : head_kept (sub_urls false).
Proof.
  intros [|c s] a r H Ha; [discriminate H|].
  cbn [sub_urls] in H. destruct (url_at (String c s)).
  - destruct (sub_urls_in_match_head s) as [E | (w & r' & E & Hw)];
      rewrite E in H; [discriminate H|].
    injection H as -> ->. congruence.
  - injection H as -> <-. now exists s.
Qed.

Lemma sub_spaces_head_kept : head_kept (sub_spaces false).
Proof.
  intros [|c s] a r H Ha; [discriminate H|].
  cbn [sub_spaces] in H. destruct (is_space c) eqn:E.
  - injection H as <- _. discriminate Ha.
  - injection H as -> <-. now exists s.
Qed.

Lemma url_at_head_kept (f : string -> string) (c : ascii) (s : string) :
  head_kept f -> url_at (String c (f s)) = true -> url_at (String c s) = true.
Proof.
  intros Hf H.
  destruct (f s) as [|c2 [|c3 [|c4 [|c5 r]]]] eqn:E; try discriminate H.
  cbn [url_at] in H.
  repeat (apply andb_true_iff in H; destruct H as [H ?]).
  match goal with X : negb _ = true |- _ => apply negb_true_iff in X end.
  destruct (Hf _ _ _ E) as (s2 & -> & E2);
    [eapply eqb_nonspace; [eassumption | reflexivity]|].
  symmetry in E2.
  destruct (Hf _ _ _ E2) as (s3 & -> & E3);
    [eapply eqb_nonspace; [eassumption | reflexivity]|].
  symmetry in E3.
  destruct (Hf _ _ _ E3) as (s4 & -> & E4);
    [eapply eqb_nonspace; [eassumption | reflexivity]|].
  symmetry in E4.
  destruct (Hf _ _ _ E4) as (s5 & -> & E5); [assumption|].
  cbn [url_at]. repeat (apply andb_true_iff; split); try assumption.
  now apply negb_true_iff.
Qed.

Lemma no_url_sub_urls (b : bool) (s : string) : no_url (sub_urls b s) = true.
Proof.
  revert b. induction s as [|c s IH]; intro b; [reflexivity|].
  cbn [sub_urls]. destruct b.
  - destruct (is_space c) eqn:E; [|apply IH].
    cbn [no_url]. rewrite (url_at_space c _ E). apply IH.
  - destruct (url_at (String c s)) eqn:E; [apply IH|].
    cbn [no_url]. rewrite IH, andb_true_r. apply negb_true_iff.
    destruct (url_at (String c (sub_urls false s))) eqn:E'; [|reflexivity].
    apply (url_at_head_kept _ _ _ sub_urls_head_kept) in E'. congruence.
Qed.

Lemma no_url_sub_spaces (b : bool) (s : string) :
  no_url s = true -> no_url (sub_spaces b s) = true.
Proof.
  revert b. induction s as [|c s IH]; intros b H; [reflexivity|].
  cbn [no_url] in H. apply andb_true_iff in H. destruct H as [H1 H2].
  apply negb_true_iff in H1.
  cbn [sub_spaces]. destruct (is_space c) eqn:E.
  - destruct b; [now apply IH|].
    cbn [no_url]. rewrite (url_at_space " " _ eq_refl). now apply IH.
  - cbn [no_url]. rewrite (IH false H2), andb_true_r. apply negb_true_iff.
    destruct (url_at (String c (sub_spaces false s))) eqn:E'; [|reflexivity].
    apply (url_at_head_kept _ _ _ sub_spaces_head_kept) in E'. congruence.
Qed.

Lemma url_at_app (p q : string) :
  url_at p = true -> url_at (p ++ q) = true.
Proof.
  destruct p as [|c1 [|c2 [|c3 [|c4 [|c5 p]]]]]; try discriminate.
  intro H. exact H.
Qed.

Lemma no_url_app (p q : string) :
  no_url (p ++ q) = true -> no_url p = true /\ no_url q = true.
Proof.
  induction p as [|c p IH]; [now split|].
  cbn [append no_url]. intro H.
  apply andb_true_iff in H. destruct H as [H1 H2].
  destruct (IH H2) as [Hp Hq]. split; [|exact Hq].
  rewrite Hp, andb_true_r. apply negb_true_iff.
  destruct (url_at (String c p)) eqn:E; [|reflexivity].
  apply (url_at_app _ q) in E. cbn [append] in E.
  rewrite E in H1. discriminate H1.
Qed.

Lemma no_url_strip (s : string) : no_url s = true -> no_url (strip s) = true.
Proof.
  intro H. unfold strip.
  destruct (lstrip_suffix s) as [p Hp].
  destruct (rstrip_prefix (lstrip s)) as [q Hq].
  rewrite Hp in H. apply no_url_app in H. destruct H as [_ H].
  rewrite Hq in H. now apply no_url_app in H.
Qed.

(** *** Whitespace runs *)

Lemma single_spaced_fixed (b : bool) (s : string) :
  single_spaced b s = true -> sub_spaces b s = s.
Proof.
  revert b. induction s as [|c s IH]; intros b H; [reflexivity|].
  cbn [single_spaced sub_spaces] in *. destruct (is_space c).
  - apply andb_true_iff in H. destruct H as [H H3].
    apply andb_true_iff in H. destruct H as [H1 H2].
    apply negb_true_iff in H2. subst b.
    apply Ascii.eqb_eq in H1. subst c. now rewrite IH.
  - now rewrite IH.
Qed.

Lemma single_spaced_sub_spaces (b : bool) (s : string) :
  single_spaced b (sub_spaces b s) = true.
Proof.
  revert b. induction s as [|c s IH]; intro b; [reflexivity|].
  cbn [sub_spaces]. destruct (is_space c) eqn:E.
  - destruct b; [apply IH|]. cbn. apply IH.
  - cbn [single_spaced]. rewrite E. apply IH.
Qed.

Lemma single_spaced_weaken (b : bool) (s : string) :
  single_spaced b s = true -> single_spaced false s = true.
Proof.
  destruct s as [|c s]; [reflexivity|].
  cbn [single_spaced]. destruct (is_space c); [|auto].
  intro H. apply andb_true_iff in H. destruct H as [H H3].
  apply andb_true_iff in H. destruct H as [H1 H2].
  now rewrite H1, H3.
Qed.

Lemma single_spaced_app (b : bool) (p q : string) :
  single_spaced b (p ++ q) = true ->
  single_spaced b p = true /\ single_spaced false q = true.
Proof.
  revert b. induction p as [|c p IH]; intros b H.
  - split; [reflexivity | now apply (single_spaced_weaken b)].
  - cbn [append single_spaced] in *. destruct (is_space c).
    + apply andb_true_iff in H. destruct H as [H H3].
      destruct (IH _ H3) as [Hp Hq]. split; [|exact Hq].
      now rewrite H, Hp.
    + now apply IH.
Qed.

Lemma single_spaced_strip (s : string) :
  single_spaced false s = true -> single_spaced false (strip s) = true.
Proof.
  intro H. unfold strip.
  destruct (lstrip_suffix s) as [p Hp].
  destruct (rstrip_prefix (lstrip s)) as [q Hq].
  rewrite Hp in H. apply single_spaced_app in H. destruct H as [_ H].
  rewrite Hq in H. now apply single_spaced_app in H.
Qed.

(** *** Stripping twice *)

Lemma lstrip_head (s : string) :
  lstrip s = "" \/ exists c r, lstrip s = String c r /\ is_space c = false.
Proof.
  induction s as [|c s IH]; [now left|].
  cbn. destruct (is_space c) eqn:E; [exact IH|].
  right. now exists c, s.
Qed.

Lemma rstrip_cons (c : ascii) (s : string) :
  rstrip (String c s)
  = match rstrip s with
    | "" => if is_space c then "" else String c ""
    | r => String c r
    end.
Proof. reflexivity. Qed.

Lemma rstrip_idem (s : string) : rstrip (rstrip s) = rstrip s.
Proof.
  induction s as [|c s IH]; [reflexivity|].
  cbn [rstrip]. destruct (rstrip s) as [|d r] eqn:E.
  - destruct (is_space c) eqn:Ec; [reflexivity|]. cbn. now rewrite Ec.
  - rewrite rstrip_cons, IH. reflexivity.
Qed.

Lemma rstrip_head (c : ascii) (s : string) :
  is_space c = false -> exists r, rstrip (String c s) = String c r.
Proof.
  intro H. cbn [rstrip]. destruct (rstrip s) as [|d r].
  - rewrite H. now exists "".
  - now exists (String d r).
Qed.

Lemma strip_idem (s : string) : strip (strip s) = strip s.
Proof.
  unfold strip.
  destruct (lstrip_head s) as [E | (c & r & E & Hc)]; rewrite E.
  - reflexivity.
  - destruct (rstrip_head c r Hc) as [r' E'].
    assert (Hl : lstrip (rstrip (String c r)) = rstrip (String c r))
      by (rewrite E'; cbn; now rewrite Hc).
    rewrite Hl. apply rstrip_idem.
Qed.

(** *** The result of the four steps *)

Lemma steps_lowered (x : string) : lower (steps x) = steps x.
Proof.
  unfold steps.
  apply lowered_strip, lowered_sub_spaces, lowered_sub_urls, lower_idem.
Qed.

Lemma steps_no_url (x : string) : no_url (steps x) = true.
Proof.
  unfold steps. apply no_url_strip, no_url_sub_spaces, no_url_sub_urls.
Qed.

Lemma steps_single_spaced (x : string) : single_spaced false (steps x) = true.
Proof.
  unfold steps. apply single_spaced_strip, single_spaced_sub_spaces.
Qed.

Lemma steps_idem (x : string) : steps (steps x) = steps x.
Proof.
  unfold steps at 1.
  rewrite steps_lowered.
  rewrite (no_url_fixed _ (steps_no_url x)).
  rewrite (single_spaced_fixed _ _ (steps_single_spaced x)).
  unfold steps. apply strip_idem.
Qed.

(** The scanner agrees with the reading of [re.sub]: a match that starts
    at the head of the text runs to the next whitespace, and the scan
    resumes there. *)
Lemma sub_urls_in_match (s : string) :
  sub_urls true s = sub_urls false (skip_nonspace s).
Proof.
  induction s as [|c s IH]; [reflexivity|].
  cbn [sub_urls skip_nonspace]. destruct (is_space c) eqn:E; [|exact IH].
  cbn [sub_urls]. now rewrite (url_at_space c s E).
Qed.

Lemma sub_urls_at_match (s : string) :
  url_at s = true -> sub_urls false s = sub_urls false (skip_nonspace s).
Proof.
  destruct s as [|c s]; [discriminate|]. intro H.
  cbn [sub_urls]. rewrite H.
  assert (Hc : is_space c = false).
  { destruct (is_space c) eqn:E; [|reflexivity].
    rewrite (url_at_space c s E) in H. discriminate H. }
  cbn [skip_nonspace]. rewrite Hc. apply sub_urls_in_match.
Qed.

Lemma sub_urls_no_match (c : ascii) (s : string) :
  url_at (String c s) = false ->
  sub_urls false (String c s) = String c (sub_urls false s).
Proof.
  intro H. cbn [sub_urls]. now rewrite H.
Qed.

Lemma after_http (rest : string) :
  no_url ("http" ++ rest) = true ->
  single_spaced false ("http" ++ rest) = true ->
  rest = "" \/ exists rest', rest = String " " rest'.
Proof.
  intros Hu Hs. destruct rest as [|c rest]; [now left|]. right.
  cbn in Hu. apply andb_true_iff in Hu. destruct Hu as [Hu _].
  apply negb_true_iff, negb_false_iff in Hu.
  cbn in Hs. rewrite Hu in Hs.
  apply andb_true_iff in Hs. destruct Hs as [Hs _].
  rewrite andb_true_r in Hs.
  apply Ascii.eqb_eq in Hs. subst c. now exists rest.
Qed.

(** C6, as the claim states it, at the text "visit http now": the text
    is its own normal form, and its second token is [http]. *)
Lemma bare_http_token_is_kept :
  normalize_text (Present "visit http now") = "visit http now"
  /\ http_token_free (normalize_text (Present "visit http now")) = false.
Proof.
  split; reflexivity.
Qed.

(** C6, amended.  Text normalization is idempotent, and its result holds
    no match of the URL pattern, wherever the matches stood in the input:
    each occurrence of [http] that is left is directly followed by a space
    or by the end of the text. *)
Theorem normalize_text_idempotent (x : string) :
  normalize_text (Present (normalize_text (Present x)))
  = normalize_text (Present x)
  /\ no_url (normalize_text (Present x)) = true
  /\ (forall pre rest : string,
        normalize_text (Present x) = pre ++ "http" ++ rest ->
        rest = "" \/ exists rest', rest = String " " rest').
Proof.
  rewrite !normalize_text_steps.
  split; [apply steps_idem|].
  split; [apply steps_no_url|].
  intros pre rest H.
  pose proof (steps_no_url x) as Hu.
  pose proof (steps_single_spaced x) as Hs.
  rewrite H in Hu, Hs.
  apply no_url_app in Hu. apply single_spaced_app in Hs.
  apply after_http; [apply Hu | apply Hs].
Qed.

(** [normalize_text_idempotent] at a text whose middle token is [HTTP]. *)
Lemma normalize_text_witness :
  normalize_text (Present "Go  HTTP now") = "go " ++ "http" ++ " now"
  /\ (" now" = "" \/ exists rest', " now" = String " " rest').
Proof.
  split; [reflexivity|].
  apply (proj2 (proj2 (normalize_text_idempotent "Go  HTTP now")) "go ").
  reflexivity.
Defined.

End NormalizeSpec.

(** ** TrollFarmDetector *)

Module DetectorSpec.

Import Text TrollFarmDetector.
#[local] Open Scope string_scope.
#[local] Open Scope list_scope.

(** *** Original posts *)

Lemma is_original_cases (v : pyval) :
  is_original v = true
  <-> v = PyNull \/ v = PyBool false \/ v = PyStr ""
      \/ v = PyStr "False" \/ v = PyStr "nan" \/ v = PyStr "[]".
Proof.
  split.
  - destruct v as [|[]|s]; cbn; intro H; auto; try discriminate.
    repeat (apply orb_true_iff in H; destruct H as [H|H]);
      apply String.eqb_eq in H; subst s; auto 6.
  - intros [H|[H|[H|[H|[H|H]]]]]; subst v; reflexivity.
Qed.

Lemma filter_original_app (a b : list Tweet) :
  filter_original_tweets (a ++ b)
  = filter_original_tweets a ++ filter_original_tweets b.
Proof.
  apply filter_app.
Qed.

Lemma retweet_is_dropped (pre post : list Tweet) (t : Tweet) :
  is_original (tw_retweetedTweet t) = false ->
  filter_original_tweets (pre ++ t :: post)
  = filter_original_tweets (pre ++ post).
Proof.
  intro H. rewrite !filter_original_app. cbn. now rewrite H.
Qed.

(** C7. A post is kept as original exactly when its retweet indicator is
    null, the boolean false, the empty string, or one of the strings
    "False", "nan", "[]"; the filter keeps these posts and no other, and
    a post with any other indicator does not reach the detector: the
    farms are those of the corpus without it. *)
Theorem original_posts_only :
  (forall v : pyval,
     is_original v = true
     <-> v = PyNull \/ v = PyBool false \/ v = PyStr ""
         \/ v = PyStr "False" \/ v = PyStr "nan" \/ v = PyStr "[]")
  /\ (forall (raw_tweets : list Tweet) (t : Tweet),
        In t (filter_original_tweets raw_tweets)
        <-> In t raw_tweets /\ is_original (tw_retweetedTweet t) = true)
  /\ (forall (pre post : list Tweet) (t : Tweet) (bot_scores : list ScoreRow),
        is_original (tw_retweetedTweet t) = false ->
        detect (pre ++ t :: post) bot_scores = detect (pre ++ post) bot_scores).
Proof.
  split; [exact is_original_cases|]. split.
  - intros raw_tweets t. apply filter_In.
  - intros pre post t bot_scores H. unfold detect.
    now rewrite (retweet_is_dropped pre post t H).
Qed.

(** [original_posts_only] at a corpus of one retweet. *)
Lemma original_posts_witness :
  is_original (PyStr "{'id': 7}") = false
  /\ detect [mkTweet "acct0" (Present "vote") (PyStr "{'id': 7}")] [] = [].
Proof.
  split; [reflexivity|].
  apply (proj2 (proj2 original_posts_only) [] []
           (mkTweet "acct0" (Present "vote") (PyStr "{'id': 7}")) []).
  reflexivity.
Defined.

(** *** The join with the score table *)


Lemma bot_count_app (a b : list Member) :
  bot_count (a ++ b) = (bot_count a + bot_count b)%nat.
Proof.
  unfold bot_count. now rewrite filter_app, length_app.
Qed.

Lemma no_row_no_match (bot_scores : list ScoreRow) (u : string) :
  (forall r, In r bot_scores -> sc_username r <> u) ->
  filter (fun r => sc_username r =? u) bot_scores = [].
Proof.
  induction bot_scores as [|r rest IH]; intro H; [reflexivity|].
  cbn. destruct (sc_username r =? u) eqn:E.
  - apply String.eqb_eq in E. exfalso. apply (H r); [now left | exact E].
  - apply IH. intros r' Hr'. apply H. now right.
Qed.


Lemma Qnat_nonneg (n : nat) : 0 <= Qnat n.
Proof.
  unfold Qnat. rewrite <- (Zle_Qle 0). lia.
Qed.


Lemma Qnat_pos (n : nat) : (0 < n)%nat -> 0 < Qnat n.
Proof.
  intro H. unfold Qnat. rewrite <- (Zlt_Qlt 0). lia.
Qed.




(** *** The message groups *)

Lemma bump_keys (u v : string) (users : list (string * nat)) :
  In v (map fst (bump u users)) <-> v = u \/ In v (map fst users).
Proof.
  induction users as [|[w n] rest IH]; cbn.
  - intuition auto.
  - destruct (w =? u) eqn:E; cbn.
    + apply String.eqb_eq in E. subst w. intuition auto.
    + rewrite IH. intuition auto.
Qed.

Lemma bump_NoDup (u : string) (users : list (string * nat)) :
  NoDup (map fst users) -> NoDup (map fst (bump u users)).
Proof.
  induction users as [|[w n] rest IH]; cbn; intro H.
  - constructor; [intros [] | constructor].
  - inversion H as [|? ? Hw Hrest]; subst.
    destruct (w =? u) eqn:E; cbn.
    + constructor; assumption.
    + constructor; [|now apply IH].
      rewrite bump_keys. intros [->|Hin]; [|contradiction].
      rewrite String.eqb_refl in E. discriminate E.
Qed.


Lemma add_post_keys (msg u k : string)
  (groups : list (string * list (string * nat))) :
  In k (map fst (add_post msg u groups)) <-> k = msg \/ In k (map fst groups).
Proof.
  induction groups as [|[m users] rest IH]; cbn.
  - intuition auto.
  - destruct (m =? msg) eqn:E; cbn.
    + apply String.eqb_eq in E. subst m. intuition auto.
    + rewrite IH. intuition auto.
Qed.

Lemma add_post_NoDup (msg u : string)
  (groups : list (string * list (string * nat))) :
  NoDup (map fst groups) -> NoDup (map fst (add_post msg u groups)).
Proof.
  induction groups as [|[m users] rest IH]; cbn; intro H.
  - constructor; [intros [] | constructor].
  - inversion H as [|? ? Hm Hrest]; subst.
    destruct (m =? msg) eqn:E; cbn.
    + constructor; assumption.
    + constructor; [|now apply IH].
      rewrite add_post_keys. intros [->|Hin]; [|contradiction].
      rewrite String.eqb_refl in E. discriminate E.
Qed.

(** What [add_post] leaves in a dictionary whose keys are distinct. *)
Lemma add_post_In (msg u : string)
  (groups : list (string * list (string * nat)))
  (m : string) (users : list (string * nat)) :
  NoDup (map fst groups) ->
  In (m, users) (add_post msg u groups) ->
  (m <> msg /\ In (m, users) groups)
  \/ (m = msg /\ exists old, In (msg, old) groups /\ users = bump u old)
  \/ (m = msg /\ ~ In msg (map fst groups) /\ users = [(u, 1%nat)]).
Proof.
  induction groups as [|[m' users'] rest IH]; cbn; intros Hnd Hin.
  - destruct Hin as [Hin|[]]. injection Hin as <- <-.
    right. right. intuition auto.
  - inversion Hnd as [|? ? Hm Hrest]; subst.
    destruct (m' =? msg) eqn:E.
    + apply String.eqb_eq in E. subst m'.
      destruct Hin as [Hin|Hin].
      * injection Hin as <- <-. right. left.
        split; [reflexivity|]. exists users'. split; [now left | reflexivity].
      * left. split; [|now right].
        intros ->. apply Hm. now apply (in_map fst) in Hin.
    + apply String.eqb_neq in E. destruct Hin as [Hin|Hin].
      * injection Hin as <- <-. left. split; [exact E | now left].
      * destruct (IH Hrest Hin) as [[H1 H2]|[[H1 (old & H2 & H3)]|[H1 [H2 H3]]]].
        -- left. split; [exact H1 | now right].
        -- right. left. split; [exact H1|]. exists old. split; [now right | exact H3].
        -- right. right. split; [exact H1|]. split; [|exact H3].
           intros [Hk|Hk]; [now apply E | now apply H2].
Qed.

Lemma grouped_snoc (l : list (string * string)) (m u : string) :
  grouped (l ++ [(m, u)]) = add_post m u (grouped l).
Proof.
  unfold grouped. now rewrite fold_left_app.
Qed.

(** The dictionary has one entry per text, every text that was posted has
    an entry, and the users of an entry are, without repetition, the
    accounts that posted its text. *)
Lemma grouped_invariant (l : list (string * string)) :
  NoDup (map fst (grouped l))
  /\ (forall m u, In (m, u) l -> In m (map fst (grouped l)))
  /\ (forall m users,
        In (m, users) (grouped l) ->
        NoDup (map fst users)
        /\ forall u, In u (map fst users) <-> In (m, u) l).
Proof.
  induction l as [|[m0 u0] l (Hnd & Hkey & Hgrp)] using rev_ind.
  - split; [constructor|]. split; [intros ? ? []|intros ? ? []].
  - rewrite grouped_snoc. split; [now apply add_post_NoDup|]. split.
    + intros m u Hin. rewrite add_post_keys.
      apply in_app_or in Hin. destruct Hin as [Hin|[Hin|[]]].
      * right. now apply (Hkey m u).
      * injection Hin as <- <-. now left.
    + intros m users Hin.
      destruct (add_post_In m0 u0 _ m users Hnd Hin)
        as [[H1 H2]|[[H1 (old & H2 & H3)]|[H1 [H2 H3]]]].
      * destruct (Hgrp m users H2) as [N I]. split; [exact N|].
        intro u. rewrite I, in_app_iff. cbn. split; [auto|].
        intros [H|[H|[]]]; [exact H|]. injection H as H _. congruence.
      * subst m users. destruct (Hgrp m0 old H2) as [N I].
        split; [now apply bump_NoDup|].
        intro u. rewrite bump_keys, I, in_app_iff. cbn. split.
        -- intros [->|H]; auto.
        -- intros [H|[H|[]]]; [now right|]. injection H as <-. now left.
      * subst m users. split.
        -- cbn. constructor; [intros [] | constructor].
        -- intro u. rewrite in_app_iff. cbn. split.
           ++ intros [<-|[]]. right. now left.
           ++ intros [H|[H|[]]].
              ** exfalso. apply H2. now apply (Hkey m0 u).
              ** injection H as <-. now left.
Qed.

Lemma message_groups_grouped (tweets : list Tweet) :
  message_groups tweets
  = grouped (filter (fun p => negb (fst p =? ""))
               (map (fun t => (normalize_text (tw_text t), tw_username t))
                    tweets)).
Proof. reflexivity. Qed.

Lemma kept_posts (tweets : list Tweet) (m u : string) :
  In (m, u) (filter (fun p => negb (fst p =? ""))
               (map (fun t => (normalize_text (tw_text t), tw_username t))
                    tweets))
  <-> m <> "" /\ posted tweets m u.
Proof.
  rewrite filter_In, in_map_iff. cbn [fst]. unfold posted. split.
  - intros [(t & E & Hin) Hne]. injection E as E1 E2.
    split; [|now exists t].
    apply negb_true_iff, String.eqb_neq in Hne. exact Hne.
  - intros [Hne (t & Hin & E1 & E2)]. split.
    + exists t. split; [now rewrite E1, E2 | exact Hin].
    + now apply negb_true_iff, String.eqb_neq.
Qed.

(** The groups of the detector: one per normalized text that is not
    empty, holding once each account that posted it. *)
Lemma message_groups_users (tweets : list Tweet)
  (m : string) (users : list (string * nat)) :
  In (m, users) (message_groups tweets) ->
  NoDup (map fst users)
  /\ forall u, In u (map fst users) <-> m <> "" /\ posted tweets m u.
Proof.
  rewrite message_groups_grouped. intro Hin.
  match type of Hin with
  | In _ (grouped ?l) => destruct (grouped_invariant l) as (_ & _ & Hgrp)
  end.
  destruct (Hgrp m users Hin) as [N I]. split; [exact N|].
  intro u. rewrite I. apply kept_posts.
Qed.



(** *** Qualification *)

Lemma qualify_Some (min_accounts : Z) (min_bot_percentage : Q)
  (bot_scores : list ScoreRow) (g : string * list (string * nat))
  (farm : Farm) :
  qualify min_accounts min_bot_percentage bot_scores g = Some farm
  <-> (min_accounts <= Z.of_nat (List.length (snd g)))%Z
      /\ min_bot_percentage
         <= bot_percentage (bot_count (merge_left (snd g) bot_scores))
                           (List.length (snd g))
      /\ farm = mkFarm (fst g) (List.length (snd g))
                  (bot_count (merge_left (snd g) bot_scores))
                  (bot_percentage (bot_count (merge_left (snd g) bot_scores))
                                  (List.length (snd g)))
                  (merge_left (snd g) bot_scores).
Proof.
  unfold qualify.
  destruct (min_accounts <=? Z.of_nat (List.length (snd g)))%Z eqn:E1.
  - apply Z.leb_le in E1.
    destruct (Qle_bool min_bot_percentage _) eqn:E2.
    + apply Qle_bool_iff in E2. split.
      * intro H. injection H as <-. auto.
      * intros (_ & _ & ->). reflexivity.
    + apply BotScorerSpec.Qle_bool_false in E2. split; [discriminate|].
      intros (_ & H & _). exfalso. apply (Qlt_not_le _ _ E2 H).
  - apply Z.leb_gt in E1. split; [discriminate|].
    intros (H & _). lia.
Qed.

Lemma potential_farms_In (min_accounts : Z) (min_bot_percentage : Q)
  (bot_scores : list ScoreRow) (groups : list (string * list (string * nat)))
  (farm : Farm) :
  In farm (potential_farms min_accounts min_bot_percentage bot_scores groups)
  <-> exists g, In g groups
                /\ qualify min_accounts min_bot_percentage bot_scores g
                   = Some farm.
Proof.
  induction groups as [|g rest IH]; cbn.
  - split; [intros [] | intros (g & [] & _)].
  - destruct (qualify min_accounts min_bot_percentage bot_scores g)
      as [f|] eqn:E; cbn; rewrite IH; split.
    + intros [<-|(g' & Hin & Hq)]; [exists g | exists g']; auto.
    + intros (g' & [<-|Hin] & Hq); [left; congruence | right; now exists g'].
    + intros (g' & Hin & Hq). exists g'. auto.
    + intros (g' & [<-|Hin] & Hq); [congruence | now exists g'].
Qed.

Lemma numbered_farms {A : Type} (start : nat) (l : list A) :
  map snd (combine (seq start (List.length l)) l) = l.
Proof.
  revert start. induction l as [|a l IH]; intro start; [reflexivity|].
  cbn. now rewrite IH.
Qed.

Lemma identify_farms (min_accounts : Z) (min_bot_percentage : Q)
  (bot_scores : list ScoreRow) (tweets : list Tweet) :
  map snd (identify_troll_farms min_accounts min_bot_percentage
             bot_scores tweets)
  = potential_farms min_accounts min_bot_percentage bot_scores
      (message_groups tweets).
Proof.
  unfold identify_troll_farms. apply numbered_farms.
Qed.


(** With one row per account in the score table, the joined rows that
    carry a bot label are the members that carry one. *)
Lemma one_row_per_account (bot_scores : list ScoreRow) (u : string) :
  NoDup (map sc_username bot_scores) ->
  filter (fun r => sc_username r =? u) bot_scores
  = match find (fun r => sc_username r =? u) bot_scores with
    | Some r => [r]
    | None => []
    end.
Proof.
  induction bot_scores as [|r rest IH]; cbn; intro H; [reflexivity|].
  inversion H as [|? ? Hr Hrest]; subst.
  destruct (sc_username r =? u) eqn:E; [|now apply IH].
  apply String.eqb_eq in E. f_equal.
  apply no_row_no_match. intros r' Hin E'. apply Hr.
  rewrite E, <- E'. now apply in_map.
Qed.

Lemma bot_count_merge_one (bot_scores : list ScoreRow) (u : string * nat) :
  NoDup (map sc_username bot_scores) ->
  bot_count (merge_one bot_scores u)
  = if has_bot_label bot_scores u then 1%nat else 0%nat.
Proof.
  intro H. unfold merge_one, has_bot_label, classification_of.
  rewrite (one_row_per_account bot_scores (fst u) H).
  destruct (find _ bot_scores) as [r|]; [|reflexivity].
  unfold bot_count. cbn.
  destruct (isin (sc_classification r) bot_labels); reflexivity.
Qed.

Lemma bot_count_members (bot_scores : list ScoreRow)
  (users : list (string * nat)) :
  NoDup (map sc_username bot_scores) ->
  bot_count (merge_left users bot_scores)
  = List.length (filter (has_bot_label bot_scores) users).
Proof.
  intro H. induction users as [|u rest IH]; [reflexivity|].
  change (merge_left (u :: rest) bot_scores)
    with (merge_one bot_scores u ++ merge_left rest bot_scores).
  rewrite bot_count_app, IH, (bot_count_merge_one _ _ H). cbn.
  destruct (has_bot_label bot_scores u); reflexivity.
Qed.

(** *** A corpus of one shared text *)

















End DetectorSpec.

(** ** FeatureExtractor *)

Module ExtractorSpec.

Import Text FeatureExtractor.
#[local] Open Scope string_scope.
#[local] Open Scope list_scope.
#[local] Open Scope Q_scope.

(** *** Rounding *)

Lemma round_half_even_close (y : Q) :
  - (1 # 2) <= QZ (round_half_even y) - y <= 1 # 2.
Proof.
  unfold round_half_even, QZ.
  pose proof (Qfloor_le y) as Hlo.
  pose proof (Qlt_floor y) as Hhi.
  rewrite inject_Z_plus in Hhi. change (inject_Z 1) with 1 in Hhi.
  destruct (Qcompare (y - inject_Z (Qfloor y)) (1 # 2)) eqn:E.
  - apply Qeq_alt in E.
    destruct (Z.even (Qfloor y)); [lra|].
    rewrite inject_Z_plus. change (inject_Z 1) with 1. lra.
  - apply Qlt_alt in E. lra.
  - apply Qgt_alt in E.
    rewrite inject_Z_plus. change (inject_Z 1) with 1. lra.
Qed.

Lemma round_half_even_comp (x y : Q) :
  x == y -> round_half_even x = round_half_even y.
Proof.
  intro H. unfold round_half_even.
  rewrite (Qfloor_comp x y H).
  assert (E : x - QZ (Qfloor y) == y - QZ (Qfloor y)) by now rewrite H.
  now rewrite (Qcompare_comp _ _ E (1 # 2) (1 # 2) (Qeq_refl _)).
Qed.

Lemma scale_pos (n : nat) : 0 < inject_Z (10 ^ Z.of_nat n).
Proof.
  rewrite <- (Zlt_Qlt 0). apply Z.pow_pos_nonneg; lia.
Qed.

Lemma scale_S (n : nat) :
  Zpos (Pos.pow 10 (Pos.of_nat (S n))) = (10 ^ Z.of_nat (S n))%Z.
Proof.
  rewrite Pos2Z.inj_pow. f_equal.
  rewrite <- (Nat2Pos.id (S n)) at 2 by discriminate.
  symmetry. apply positive_nat_Z.
Qed.

(** [round x n] as a quotient by the [n]-th power of ten. *)
Lemma round_quotient (x : Q) (n : nat) :
  round x n
  == QZ (round_half_even (x * inject_Z (10 ^ Z.of_nat n)))
     / inject_Z (10 ^ Z.of_nat n).
Proof.
  unfold round. destruct n as [|n].
  - change (inject_Z (10 ^ Z.of_nat 0)) with 1.
    rewrite (round_half_even_comp (x * 1) x (Qmult_1_r x)).
    unfold Qdiv. change (/ 1) with 1. now rewrite Qmult_1_r.
  - rewrite Qmake_Qdiv. unfold QZ. rewrite scale_S. reflexivity.
Qed.

Lemma round_decimals (x : Q) (n : nat) : decimals n (round x n).
Proof.
  eexists. apply round_quotient.
Qed.

Lemma round_nearest (x : Q) (n : nat) :
  Qabs (round x n - x) <= (1 # 2) / inject_Z (10 ^ Z.of_nat n).
Proof.
  rewrite (round_quotient x n).
  pose proof (scale_pos n) as Hs.
  pose proof (round_half_even_close (x * inject_Z (10 ^ Z.of_nat n))) as Hk.
  revert Hs Hk.
  generalize (QZ (round_half_even (x * inject_Z (10 ^ Z.of_nat n)))).
  generalize (inject_Z (10 ^ Z.of_nat n)).
  intros s k Hs Hk.
  assert (Ek : k / s * s == k)
    by (rewrite Qmult_comm; apply Qmult_div_r; intro Z; lra).
  assert (Eh : (1 # 2) / s * s == 1 # 2)
    by (rewrite Qmult_comm; apply Qmult_div_r; intro Z; lra).
  revert Ek Eh. generalize (k / s). generalize ((1 # 2) / s).
  intros h r Ek Eh.
  apply Qabs_Qle_condition. split; nra.
Qed.

Lemma zero_decimals (n : nat) : decimals n 0.
Proof.
  exists 0%Z. unfold Qdiv. now rewrite Qmult_0_l.
Qed.

(** *** The places each field is rounded to *)

(** Follows the branches of a [_calc_] function down to the value it
    returns: a rounded number or the constant 0. *)
Ltac returned_value :=
  cbv zeta;
  lazymatch goal with
  | |- decimals _ (round _ _) => apply round_decimals
  | |- decimals _ 0 => apply zero_decimals
  | |- decimals _ (fst (_, _)) => cbn [fst]; returned_value
  | |- decimals _ (fst (match ?x with _ => _ end)) =>
      destruct x; returned_value
  | |- decimals _ (match ?x with _ => _ end) => destruct x; returned_value
  end.

Lemma follower_ratio_places (r : UserRow) :
  decimals 3 (_calc_follower_ratio r).
Proof. unfold _calc_follower_ratio. returned_value. Qed.

Lemma favorites_ratio_places (r : UserRow) :
  decimals 3 (_calc_favorites_ratio r).
Proof. unfold _calc_favorites_ratio. returned_value. Qed.

Lemma engagement_rate_places (r : UserRow) :
  decimals 2 (_calc_engagement_rate r).
Proof. unfold _calc_engagement_rate. returned_value. Qed.

Lemma account_activity_places (strptime : string -> option Z) (now : Z)
  (r : UserRow) :
  decimals 2 (_calc_account_activity strptime now r).
Proof. unfold _calc_account_activity. returned_value. Qed.

Lemma posting_frequency_places (r : UserRow) :
  decimals 2 (_calc_posting_frequency r).
Proof. unfold _calc_posting_frequency. returned_value. Qed.

Lemma reply_ratio_places (r : UserRow) : decimals 2 (_calc_reply_ratio r).
Proof. unfold _calc_reply_ratio. returned_value. Qed.

Lemma text_similarity_places (similarity_sum : list string -> option Q)
  (r : UserRow) :
  decimals 2 (_calc_text_similarity similarity_sum r).
Proof. unfold _calc_text_similarity. returned_value. Qed.

Lemma topic_diversity_places (r : UserRow) :
  decimals 2 (fst (_calc_topic_diversity r)).
Proof. unfold _calc_topic_diversity. returned_value. Qed.

Lemma hashtag_usage_places (r : UserRow) :
  decimals 2 (fst (_calc_hashtag_usage r)).
Proof. unfold _calc_hashtag_usage. returned_value. Qed.

Lemma retweet_ratio_places (r : UserRow) : decimals 2 (_calc_retweet_ratio r).
Proof. unfold _calc_retweet_ratio. returned_value. Qed.

Lemma mention_spam_places (r : UserRow) : decimals 2 (_calc_mention_spam r).
Proof. unfold _calc_mention_spam. returned_value. Qed.

Lemma not_two_places_0_304 : ~ decimals 2 0.304.
Proof.
  intros [k Hk]. unfold Qeq in Hk. cbn in Hk. lia.
Qed.

(** C8, as the claim states it, at the account [account_38_125]: its
    follower/following ratio 38/125 leaves the extractor as 0.304, with
    three digits after the point.  The scorer compares this value with
    its threshold 0.3; rounded to two places the ratio would be 0.30 and
    fall in the band below. *)
Lemma follower_ratio_keeps_three_places :
  exists fv,
    _extract_user_features (fun _ => None) (fun _ => None) 1730678400
      account_38_125 = Some fv
    /\ follower_following_ratio fv = Present 0.304
    /\ ~ field_decimals 2 (follower_following_ratio fv)
    /\ num_le (follower_following_ratio fv) 0.3 = false
    /\ num_le (Present (round (38 / 125) 2)) 0.3 = true.
Proof.
  eexists. split; [reflexivity|]. split; [reflexivity|].
  split; [exact not_two_places_0_304|]. split; reflexivity.
Qed.

(** C8, amended.  The extractor rounds [follower_following_ratio] and
    [favorites_tweets_ratio] to three decimal places: each is the decimal
    with three places nearest to the quotient (or to the fallback 999 or
    0).  Every other ratio and percentage field it produces has two
    decimal places. *)
Theorem ratio_fields_places
  (strptime : string -> option Z) (similarity_sum : list string -> option Q)
  (now : Z) (r : UserRow) (fv : FeatureVector) :
  _extract_user_features strptime similarity_sum now r = Some fv ->
  (field_decimals 3 (follower_following_ratio fv)
   /\ field_nearest 3
        (if (ur_friendsCount r =? 0)%Z then 999
         else QZ (ur_followersCount r) / QZ (ur_friendsCount r))
        (follower_following_ratio fv))
  /\ (field_decimals 3 (favorites_tweets_ratio fv)
      /\ field_nearest 3
           (if (ur_statusesCount r =? 0)%Z then 0
            else QZ (ur_favouritesCount r) / QZ (ur_statusesCount r))
           (favorites_tweets_ratio fv))
  /\ field_decimals 2 (avg_engagement_per_tweet fv)
  /\ field_decimals 2 (lifetime_tweets_per_day fv)
  /\ field_decimals 2 (posting_freq_tweets_per_day fv)
  /\ field_decimals 2 (reply_ratio_pct fv)
  /\ field_decimals 2 (avg_text_similarity_pct fv)
  /\ field_decimals 2 (topic_concentration_pct fv)
  /\ field_decimals 2 (avg_hashtags_per_tweet fv)
  /\ field_decimals 2 (retweet_ratio_pct fv)
  /\ field_decimals 2 (avg_mentions_per_tweet fv).
Proof.
  unfold _extract_user_features.
  destruct (_calc_account_age strptime r) as [age|]; [|discriminate].
  intro H. injection H as <-.
  cbn [follower_following_ratio favorites_tweets_ratio
       avg_engagement_per_tweet lifetime_tweets_per_day
       posting_freq_tweets_per_day reply_ratio_pct avg_text_similarity_pct
       topic_concentration_pct avg_hashtags_per_tweet retweet_ratio_pct
       avg_mentions_per_tweet field_decimals field_nearest].
  split; [split; [apply follower_ratio_places | apply round_nearest]|].
  split; [split; [apply favorites_ratio_places | apply round_nearest]|].
  split; [apply engagement_rate_places|].
  split; [apply account_activity_places|].
  split; [apply posting_frequency_places|].
  split; [apply reply_ratio_places|].
  split; [apply text_similarity_places|].
  split; [apply topic_diversity_places|].
  split; [apply hashtag_usage_places|].
  split; [apply retweet_ratio_places | apply mention_spam_places].
Qed.

(** [ratio_fields_places] at the account [account_38_125]. *)
Lemma ratio_fields_places_witness :
  field_decimals 3
    (Present (_calc_follower_ratio account_38_125))
  /\ field_decimals 2
       (Present (_calc_engagement_rate account_38_125)).
Proof.
  pose proof (ratio_fields_places (fun _ => None) (fun _ => None) 1730678400
                account_38_125 _ eq_refl) as H.
  split; [exact (proj1 (proj1 H)) | exact (proj1 (proj2 (proj2 H)))].
Defined.

(** *** The clock *)

Lemma account_activity_same_day (strptime : string -> option Z)
  (now1 now2 : Z) (r : UserRow) :
  (forall created,
     parse_created strptime (ur_created r) = Some created ->
     Z.max (days_between now1 created) 1
     = Z.max (days_between now2 created) 1) ->
  _calc_account_activity strptime now1 r
  = _calc_account_activity strptime now2 r.
Proof.
  intro H. unfold _calc_account_activity. cbv zeta.
  destruct (ur_created r) eqn:Ec; [reflexivity| |];
    (destruct (ur_statusesCount r =? 0)%Z; [reflexivity|]);
    destruct (parse_created strptime _) as [created|] eqn:Ep;
    try reflexivity; now rewrite (H created eq_refl).
Qed.

Lemma features_but_lifetime (strptime : string -> option Z)
  (similarity_sum : list string -> option Q) (now1 now2 : Z) (r : UserRow) :
  option_map forget_lifetime
    (_extract_user_features strptime similarity_sum now1 r)
  = option_map forget_lifetime
      (_extract_user_features strptime similarity_sum now2 r).
Proof.
  unfold _extract_user_features.
  destruct (_calc_account_age strptime r); reflexivity.
Qed.

Lemma features_same_day (strptime : string -> option Z)
  (similarity_sum : list string -> option Q) (now1 now2 : Z) (r : UserRow) :
  (forall created,
     parse_created strptime (ur_created r) = Some created ->
     Z.max (days_between now1 created) 1
     = Z.max (days_between now2 created) 1) ->
  _extract_user_features strptime similarity_sum now1 r
  = _extract_user_features strptime similarity_sum now2 r.
Proof.
  intro H. unfold _extract_user_features.
  destruct (_calc_account_age strptime r); [|reflexivity].
  now rewrite (account_activity_same_day strptime now1 now2 r H).
Qed.

Lemma some_inj {A : Type} (a b : A) : Some a = Some b -> a = b.
Proof.
  intro H. now injection H.
Qed.

Lemma rows_but_lifetime (strptime : string -> option Z)
  (similarity_sum : list string -> option Q) (clock1 clock2 : nat -> Z)
  (i : nat) (user_data : list UserRow) :
  option_map (map forget_lifetime)
    (extract_rows strptime similarity_sum clock1 i user_data)
  = option_map (map forget_lifetime)
      (extract_rows strptime similarity_sum clock2 i user_data).
Proof.
  revert i. induction user_data as [|r rest IH]; intro i; [reflexivity|].
  cbn [extract_rows].
  pose proof (features_but_lifetime strptime similarity_sum
                (clock1 i) (clock2 i) r) as Hr.
  destruct (_extract_user_features strptime similarity_sum (clock1 i) r)
    as [f1|];
    destruct (_extract_user_features strptime similarity_sum (clock2 i) r)
    as [f2|]; try discriminate Hr; [|reflexivity].
  apply some_inj in Hr. specialize (IH (S i)).
  destruct (extract_rows strptime similarity_sum clock1 (S i) rest) as [l1|];
    destruct (extract_rows strptime similarity_sum clock2 (S i) rest)
    as [l2|]; try discriminate IH; [|reflexivity].
  apply some_inj in IH. cbn [option_map map]. now rewrite Hr, IH.
Qed.

(** C9, as the claim states it, at the account [account_38_125], created
    on 2024-10-01 with 100 lifetime posts: extracted on 2024-11-04 and
    again on 2024-11-05 it gets 2.94 and then 2.86 lifetime posts per
    day, so the two feature records differ. *)
Lemma two_runs_a_day_apart_differ :
  option_map lifetime_tweets_per_day
    (_extract_user_features (fun _ => None) (fun _ => None) 1730678400
       account_38_125) = Some (Present 2.94)
  /\ option_map lifetime_tweets_per_day
       (_extract_user_features (fun _ => None) (fun _ => None) 1730764800
          account_38_125) = Some (Present 2.86)
  /\ _extract_user_features (fun _ => None) (fun _ => None) 1730678400
       account_38_125
     <> _extract_user_features (fun _ => None) (fun _ => None) 1730764800
          account_38_125.
Proof.
  split; [reflexivity|]. split; [reflexivity|].
  intro H. apply (f_equal (option_map lifetime_tweets_per_day)) in H.
  vm_compute in H. discriminate H.
Qed.

(** C9, amended.  Two runs of the extractor on the same account record
    give the same feature record whenever the whole number of days since
    the creation of the account, counted at least 1, is the same at both
    readings of the clock (as it is when the clock reads the same); and
    whatever the clock reads, the two feature records, and the two
    feature tables of a whole run, agree on every field but
    [lifetime_tweets_per_day]. *)
Theorem extraction_repeatable_up_to_clock
  (strptime : string -> option Z) (similarity_sum : list string -> option Q)
  (now1 now2 : Z) (r : UserRow) :
  ((forall created,
      parse_created strptime (ur_created r) = Some created ->
      Z.max (days_between now1 created) 1
      = Z.max (days_between now2 created) 1) ->
   _extract_user_features strptime similarity_sum now1 r
   = _extract_user_features strptime similarity_sum now2 r)
  /\ option_map forget_lifetime
       (_extract_user_features strptime similarity_sum now1 r)
     = option_map forget_lifetime
         (_extract_user_features strptime similarity_sum now2 r)
  /\ (forall (clock1 clock2 : nat -> Z) (user_data : list UserRow),
        option_map (map forget_lifetime)
          (extract_all_features strptime similarity_sum clock1 user_data)
        = option_map (map forget_lifetime)
            (extract_all_features strptime similarity_sum clock2 user_data)).
Proof.
  split; [apply features_same_day|].
  split; [apply features_but_lifetime|].
  intros clock1 clock2 user_data. apply rows_but_lifetime.
Qed.

(** [extraction_repeatable_up_to_clock] at [account_38_125], read at
    midnight and at noon of 2024-11-04. *)
Lemma extraction_repeatable_witness :
  _extract_user_features (fun _ => None) (fun _ => None) 1730678400
    account_38_125
  = _extract_user_features (fun _ => None) (fun _ => None) 1730721600
      account_38_125.
Proof.
  apply (proj1 (extraction_repeatable_up_to_clock (fun _ => None)
                  (fun _ => None) 1730678400 1730721600 account_38_125)).
  intros created H. injection H as <-. reflexivity.
Defined.

End ExtractorSpec.

(** ** BotScorer: ranges, the two passes, the reports *)

Module ScorerExtras.

Import BotScorer ScorerReports BotScorerSpec.

Lemma tier3_at_most_19 (row : FeatureVector) :
  _calculate_tier3_score row <= 19.
Proof.
  unfold _calculate_tier3_score. cbv zeta.
  assert (Hp : Qmin (0 + (if has_empty_description row then 2 else 0)
                       + (if has_no_location row then 2 else 0)) 5 <= 4).
  { eapply Qle_trans; [apply Q.le_min_l|].
    destruct (has_empty_description row), (has_no_location row); lra. }
  revert Hp. generalize (Qmin (0 + (if has_empty_description row then 2 else 0)
                                 + (if has_no_location row then 2 else 0)) 5).
  intros p Hp.
  do 3 bound_indicator 5. lra.
Qed.

Lemma discount_lowers (before : Q) (vb : bool) :
  0 <= before ->
  0 <= (if vb then before * 0.75 else before)
  /\ (if vb then before * 0.75 else before) <= before.
Proof.
  intro H. destruct vb; split; lra.
Qed.

(** X1. The pre-discount total never exceeds 184, not 185: the cap of 5
    on the profile points cannot bind, since the two profile flags give at
    most 4, so tier 3 stays at or below 19.  The final total lies between
    0 and the pre-discount total.  The bound 184 is reached. *)
Theorem score_ranges :
  (forall (farms : list string) (row : FeatureVector),
     tier3_score (score_row farms row) <= 19
     /\ total_score_before_verification (score_row farms row) <= 184
     /\ 0 <= total_score (score_row farms row)
     /\ total_score (score_row farms row)
        <= total_score_before_verification (score_row farms row))
  /\ total_score_before_verification
       (score_row [username row_184] row_184) == 184.
Proof.
  split; [|reflexivity].
  intros farms row.
  pose proof (tier1_range farms row) as H1.
  pose proof (tier2_range row) as H2.
  pose proof (tier3_range row) as H3.
  pose proof (tier3_at_most_19 row) as H3'.
  split; [exact H3'|]. split; [cbn; lra|].
  apply (discount_lowers (_calculate_tier1_score farms row
                          + _calculate_tier2_score row
                          + _calculate_tier3_score row)
           (is_verified row || has_blue row)).
  lra.
Qed.

Lemma tier1_with_farm (farms : list string) (row : FeatureVector) :
  _calculate_tier1_score farms row
  == _calculate_tier1_score [] row
     + (if in_farm farms (username row) then 15 else 0).
Proof.
  unfold _calculate_tier1_score. cbv zeta.
  change (in_farm [] (username row)) with false. cbv iota.
  generalize (if in_farm farms (username row) then 15 else 0).
  intro f. ring.
Qed.

Lemma not_member_same_score (farms : list string) (row : FeatureVector) :
  in_farm farms (username row) = false ->
  score_row farms row = score_row [] row.
Proof.
  intro H. unfold score_row, _calculate_tier1_score. cbv zeta.
  change (in_farm [] (username row)) with false. now rewrite H.
Qed.

(** X2. The second pass differs from the first by the farm indicator
    alone: membership in the farm set adds exactly 15 points to tier 1
    and leaves tiers 2 and 3 as they were, and an account outside the
    set gets the very same score record.  So no final total is below the
    initial one, none exceeds it by more than 15, and no account moves
    to a lower band between the passes. *)
Theorem second_pass_adds_farm_points
  (farms : list string) (row : FeatureVector) :
  tier1_score (score_row farms row)
  == tier1_score (score_row [] row)
     + (if in_farm farms (username row) then 15 else 0)
  /\ tier2_score (score_row farms row) = tier2_score (score_row [] row)
  /\ tier3_score (score_row farms row) = tier3_score (score_row [] row)
  /\ (in_farm farms (username row) = false ->
      score_row farms row = score_row [] row)
  /\ total_score (score_row [] row) <= total_score (score_row farms row)
  /\ total_score (score_row farms row)
     <= total_score (score_row [] row) + 15
  /\ (band_rank (classification (score_row [] row))
      <= band_rank (classification (score_row farms row)))%nat.
Proof.
  pose proof (tier1_with_farm farms row) as H1.
  assert (Hf : 0 <= (if in_farm farms (username row) then 15 else 0) <= 15)
    by (destruct (in_farm farms (username row)); lra).
  assert (Hlo : total_score (score_row [] row)
                <= total_score (score_row farms row)).
  { cbn. revert H1 Hf.
    generalize (if in_farm farms (username row) then 15 else 0).
    intros f H1 Hf. destruct (is_verified row || has_blue row); lra. }
  split; [exact H1|]. split; [reflexivity|]. split; [reflexivity|].
  split; [apply not_member_same_score|]. split; [exact Hlo|]. split.
  - cbn. revert H1 Hf.
    generalize (if in_farm farms (username row) then 15 else 0).
    intros f H1 Hf. destruct (is_verified row || has_blue row); lra.
  - apply classify_monotone. exact Hlo.
Qed.

(** [second_pass_adds_farm_points] at an account outside the farm set. *)
Lemma second_pass_witness :
  score_row ["acct0"%string] row_85_5 = score_row [] row_85_5.
Proof.
  apply (proj1 (proj2 (proj2 (proj2
           (second_pass_adds_farm_points ["acct0"%string] row_85_5))))).
  reflexivity.
Defined.

Lemma missing_same_month_tier1 (farms : list string) (row : FeatureVector) :
  created_same_month_as_dataset row = Missing ->
  15 <= tier1_score (score_row farms row).
Proof.
  intro H. cbn [score_row tier1_score].
  unfold _calculate_tier1_score. cbv zeta. rewrite H. cbn [truthy].
  do 8 bound_indicator 15. lra.
Qed.

Lemma no_creation_date_no_same_month
  (strptime : string -> option Z) (similarity_sum : list string -> option Q)
  (now : Z) (r : FeatureExtractor.UserRow) (fv : FeatureVector) :
  FeatureExtractor.ur_created r = FeatureExtractor.CreatedNull ->
  FeatureExtractor._extract_user_features strptime similarity_sum now r
  = Some fv ->
  created_same_month_as_dataset fv = Missing.
Proof.
  intros Hc. unfold FeatureExtractor._extract_user_features,
    FeatureExtractor._calc_account_age. cbv zeta. rewrite Hc.
  destruct (FeatureExtractor.ur_epoch r) as [|e es];
    [|destruct (FeatureExtractor.present (e :: es))];
    intro H; try discriminate H; injection H as <-; reflexivity.
Qed.

(** X3. An account without a creation date leaves the extractor with a
    missing [created_same_month_as_dataset]; in a feature table where
    this column exists the cell is NaN, which passes the test
    [if same_month] of the scorer: the account gets the 15 points of the
    same-month band, so its tier 1 is at least 15. *)
Theorem missing_same_month_scores_15
  (strptime : string -> option Z) (similarity_sum : list string -> option Q)
  (now : Z) (farms : list string)
  (r : FeatureExtractor.UserRow) (fv : FeatureVector) :
  FeatureExtractor.ur_created r = FeatureExtractor.CreatedNull ->
  FeatureExtractor._extract_user_features strptime similarity_sum now r
  = Some fv ->
  created_same_month_as_dataset fv = Missing
  /\ 15 <= tier1_score (score_row farms fv).
Proof.
  intros Hc He.
  pose proof (no_creation_date_no_same_month _ _ _ _ _ Hc He) as Hm.
  split; [exact Hm | now apply missing_same_month_tier1].
Qed.

(** [missing_same_month_scores_15] at an account without creation date. *)
Lemma missing_same_month_witness :
  exists fv,
    FeatureExtractor._extract_user_features
      (fun _ => None) (fun _ => None) 1730678400 account_no_date = Some fv
    /\ 15 <= tier1_score (score_row [] fv).
Proof.
  eexists. split; [reflexivity|].
  apply (missing_same_month_scores_15 (fun _ => None) (fun _ => None)
           1730678400 [] account_no_date); reflexivity.
Defined.

(** *** The flagged accounts *)

Lemma insert_desc_perm (s : ScoreRecord) (l : list ScoreRecord) :
  Permutation (insert_desc s l) (s :: l).
Proof.
  induction l as [|x rest IH]; cbn; [reflexivity|].
  destruct (Qle_bool (total_score x) (total_score s)); [reflexivity|].
  rewrite IH. apply perm_swap.
Qed.

Lemma sort_by_total_desc_perm (l : list ScoreRecord) :
  Permutation (sort_by_total_desc l) l.
Proof.
  induction l as [|x rest IH]; cbn; [reflexivity|].
  rewrite insert_desc_perm. now constructor.
Qed.

Lemma insert_desc_sorted (s : ScoreRecord) (l : list ScoreRecord) :
  StronglySorted total_ge l -> StronglySorted total_ge (insert_desc s l).
Proof.
  induction l as [|x rest IH]; cbn; intro H.
  - repeat constructor.
  - inversion H as [|? ? Hrest Hx]; subst.
    destruct (Qle_bool (total_score x) (total_score s)) eqn:E.
    + apply Qle_bool_iff in E. constructor; [exact H|].
      constructor; [exact E|].
      eapply Forall_impl; [|exact Hx].
      intros y Hy. unfold total_ge in *. lra.
    + apply Qle_bool_false in E. constructor; [now apply IH|].
      apply (Permutation_Forall (Permutation_sym (insert_desc_perm s rest))).
      constructor; [unfold total_ge; lra | exact Hx].
Qed.

Lemma sort_by_total_desc_sorted (l : list ScoreRecord) :
  StronglySorted total_ge (sort_by_total_desc l).
Proof.
  induction l as [|x rest IH]; cbn; [constructor|].
  now apply insert_desc_sorted.
Qed.

Lemma scored_classification (farms : list string)
  (features : list FeatureVector) (s : ScoreRecord) :
  In s (calculate_all_scores farms features) ->
  classification s = _classify_user (total_score s)
  /\ flagged_for_review s = Qle_bool 86 (total_score s).
Proof.
  unfold calculate_all_scores. rewrite in_map_iff.
  intros (row & <- & _). split; reflexivity.
Qed.

(** X4. [get_flagged_accounts] returns the rows of the score table whose
    total is at least 86, each as often as it occurs, in non-increasing
    order of total, and every row it returns is labelled "Definite
    Bot". *)
Theorem flagged_accounts_sorted_top_band
  (farms : list string) (features : list FeatureVector) :
  let scores := calculate_all_scores farms features in
  Permutation (get_flagged_accounts scores)
              (filter flagged_for_review scores)
  /\ StronglySorted total_ge (get_flagged_accounts scores)
  /\ (forall s, In s (get_flagged_accounts scores)
                <-> In s scores /\ 86 <= total_score s)
  /\ Forall (fun s => classification s = "Definite Bot"%string)
            (get_flagged_accounts scores).
Proof.
  intro scores. unfold get_flagged_accounts. cbv zeta.
  pose proof (sort_by_total_desc_perm (filter flagged_for_review scores))
    as HP.
  assert (HI : forall s, In s (sort_by_total_desc
                                 (filter flagged_for_review scores))
                         <-> In s scores /\ 86 <= total_score s).
  { intro s. split.
    - intro H. apply (Permutation_in _ HP) in H.
      apply filter_In in H. destruct H as [H1 H2]. split; [exact H1|].
      destruct (scored_classification farms features s H1) as [_ Hf].
      rewrite Hf in H2. now apply Qle_bool_iff.
    - intros [H1 H2]. apply (Permutation_in _ (Permutation_sym HP)).
      apply filter_In. split; [exact H1|].
      destruct (scored_classification farms features s H1) as [_ Hf].
      rewrite Hf. now apply Qle_bool_iff. }
  split; [exact HP|]. split; [apply sort_by_total_desc_sorted|].
  split; [exact HI|].
  apply Forall_forall. intros s Hs. apply HI in Hs. destruct Hs as [H1 H2].
  destruct (scored_classification farms features s H1) as [Hc _].
  rewrite Hc. apply classify_definite_bot. lra.
Qed.

(** *** The summary *)

Lemma one_label (t : Q) :
  ((if (_classify_user t =? "Likely Human")%string then 1 else 0)
   + (if (_classify_user t =? "Suspicious")%string then 1 else 0)
   + (if (_classify_user t =? "Likely Bot")%string then 1 else 0)
   + (if (_classify_user t =? "Definite Bot")%string then 1 else 0))%nat
  = 1%nat.
Proof.
  unfold _classify_user.
  destruct (Qle_bool t 35); [reflexivity|].
  destruct (Qle_bool t 60); [reflexivity|].
  destruct (Qle_bool t 85); reflexivity.
Qed.

Lemma count_cons (label : string) (s : ScoreRecord) (l : list ScoreRecord) :
  classification_count label (s :: l)
  = ((if (classification s =? label)%string then 1 else 0)
     + classification_count label l)%nat.
Proof.
  unfold classification_count. cbn.
  destruct (classification s =? label)%string; reflexivity.
Qed.

Lemma filter_length_le_implied {A : Type} (f g : A -> bool) (l : list A) :
  (forall x, In x l -> f x = true -> g x = true) ->
  (List.length (filter f l) <= List.length (filter g l))%nat.
Proof.
  induction l as [|x rest IH]; intro H; [reflexivity|].
  assert (IH' := IH (fun y Hy => H y (or_intror Hy))).
  cbn [filter]. destruct (f x) eqn:Ef.
  - rewrite (H x (or_introl eq_refl) Ef). cbn [List.length]. lia.
  - destruct (g x); cbn [List.length]; lia.
Qed.

(** X5. In the summary report the counts of the four labels add up to
    the number of accounts scored: every account has exactly one of the
    four labels.  The number of flagged accounts is at most the count of
    "Definite Bot". *)
Theorem summary_counts_partition
  (farms : list string) (features : list FeatureVector) :
  let scores := calculate_all_scores farms features in
  (classification_count "Likely Human" scores
   + classification_count "Suspicious" scores
   + classification_count "Likely Bot" scores
   + classification_count "Definite Bot" scores)%nat
  = List.length features
  /\ (flagged_count scores
      <= classification_count "Definite Bot" scores)%nat.
Proof.
  cbv zeta. unfold calculate_all_scores. split.
  - induction features as [|row rest IH]; [reflexivity|].
    cbn [map List.length]. rewrite !count_cons.
    pose proof (one_label (total_score (score_row farms row))) as H1.
    change (_classify_user (total_score (score_row farms row)))
      with (classification (score_row farms row)) in H1.
    lia.
  - unfold flagged_count, classification_count.
    apply filter_length_le_implied. intros s Hs Hf.
    apply in_map_iff in Hs. destruct Hs as (row & <- & _).
    apply flagged_iff in Hf. apply String.eqb_eq.
    change (classification (score_row farms row))
      with (_classify_user (total_score (score_row farms row))).
    apply classify_definite_bot. lra.
Qed.

(** *** The discount and the thresholds *)

Lemma halves_at_least (k : Z) (bound : Z) (q : Q) :
  inject_Z (bound - 1) < q -> q <= inject_Z bound ->
  (q <= inject_Z k <-> inject_Z bound <= inject_Z k).
Proof.
  intros Hlo Hhi. split; intro H.
  - assert (Hk : inject_Z (bound - 1) < inject_Z k) by lra.
    rewrite <- Zlt_Qlt in Hk. rewrite <- Zle_Qle. lia.
  - lra.
Qed.

(** X20. For a verified or paid-verified account the discount moves the
    thresholds of the pre-discount total: the account is flagged exactly
    from 115 points on, and is in the top band exactly from 113.5 points
    on. *)
Theorem discounted_thresholds (farms : list string) (row : FeatureVector) :
  is_verified row || has_blue row = true ->
  (flagged_for_review (score_row farms row) = true
   <-> 115 <= total_score_before_verification (score_row farms row))
  /\ (classification (score_row farms row) = "Definite Bot"%string
      <-> 113.5 <= total_score_before_verification (score_row farms row)).
Proof.
  intro Hv.
  destruct (totals_are_dyadic farms row) as [[k Hk] _].
  assert (Ht : total_score (score_row farms row)
               == total_score_before_verification (score_row farms row)
                  * 0.75)
    by (cbn; rewrite Hv; reflexivity).
  rewrite flagged_iff.
  change (classification (score_row farms row))
    with (_classify_user (total_score (score_row farms row))).
  rewrite classify_definite_bot.
  revert Hk Ht.
  generalize (total_score (score_row farms row)).
  generalize (total_score_before_verification (score_row farms row)).
  intros before total Hk Ht.
  assert (Hk2 : before * 2 == inject_Z k) by (rewrite Hk; field).
  clear Hk.
  pose proof (halves_at_least k 230 (688 # 3)) as H230.
  change (inject_Z 230) with 230 in H230.
  change (inject_Z (230 - 1)) with 229 in H230.
  assert (A : 229 < 688 # 3) by (unfold Qlt; cbn; lia).
  assert (B : 688 # 3 <= 230) by (unfold Qle; cbn; lia).
  specialize (H230 A B).
  split; split; intro H.
  - assert (H' : 688 # 3 <= inject_Z k) by lra. apply H230 in H'. lra.
  - assert (H' : 230 <= inject_Z k) by lra. apply H230 in H'. lra.
  - assert (Hk' : inject_Z 226 < inject_Z k)
      by (change (inject_Z 226) with 226; lra).
    rewrite <- Zlt_Qlt in Hk'.
    assert (Hk3 : inject_Z 227 <= inject_Z k) by (rewrite <- Zle_Qle; lia).
    change (inject_Z 227) with 227 in Hk3. lra.
  - lra.
Qed.

(** [discounted_thresholds] at a verified account with 114 points before
    the discount: in the top band, not flagged. *)
Lemma discounted_thresholds_witness :
  is_verified row_114 || has_blue row_114 = true
  /\ (flagged_for_review (score_row [] row_114) = true
      <-> 115 <= total_score_before_verification (score_row [] row_114))
  /\ 113.5 <= total_score_before_verification (score_row [] row_114).
Proof.
  split; [reflexivity|].
  destruct (discounted_thresholds [] row_114 eq_refl) as [H1 H2].
  split; [exact H1|]. apply H2. reflexivity.
Defined.

End ScorerExtras.

(** ** TrollFarmDetector: the farms, their members, the groups *)

Module DetectorExtras.

Import Text TrollFarmDetector DetectorSpec.
#[local] Open Scope string_scope.
#[local] Open Scope list_scope.

(** *** The farms returned *)








(** *** The usernames handed to the second pass *)

Lemma merge_one_usernames (bot_scores : list ScoreRow) (x : string * nat) :
  merge_one bot_scores x <> []
  /\ Forall (fun mem => m_username mem = fst x) (merge_one bot_scores x).
Proof.
  unfold merge_one.
  destruct (filter (fun r => sc_username r =? fst x) bot_scores) as [|r rows].
  - split; [discriminate | repeat constructor].
  - split; [discriminate|]. apply Forall_map, Forall_forall. reflexivity.
Qed.

Lemma merge_left_usernames (users : list (string * nat))
  (bot_scores : list ScoreRow) (u : string) :
  In u (map m_username (merge_left users bot_scores))
  <-> In u (map fst users).
Proof.
  unfold merge_left. rewrite !in_map_iff. split.
  - intros (mem & <- & Hin). apply in_flat_map in Hin.
    destruct Hin as (x & Hx & Hmem). exists x. split; [|exact Hx].
    destruct (merge_one_usernames bot_scores x) as [_ Hall].
    rewrite Forall_forall in Hall. symmetry. now apply Hall.
  - intros (x & <- & Hx).
    destruct (merge_one_usernames bot_scores x) as [Hne Hall].
    destruct (merge_one bot_scores x) as [|mem rest] eqn:E;
      [contradiction|].
    exists mem. split.
    + rewrite Forall_forall in Hall. apply Hall. now left.
    + apply in_flat_map. exists x. split; [exact Hx|]. rewrite E. now left.
Qed.

(** X7. [get_troll_farm_usernames] returns every username once.  An
    account is in the set exactly when it is a user of a message group
    that passes both thresholds; each such account posted, as an original
    tweet, a text whose normal form is not empty and is shared by at
    least ten distinct accounts. *)
Theorem farm_usernames_are_group_members
  (raw_tweets : list Tweet) (bot_scores : list ScoreRow) :
  let names := get_troll_farm_usernames (detect raw_tweets bot_scores) in
  let originals := filter_original_tweets raw_tweets in
  NoDup names
  /\ (forall u,
        In u names
        <-> exists m users,
              In (m, users) (message_groups originals)
              /\ In u (map fst users)
              /\ (10 <= Z.of_nat (List.length users))%Z
              /\ 50 <= bot_percentage
                         (bot_count (merge_left users bot_scores))
                         (List.length users))
  /\ (forall u,
        In u names ->
        exists (m : string) (users : list (string * nat)),
          m <> "" /\ posted originals m u
          /\ NoDup (map fst users) /\ (10 <= List.length users)%nat
          /\ forall v, In v (map fst users) -> posted originals m v).
Proof.
  cbv zeta.
  assert (HI : forall u,
             In u (get_troll_farm_usernames (detect raw_tweets bot_scores))
             <-> exists m users,
                   In (m, users)
                      (message_groups (filter_original_tweets raw_tweets))
                   /\ In u (map fst users)
                   /\ (10 <= Z.of_nat (List.length users))%Z
                   /\ 50 <= bot_percentage
                              (bot_count (merge_left users bot_scores))
                              (List.length users)).
  { intro u. unfold get_troll_farm_usernames. rewrite nodup_In, in_flat_map.
    split.
    - intros ([i farm] & Hin & Hu). cbn [snd] in Hu.
      apply (in_map snd) in Hin. cbn [snd] in Hin.
      unfold detect in Hin. rewrite identify_farms in Hin.
      apply potential_farms_In in Hin. destruct Hin as ([m users] & Hg & Hq).
      apply qualify_Some in Hq. destruct Hq as (H1 & H2 & ->).
      cbn in *. apply merge_left_usernames in Hu.
      exists m, users. auto.
    - intros (m & users & Hg & Hu & H1 & H2).
      assert (Hf : In (mkFarm m (List.length users)
                         (bot_count (merge_left users bot_scores))
                         (bot_percentage
                            (bot_count (merge_left users bot_scores))
                            (List.length users))
                         (merge_left users bot_scores))
                      (map snd (detect raw_tweets bot_scores))).
      { unfold detect. rewrite identify_farms.
        apply potential_farms_In. exists (m, users). split; [exact Hg|].
        apply qualify_Some. auto. }
      apply in_map_iff in Hf. destruct Hf as ([i farm] & Ef & Hin).
      cbn [snd] in Ef. subst farm.
      eexists. split; [exact Hin|]. cbn [snd users_data].
      now apply merge_left_usernames. }
  split; [apply NoDup_nodup|]. split; [exact HI|].
  intros u Hu. apply HI in Hu. destruct Hu as (m & users & Hg & Hu & H1 & _).
  destruct (message_groups_users _ m users Hg) as [N I].
  exists m, users. split; [now apply (I u)|]. split; [now apply (I u)|].
  split; [exact N|]. split; [lia|].
  intros v Hv. now apply (I v).
Qed.

(** *** The frequency of a member *)

Lemma bump_In (u v : string) (n : nat) (users : list (string * nat)) :
  NoDup (map fst users) ->
  In (v, n) (bump u users) ->
  (v <> u /\ In (v, n) users)
  \/ (v = u /\ exists k, In (u, k) users /\ n = S k)
  \/ (v = u /\ ~ In u (map fst users) /\ n = 1%nat).
Proof.
  induction users as [|[w k] rest IH]; cbn; intros Hnd Hin.
  - destruct Hin as [Hin|[]]. injection Hin as <- <-.
    right. right. intuition auto.
  - inversion Hnd as [|? ? Hw Hrest]; subst.
    destruct (w =? u) eqn:E.
    + apply String.eqb_eq in E. subst w. destruct Hin as [Hin|Hin].
      * injection Hin as <- <-. right. left.
        split; [reflexivity|]. exists k. split; [now left | reflexivity].
      * left. split; [|now right].
        intros ->. apply Hw. now apply (in_map fst) in Hin.
    + apply String.eqb_neq in E. destruct Hin as [Hin|Hin].
      * injection Hin as <- <-. left. split; [exact E | now left].
      * destruct (IH Hrest Hin) as [[H1 H2]|[[H1 (j & H2 & H3)]|[H1 [H2 H3]]]].
        -- left. split; [exact H1 | now right].
        -- right. left. split; [exact H1|]. exists j. split; [now right | exact H3].
        -- right. right. split; [exact H1|]. split; [|exact H3].
           intros [Hk|Hk]; [now apply E | now apply H2].
Qed.

Lemma pair_count_app (l l' : list (string * string)) (m u : string) :
  pair_count (l ++ l') m u = (pair_count l m u + pair_count l' m u)%nat.
Proof.
  unfold pair_count. now rewrite filter_app, length_app.
Qed.

Lemma pair_count_one (m0 u0 m u : string) :
  pair_count [(m0, u0)] m u
  = if (m0 =? m) && (u0 =? u) then 1%nat else 0%nat.
Proof.
  unfold pair_count. cbn. destruct ((m0 =? m) && (u0 =? u)); reflexivity.
Qed.

Lemma pair_count_absent (l : list (string * string)) (m u : string) :
  ~ In (m, u) l -> pair_count l m u = 0%nat.
Proof.
  unfold pair_count. induction l as [|[m' u'] rest IH]; intro H; [reflexivity|].
  cbn. destruct ((m' =? m) && (u' =? u)) eqn:E.
  - apply andb_true_iff in E. destruct E as [E1 E2].
    apply String.eqb_eq in E1, E2. subst. exfalso. apply H. now left.
  - apply IH. intro Hin. apply H. now right.
Qed.

Lemma pair_count_present (l : list (string * string)) (m u : string) :
  In (m, u) l -> (1 <= pair_count l m u)%nat.
Proof.
  unfold pair_count. induction l as [|[m' u'] rest IH]; intro H; [contradiction|].
  cbn. destruct H as [H|H].
  - injection H as -> ->. rewrite !String.eqb_refl. cbn. lia.
  - destruct ((m' =? m) && (u' =? u)); cbn; [lia | now apply IH].
Qed.

Lemma grouped_frequency (l : list (string * string)) (m u : string)
  (users : list (string * nat)) (n : nat) :
  In (m, users) (grouped l) -> In (u, n) users -> n = pair_count l m u.
Proof.
  revert m u users n.
  induction l as [|[m0 u0] l IH] using rev_ind; intros m u users n Hg Hu;
    [contradiction|].
  destruct (grouped_invariant l) as (Hnd & Hkey & Hgrp).
  rewrite grouped_snoc in Hg. rewrite pair_count_app, pair_count_one.
  destruct (add_post_In m0 u0 _ m users Hnd Hg)
    as [[H1 H2]|[[H1 (old & H2 & H3)]|[H1 [H2 H3]]]].
  - rewrite (IH _ _ _ _ H2 Hu).
    apply String.eqb_neq in H1. rewrite String.eqb_sym in H1.
    rewrite H1. cbn. lia.
  - subst m users. rewrite String.eqb_refl. cbn [andb].
    destruct (Hgrp m0 old H2) as [N I].
    destruct (bump_In u0 u n old N Hu)
      as [[K1 K2]|[[K1 (k & K2 & K3)]|[K1 [K2 K3]]]].
    + rewrite (IH _ _ _ _ H2 K2).
      apply String.eqb_neq in K1. rewrite String.eqb_sym in K1.
      rewrite K1. lia.
    + subst u n. rewrite String.eqb_refl, (IH _ _ _ _ H2 K2). lia.
    + subst u n. rewrite String.eqb_refl.
      rewrite pair_count_absent; [reflexivity|].
      intro Hin. apply K2. now apply I.
  - subst m users. destruct Hu as [Hu|[]]. injection Hu as <- <-.
    rewrite !String.eqb_refl. cbn [andb].
    rewrite pair_count_absent; [reflexivity|].
    intro Hin. apply H2. now apply (Hkey m0 u0).
Qed.

Lemma kept_pair_count (tweets : list Tweet) (m u : string) :
  m <> "" ->
  pair_count (filter (fun p => negb (fst p =? ""))
                (map (fun t => (normalize_text (tw_text t), tw_username t))
                     tweets)) m u
  = post_count tweets m u.
Proof.
  intro Hm. unfold pair_count, post_count.
  induction tweets as [|t rest IH]; [reflexivity|].
  cbn [map filter fst snd].
  destruct (normalize_text (tw_text t) =? "") eqn:E; cbn [negb filter fst snd].
  - apply String.eqb_eq in E. rewrite E.
    assert (E' : ("" =? m) = false) by (apply String.eqb_neq; congruence).
    rewrite E'. cbn [andb]. exact IH.
  - destruct ((normalize_text (tw_text t) =? m) && (tw_username t =? u));
      cbn [List.length]; now rewrite IH.
Qed.

(** X8. The frequency a message group records for a user is the number
    of posts of that user whose normalized text is the message of the
    group, and it is at least 1. *)
Theorem message_frequency_counts_posts
  (tweets : list Tweet) (m u : string)
  (users : list (string * nat)) (n : nat) :
  In (m, users) (message_groups tweets) ->
  In (u, n) users ->
  n = post_count tweets m u /\ (1 <= n)%nat.
Proof.
  intros Hg Hu.
  destruct (message_groups_users tweets m users Hg) as [_ I].
  assert (Hm : m <> "") by (apply (I u); now apply (in_map fst) in Hu).
  rewrite message_groups_grouped in Hg.
  pose proof (grouped_frequency _ _ _ _ _ Hg Hu) as E.
  rewrite (kept_pair_count tweets m u Hm) in E. split; [exact E|].
  rewrite E, <- (kept_pair_count tweets m u Hm).
  apply pair_count_present. apply kept_posts. apply (I u).
  now apply (in_map fst) in Hu.
Qed.

(** [message_frequency_counts_posts] at two posts of one account that
    differ in case and in their link. *)
Lemma message_frequency_witness :
  2%nat
  = post_count
      [mkTweet "alice" (Present "Vote today http://t.co/a") PyNull;
       mkTweet "alice" (Present "VOTE  today") (PyBool false)]
      "vote today" "alice"
  /\ (1 <= 2)%nat.
Proof.
  apply (message_frequency_counts_posts
           [mkTweet "alice" (Present "Vote today http://t.co/a") PyNull;
            mkTweet "alice" (Present "VOTE  today") (PyBool false)]
           "vote today" "alice" [("alice", 2%nat)] 2%nat).
  - now left.
  - now left.
Defined.

(** *** The share of bots *)

Lemma share_at_most_100 (c n : nat) :
  (c <= n)%nat ->
  0 <= bot_percentage c n /\ bot_percentage c n <= 100.
Proof.
  intro H. unfold bot_percentage.
  destruct n as [|n].
  - assert (c = 0%nat) by lia. subst c. split; unfold Qle; cbn; lia.
  - pose proof (Qnat_nonneg c) as Hc.
    pose proof (Qnat_pos (S n) (Nat.lt_0_succ n)) as Hn.
    assert (Hcn : Qnat c <= Qnat (S n))
      by (unfold Qnat; rewrite <- Zle_Qle; lia).
    assert (H0 : 0 <= Qnat c / Qnat (S n))
      by (apply Qle_shift_div_l; [exact Hn | lra]).
    assert (H1 : Qnat c / Qnat (S n) <= 1)
      by (apply Qle_shift_div_r; [exact Hn | lra]).
    split; lra.
Qed.

(** X9. With one row per account in the score table, the bot count of a
    group is at most its size and its bot share lies between 0 and 100.
    A score table with two rows for one account breaks this: the left
    join repeats the member, and a group of one gets a share of 200. *)
Theorem bot_share_within_0_100 :
  (forall (bot_scores : list ScoreRow) (users : list (string * nat)),
     NoDup (map sc_username bot_scores) ->
     (bot_count (merge_left users bot_scores) <= List.length users)%nat
     /\ 0 <= bot_percentage (bot_count (merge_left users bot_scores))
                            (List.length users)
     /\ bot_percentage (bot_count (merge_left users bot_scores))
                       (List.length users) <= 100)
  /\ bot_percentage
       (bot_count
          (merge_left [("acct0", 1%nat)]
             [mkScoreRow "acct0" (Present "Likely Bot") (Present 70);
              mkScoreRow "acct0" (Present "Definite Bot") (Present 90)]))
       1
     == 200.
Proof.
  split; [|reflexivity].
  intros bot_scores users Hnd.
  assert (Hle : (bot_count (merge_left users bot_scores)
                 <= List.length users)%nat)
    by (rewrite (bot_count_members bot_scores users Hnd);
        apply filter_length_le).
  split; [exact Hle|]. now apply share_at_most_100.
Qed.

(** [bot_share_within_0_100] at a group of two with one bot. *)
Lemma bot_share_witness :
  bot_percentage
    (bot_count
       (merge_left [("acct0", 1%nat); ("acct1", 3%nat)]
          [mkScoreRow "acct0" (Present "Likely Bot") (Present 70);
           mkScoreRow "acct1" (Present "Likely Human") (Present 10)]))
    2
  <= 100.
Proof.
  apply (proj1 bot_share_within_0_100
           [mkScoreRow "acct0" (Present "Likely Bot") (Present 70);
            mkScoreRow "acct1" (Present "Likely Human") (Present 10)]
           [("acct0", 1%nat); ("acct1", 3%nat)]).
  repeat (constructor; [cbn; intuition discriminate|]). constructor.
Defined.

(** *** The keys of the groups *)

Lemma bump_nonempty (u : string) (users : list (string * nat)) :
  bump u users <> [].
Proof.
  destruct users as [|[v n] rest]; cbn; [discriminate|].
  destruct (v =? u); discriminate.
Qed.

Lemma add_post_nonempty (msg u : string)
  (groups : list (string * list (string * nat))) :
  Forall (fun g => snd g <> []) groups ->
  Forall (fun g => snd g <> []) (add_post msg u groups).
Proof.
  induction groups as [|[m users] rest IH]; cbn; intro H.
  - repeat constructor. discriminate.
  - inversion H as [|? ? Hg Hrest]; subst.
    destruct (m =? msg); constructor; auto. apply bump_nonempty.
Qed.

Lemma grouped_nonempty (l : list (string * string)) :
  Forall (fun g => snd g <> []) (grouped l).
Proof.
  induction l as [|[m u] l IH] using rev_ind; [constructor|].
  rewrite grouped_snoc. now apply add_post_nonempty.
Qed.

Lemma normal_form_fixed (text : cell string) :
  normalize_text (Present (normalize_text text)) = normalize_text text.
Proof.
  destruct text as [x|]; [|reflexivity].
  rewrite !NormalizeSpec.normalize_text_steps. apply NormalizeSpec.steps_idem.
Qed.

Lemma blank_post_is_dropped (pre post : list Tweet) (t : Tweet) :
  normalize_text (tw_text t) = "" ->
  message_groups (pre ++ t :: post) = message_groups (pre ++ post).
Proof.
  intro H. unfold message_groups.
  rewrite !map_app, !filter_app. cbn [map filter fst]. now rewrite H.
Qed.

(** X10. The key of every message group is a normal form that is not
    empty, and the group holds at least one user.  A post whose text is
    missing, or whose text normalizes to the empty string - nothing but
    whitespace and links - joins no group: the groups are those of the
    corpus without it. *)
Theorem group_keys_are_nonempty_normal_forms :
  (forall (tweets : list Tweet) (m : string) (users : list (string * nat)),
     In (m, users) (message_groups tweets) ->
     m <> "" /\ users <> [] /\ normalize_text (Present m) = m)
  /\ (forall (pre post : list Tweet) (t : Tweet),
        normalize_text (tw_text t) = "" ->
        message_groups (pre ++ t :: post) = message_groups (pre ++ post))
  /\ normalize_text Missing = ""
  /\ normalize_text (Present "  https://t.co/abc   http://x.org/y ") = "".
Proof.
  split; [|split; [exact blank_post_is_dropped | split; reflexivity]].
  intros tweets m users Hg.
  destruct (message_groups_users tweets m users Hg) as [_ I].
  assert (Hne : users <> []).
  { rewrite message_groups_grouped in Hg.
    pose proof (grouped_nonempty
                  (filter (fun p => negb (fst p =? ""))
                     (map (fun t => (normalize_text (tw_text t),
                                     tw_username t)) tweets))) as Hall.
    rewrite Forall_forall in Hall. exact (Hall _ Hg). }
  destruct users as [|[u n] rest]; [contradiction|].
  destruct (proj1 (I u) (or_introl eq_refl)) as [Hm (t & _ & Ht & _)].
  split; [exact Hm|]. split; [exact Hne|].
  rewrite <- Ht. apply normal_form_fixed.
Qed.

End DetectorExtras.

(** ** FeatureExtractor: fallbacks, bounds, failures *)

Module ExtractorExtras.

Import Text FeatureExtractor ExtractorSpec.
#[local] Open Scope string_scope.
#[local] Open Scope list_scope.
#[local] Open Scope Q_scope.

(** *** Rounding does not cross a whole number *)

Lemma round_half_even_ge (y : Q) (k : Z) :
  inject_Z k <= y -> (k <= round_half_even y)%Z.
Proof.
  intro H. pose proof (round_half_even_close y) as [Hc _]. unfold QZ in Hc.
  assert (Hlt : inject_Z (k - 1) < inject_Z (round_half_even y)).
  { unfold Z.sub. rewrite inject_Z_plus.
    change (inject_Z (- (1))) with (- (1)). lra. }
  rewrite <- Zlt_Qlt in Hlt. lia.
Qed.

Lemma round_half_even_le (y : Q) (k : Z) :
  y <= inject_Z k -> (round_half_even y <= k)%Z.
Proof.
  intro H. pose proof (round_half_even_close y) as [_ Hc]. unfold QZ in Hc.
  assert (Hlt : inject_Z (round_half_even y) < inject_Z (k + 1)).
  { rewrite inject_Z_plus. change (inject_Z 1) with 1. lra. }
  rewrite <- Zlt_Qlt in Hlt. lia.
Qed.

Lemma round_ge (x : Q) (n : nat) (k : Z) :
  inject_Z k <= x -> inject_Z k <= round x n.
Proof.
  intro H. rewrite (round_quotient x n).
  pose proof (scale_pos n) as Hs.
  apply Qle_shift_div_l; [exact Hs|].
  rewrite <- inject_Z_mult. unfold QZ. rewrite <- Zle_Qle.
  apply round_half_even_ge. rewrite inject_Z_mult.
  apply Qmult_le_compat_r; [exact H | lra].
Qed.

Lemma round_le (x : Q) (n : nat) (k : Z) :
  x <= inject_Z k -> round x n <= inject_Z k.
Proof.
  intro H. rewrite (round_quotient x n).
  pose proof (scale_pos n) as Hs.
  apply Qle_shift_div_r; [exact Hs|].
  rewrite <- inject_Z_mult. unfold QZ. rewrite <- Zle_Qle.
  apply round_half_even_le. rewrite inject_Z_mult.
  apply Qmult_le_compat_r; [exact H | lra].
Qed.

Lemma round_whole (n : nat) (k : Z) : round (inject_Z k) n == inject_Z k.
Proof.
  apply Qle_antisym; [apply round_le | apply round_ge]; apply Qle_refl.
Qed.

Lemma Qlen_nonneg {A : Type} (l : list A) : 0 <= Qlen l.
Proof.
  unfold Qlen, QZ. rewrite <- (Zle_Qle 0). lia.
Qed.

Lemma Qlen_pos {A : Type} (a : A) (l : list A) : 0 < Qlen (a :: l).
Proof.
  unfold Qlen, QZ. rewrite <- (Zlt_Qlt 0). cbn [List.length]. lia.
Qed.

Lemma Qlen_le {A B : Type} (l : list A) (l' : list B) :
  (List.length l <= List.length l')%nat -> Qlen l <= Qlen l'.
Proof.
  intro H. unfold Qlen, QZ. rewrite <- Zle_Qle. lia.
Qed.

(** A count over a larger, non-empty count, as a rounded percentage. *)
Lemma percentage_range (c t : Q) (n : nat) :
  0 <= c -> c <= t -> 0 < t ->
  0 <= round (c / t * 100) n /\ round (c / t * 100) n <= 100.
Proof.
  intros Hc Hct Ht.
  assert (H0 : 0 <= c / t) by (apply Qle_shift_div_l; [exact Ht | lra]).
  assert (H1 : c / t <= 1) by (apply Qle_shift_div_r; [exact Ht | lra]).
  split.
  - apply (round_ge _ n 0). change (inject_Z 0) with 0. lra.
  - apply (round_le _ n 100). change (inject_Z 100) with 100. lra.
Qed.

(** *** Zero denominators *)

(** X11. An account that follows nobody gets the follower/following
    ratio 999 whatever its follower count, too high for any band of the
    scorer.  An account without lifetime posts gets the favorites ratio 0
    and 0 lifetime posts per day, whatever its likes and its age; the
    favorites ratio 0 is below the scorer's threshold 0.1. *)
Theorem zero_denominator_fallbacks
  (strptime : string -> option Z) (similarity_sum : list string -> option Q)
  (now : Z) (r : UserRow) (fv : FeatureVector) :
  _extract_user_features strptime similarity_sum now r = Some fv ->
  (ur_friendsCount r = 0%Z ->
   exists v, follower_following_ratio fv = Present v /\ v == 999
             /\ num_lt (follower_following_ratio fv) 0.1 = false
             /\ num_le (follower_following_ratio fv) 0.5 = false)
  /\ (ur_statusesCount r = 0%Z ->
      exists v, favorites_tweets_ratio fv = Present v /\ v == 0
                /\ num_lt (favorites_tweets_ratio fv) 0.1 = true
                /\ lifetime_tweets_per_day fv = Present 0).
Proof.
  unfold _extract_user_features.
  destruct (_calc_account_age strptime r) as [age|]; [|discriminate].
  intro H. injection H as <-.
  cbn [follower_following_ratio favorites_tweets_ratio
       lifetime_tweets_per_day].
  split; intro Hz.
  - exists (round 999 3). unfold _calc_follower_ratio. rewrite Hz.
    repeat split; reflexivity.
  - exists (round 0 3).
    unfold _calc_favorites_ratio, _calc_account_activity. rewrite Hz.
    cbn [Z.eqb]. cbv zeta iota.
    split; [reflexivity|]. split; [reflexivity|]. split; [reflexivity|].
    destruct (ur_created r); reflexivity.
Qed.

(** [zero_denominator_fallbacks] at [account_lurker], which has 900
    followers and 40 likes, follows nobody and has no lifetime post. *)
Lemma zero_denominator_witness :
  exists v, Present (round 999 3) = Present v /\ v == 999
            /\ num_lt (Present (round 999 3)) 0.1 = false
            /\ num_le (Present (round 999 3)) 0.5 = false.
Proof.
  exact (proj1 (zero_denominator_fallbacks (fun _ => None) (fun _ => None)
                  1730678400 account_lurker _ eq_refl) eq_refl).
Defined.

(** *** Percentages and rates *)

Lemma present_length {A : Type} (l : list (cell A)) :
  (List.length (present l) <= List.length l)%nat.
Proof.
  induction l as [|[a|] rest IH]; cbn; lia.
Qed.

Lemma reply_ratio_range (r : UserRow) :
  0 <= _calc_reply_ratio r /\ _calc_reply_ratio r <= 100.
Proof.
  unfold _calc_reply_ratio. cbv zeta.
  destruct (ur_in_reply_to_status_id_str r) as [|x rest]; [split; lra|].
  apply percentage_range;
    [apply Qlen_nonneg | apply Qlen_le, present_length | apply Qlen_pos].
Qed.

Lemma retweet_ratio_range (r : UserRow) :
  0 <= _calc_retweet_ratio r /\ _calc_retweet_ratio r <= 100.
Proof.
  unfold _calc_retweet_ratio. cbv zeta.
  destruct (ur_retweetedTweet r) as [|x rest]; [split; lra|].
  apply percentage_range;
    [apply Qlen_nonneg | apply Qlen_le, filter_length_le | apply Qlen_pos].
Qed.

Lemma max_by_count_In (best : string * nat) (l : list (string * nat)) :
  In (max_by_count best l) (best :: l).
Proof.
  revert best. induction l as [|kv rest IH]; intro best; [now left|].
  cbn [max_by_count]. destruct (snd best <? snd kv)%nat.
  - right. apply IH.
  - destruct (IH best) as [H|H]; [now left | right; now right].
Qed.

Lemma topic_concentration_range (r : UserRow) :
  0 <= fst (_calc_topic_diversity r) /\ fst (_calc_topic_diversity r) <= 100.
Proof.
  unfold _calc_topic_diversity. cbv zeta.
  destruct (List.length (ur_text r) <? 5)%nat eqn:E5; [cbn; split; lra|].
  apply Nat.ltb_ge in E5.
  destruct (filter _ (map _ political_keywords)) as [|kv rest] eqn:Ek;
    [cbn; split; lra|].
  cbn [fst].
  pose proof (max_by_count_In kv rest) as Hin. rewrite <- Ek in Hin.
  apply filter_In in Hin. destruct Hin as [Hin _].
  apply in_map_iff in Hin. destruct Hin as (keyword & Hd & _).
  rewrite <- Hd. cbn [snd].
  destruct (ur_text r) as [|t ts] eqn:Et; [cbn in E5; lia|].
  apply percentage_range.
  - unfold QZ. rewrite <- (Zle_Qle 0). lia.
  - apply (Qlen_le (filter _ (t :: ts)) (t :: ts)), filter_length_le.
  - apply Qlen_pos.
Qed.

(** X12. The three percentages the extractor derives from counts -
    [reply_ratio_pct], [retweet_ratio_pct] and [topic_concentration_pct]
    - lie between 0 and 100 after rounding, for every account. *)
Theorem percentages_within_0_100
  (strptime : string -> option Z) (similarity_sum : list string -> option Q)
  (now : Z) (r : UserRow) (fv : FeatureVector) :
  _extract_user_features strptime similarity_sum now r = Some fv ->
  (exists v, reply_ratio_pct fv = Present v /\ 0 <= v /\ v <= 100)
  /\ (exists v, retweet_ratio_pct fv = Present v /\ 0 <= v /\ v <= 100)
  /\ (exists v, topic_concentration_pct fv = Present v
                /\ 0 <= v /\ v <= 100).
Proof.
  unfold _extract_user_features.
  destruct (_calc_account_age strptime r) as [age|]; [|discriminate].
  intro H. injection H as <-.
  cbn [reply_ratio_pct retweet_ratio_pct topic_concentration_pct].
  split; [|split]; eexists; (split; [reflexivity|]).
  - apply reply_ratio_range.
  - apply retweet_ratio_range.
  - apply topic_concentration_range.
Qed.

(** [percentages_within_0_100] at the account [account_85_5]. *)
Lemma percentages_witness :
  exists v, Present (_calc_retweet_ratio account_85_5) = Present v
            /\ 0 <= v /\ v <= 100.
Proof.
  exact (proj1 (proj2
           (percentages_within_0_100 (fun _ => None) (fun _ => Some 3)
              1730678400 account_85_5 _ eq_refl))).
Defined.

Lemma whole_count_rounded {A : Type} (l : list A) :
  round (Qlen l) 2 == Qlen l.
Proof.
  apply round_whole.
Qed.

Lemma posting_frequency_range (r : UserRow) :
  0 <= _calc_posting_frequency r
  /\ _calc_posting_frequency r <= Qlen (present (ur_epoch r))
  /\ ((List.length (present (ur_epoch r)) < 2)%nat ->
      _calc_posting_frequency r == Qlen (present (ur_epoch r))).
Proof.
  unfold _calc_posting_frequency. cbv zeta.
  destruct (ur_epoch r) as [|e es] eqn:Ee.
  - change (Qlen (present (@nil (cell Z)))) with 0.
    split; [lra|]. split; [lra|]. intros _. reflexivity.
  - generalize (present (e :: es)). intro ts.
    destruct ts as [|t [|t' ts]].
    + pose proof (whole_count_rounded (@nil Z)) as Hw.
      pose proof (Qlen_nonneg (@nil Z)) as Hn.
      split; [lra|]. split; [lra|]. intros _. exact Hw.
    + pose proof (whole_count_rounded [t]) as Hw.
      pose proof (Qlen_nonneg [t]) as Hn.
      split; [lra|]. split; [lra|]. intros _. exact Hw.
    + set (days := Qmax _ 1).
      assert (Hd : 1 <= days) by apply Q.le_max_r.
      pose proof (Qlen_nonneg (t :: t' :: ts)) as Hn.
      assert (H0 : 0 <= Qlen (t :: t' :: ts) / days)
        by (apply Qle_shift_div_l; lra).
      assert (H1 : Qlen (t :: t' :: ts) / days <= Qlen (t :: t' :: ts))
        by (apply Qle_shift_div_r; [lra | nra]).
      split; [apply (round_ge _ 2 0); exact H0|].
      split; [apply round_le; exact H1|].
      cbn [List.length]. intro Hlt. lia.
Qed.

(** X13. The posting frequency lies between 0 and the number of posts
    of the account that carry a timestamp - the observed span counts as
    at least one day - and with fewer than two timestamps it is that
    number itself. *)
Theorem posting_frequency_at_most_post_count
  (strptime : string -> option Z) (similarity_sum : list string -> option Q)
  (now : Z) (r : UserRow) (fv : FeatureVector) :
  _extract_user_features strptime similarity_sum now r = Some fv ->
  exists v,
    posting_freq_tweets_per_day fv = Present v
    /\ 0 <= v
    /\ v <= Qlen (present (ur_epoch r))
    /\ ((List.length (present (ur_epoch r)) < 2)%nat ->
        v == Qlen (present (ur_epoch r))).
Proof.
  unfold _extract_user_features.
  destruct (_calc_account_age strptime r) as [age|]; [|discriminate].
  intro H. injection H as <-. cbn [posting_freq_tweets_per_day].
  eexists. split; [reflexivity|]. apply posting_frequency_range.
Qed.

(** [posting_frequency_at_most_post_count] at [account_85_5], with three
    posts inside two hours. *)
Lemma posting_frequency_witness :
  exists v,
    Present (_calc_posting_frequency account_85_5) = Present v
    /\ 0 <= v
    /\ v <= 3
    /\ ((3 < 2)%nat -> v == 3).
Proof.
  exact (posting_frequency_at_most_post_count (fun _ => None)
           (fun _ => Some 3) 1730678400 account_85_5 _ eq_refl).
Defined.

(** *** The username pattern *)

Lemma any_char_existsb (f : ascii -> bool) (s : string) :
  any_char f s = existsb f (list_ascii_of_string s).
Proof.
  induction s as [|c s IH]; [reflexivity|]. cbn. now rewrite IH.
Qed.

Lemma decimal_is_digit (c : ascii) : is_decimal c = true -> is_digit c = true.
Proof.
  unfold is_decimal, is_digit. intro H. now rewrite H.
Qed.

Lemma leading_decimals_digit (l : list ascii) :
  (1 <= leading_decimals l)%nat -> existsb is_digit l = true.
Proof.
  destruct l as [|c rest]; cbn; [lia|].
  destruct (is_decimal c) eqn:E; [|lia].
  intros _. now rewrite (decimal_is_digit c E).
Qed.

Lemma leading_decimals_length (l : list ascii) :
  (leading_decimals l <= List.length l)%nat.
Proof.
  induction l as [|c rest IH]; cbn; [lia|].
  destruct (is_decimal c); lia.
Qed.

Lemma string_length_list (s : string) :
  List.length (list_ascii_of_string s) = String.length s.
Proof.
  induction s as [|c s IH]; [reflexivity|]. cbn. now rewrite IH.
Qed.

Lemma existsb_rev {A : Type} (f : A -> bool) (l : list A) :
  existsb f (rev l) = existsb f l.
Proof.
  induction l as [|a l IH]; [reflexivity|].
  cbn. rewrite existsb_app, IH. cbn. rewrite orb_false_r. apply orb_comm.
Qed.

Lemma six_digits_facts (s : string) :
  ends_with_six_digits s = true ->
  any_char is_digit s = true /\ (6 <= String.length s)%nat.
Proof.
  unfold ends_with_six_digits. rewrite any_char_existsb.
  rewrite <- (string_length_list s), <- (length_rev (list_ascii_of_string s)).
  rewrite <- (existsb_rev is_digit (list_ascii_of_string s)).
  generalize (rev (list_ascii_of_string s)). intros l H.
  apply orb_true_iff in H. destruct H as [H|H].
  - apply Nat.leb_le in H. split.
    + apply leading_decimals_digit. lia.
    + pose proof (leading_decimals_length l). lia.
  - destruct l as [|c rest]; [discriminate|].
    apply andb_true_iff in H. destruct H as [_ H]. apply Nat.leb_le in H.
    split.
    + cbn. rewrite (leading_decimals_digit rest); [apply orb_true_r | lia].
    + pose proof (leading_decimals_length rest). cbn. lia.
Qed.

Lemma transitions_length (s : string) :
  (transitions s < String.length s)%nat \/ s = "".
Proof.
  induction s as [|a s IH]; [now right|]. left.
  destruct s as [|b s]; [cbn; lia|].
  destruct IH as [IH|IH]; [|discriminate].
  cbn [transitions String.length] in *.
  destruct (Bool.eqb (is_alpha a) (is_alpha b)); lia.
Qed.

(** X14. A username is marked as a bot pattern only if it holds a digit
    and has at least four characters; a username that ends in six digits
    always is, and has at least six characters. *)
Theorem bot_username_needs_digit (r : UserRow) :
  (fst (_calc_username_pattern r) = true ->
   any_char is_digit (ur_username r) = true
   /\ (4 <= String.length (ur_username r))%nat)
  /\ (snd (_calc_username_pattern r) = true ->
      fst (_calc_username_pattern r) = true
      /\ (6 <= String.length (ur_username r))%nat).
Proof.
  unfold _calc_username_pattern. cbv zeta. cbn [fst snd]. split.
  - intro H. apply orb_true_iff in H. destruct H as [H|H].
    + apply six_digits_facts in H. destruct H. split; [assumption | lia].
    + apply andb_true_iff in H. destruct H as [Ht Hd]. split; [exact Hd|].
      apply Nat.leb_le in Ht.
      destruct (transitions_length (ur_username r)) as [Hl|He]; [lia|].
      rewrite He in Ht. cbn in Ht. lia.
  - intro H. rewrite H. split; [reflexivity|].
    now apply six_digits_facts in H.
Qed.

(** [bot_username_needs_digit] at the username [news_fan_2024]. *)
Lemma bot_username_witness :
  any_char is_digit "news_fan_2024" = true
  /\ (4 <= String.length "news_fan_2024")%nat.
Proof.
  exact (proj1 (bot_username_needs_digit account_85_5) eq_refl).
Defined.

(** *** When the extraction fails *)

Lemma account_age_None (strptime : string -> option Z) (r : UserRow) :
  _calc_account_age strptime r = None
  <-> ur_epoch r <> [] /\ present (ur_epoch r) = [].
Proof.
  unfold _calc_account_age. cbv zeta.
  destruct (ur_epoch r) as [|e es].
  - split; [discriminate | intros [H _]; now contradiction H].
  - destruct (present (e :: es)) as [|t ts].
    + split; [intros _; split; [discriminate | reflexivity] | reflexivity].
    + split; [|intros [_ H]; discriminate H].
      destruct (ur_created r); try discriminate;
        (destruct (Zmin_list t ts =? 0)%Z; [discriminate|]);
        destruct (parse_created strptime _); discriminate.
Qed.

Lemma extract_None (strptime : string -> option Z)
  (similarity_sum : list string -> option Q) (now : Z) (r : UserRow) :
  _extract_user_features strptime similarity_sum now r = None
  <-> ur_epoch r <> [] /\ present (ur_epoch r) = [].
Proof.
  rewrite <- (account_age_None strptime r). unfold _extract_user_features.
  destruct (_calc_account_age strptime r); split; try discriminate;
    reflexivity.
Qed.

Lemma extract_rows_None (strptime : string -> option Z)
  (similarity_sum : list string -> option Q) (clock : nat -> Z)
  (i : nat) (user_data : list UserRow) :
  extract_rows strptime similarity_sum clock i user_data = None
  <-> Exists (fun r => ur_epoch r <> [] /\ present (ur_epoch r) = [])
             user_data.
Proof.
  revert i. induction user_data as [|r rest IH]; intro i; cbn [extract_rows].
  - split; [discriminate | intro H; inversion H].
  - destruct (_extract_user_features strptime similarity_sum (clock i) r)
      as [fv|] eqn:E.
    + assert (Hr : ~ (ur_epoch r <> [] /\ present (ur_epoch r) = [])).
      { intro H. apply (extract_None strptime similarity_sum (clock i)) in H.
        congruence. }
      specialize (IH (S i)).
      destruct (extract_rows strptime similarity_sum clock (S i) rest).
      * split; [discriminate|]. intro H. exfalso. inversion H; subst;
          [contradiction|].
        match goal with
        | X : Exists _ rest |- _ => apply IH in X; discriminate X
        end.
      * split; [intros _; apply Exists_cons_tl; now apply IH | reflexivity].
    + apply extract_None in E. split; [intros _; now apply Exists_cons_hd
                                      | reflexivity].
Qed.

(** *** The age fields *)

Lemma present_In {A : Type} (l : list (cell A)) (a : A) :
  In a (present l) <-> In (Present a) l.
Proof.
  induction l as [|[b|] rest IH]; cbn.
  - reflexivity.
  - rewrite IH. split; intros [H|H]; auto; left; congruence.
  - rewrite IH. split; [auto | intros [H|H]; [discriminate | exact H]].
Qed.







(** *** One score row per account *)

Lemma extract_rows_Forall2 (strptime : string -> option Z)
  (similarity_sum : list string -> option Q) (clock : nat -> Z)
  (i : nat) (user_data : list UserRow) (fvs : list FeatureVector) :
  extract_rows strptime similarity_sum clock i user_data = Some fvs ->
  Forall2 (fun r fv =>
             exists now,
               _extract_user_features strptime similarity_sum now r = Some fv)
          user_data fvs.
Proof.
  revert i fvs. induction user_data as [|r rest IH]; intros i fvs;
    cbn [extract_rows].
  - intro H. injection H as <-. constructor.
  - destruct (_extract_user_features strptime similarity_sum (clock i) r)
      as [fv|] eqn:E; [|discriminate].
    destruct (extract_rows strptime similarity_sum clock (S i) rest)
      as [l|] eqn:El; [|discriminate].
    intro H. injection H as <-. constructor; [now exists (clock i)|].
    now apply (IH (S i)).
Qed.

Lemma extracted_identity (strptime : string -> option Z)
  (similarity_sum : list string -> option Q) (now : Z)
  (r : UserRow) (fv : FeatureVector) :
  _extract_user_features strptime similarity_sum now r = Some fv ->
  username fv = ur_username r /\ user_id fv = ur_user_id r
  /\ is_verified fv = ur_verified r /\ has_blue fv = ur_blue r.
Proof.
  unfold _extract_user_features.
  destruct (_calc_account_age strptime r); [|discriminate].
  intro H. injection H as <-. repeat split; reflexivity.
Qed.

(** X16. When the extraction of a table succeeds, the score table has one
    row per account, in the order of the accounts, and each row carries
    the username, the user id and the two verification flags of its
    account; so distinct usernames in the input give distinct usernames
    in the score table. *)
Theorem one_score_row_per_account
  (strptime : string -> option Z) (similarity_sum : list string -> option Q)
  (clock : nat -> Z) (farms : list string)
  (user_data : list UserRow) (fvs : list FeatureVector) :
  extract_all_features strptime similarity_sum clock user_data = Some fvs ->
  let scores := BotScorer.calculate_all_scores farms fvs in
  Forall2 (fun r s =>
             BotScorer.s_username s = ur_username r
             /\ BotScorer.s_user_id s = ur_user_id r
             /\ BotScorer.s_is_verified s = ur_verified r
             /\ BotScorer.s_has_blue s = ur_blue r)
          user_data scores
  /\ map BotScorer.s_username scores = map ur_username user_data
  /\ (NoDup (map ur_username user_data) ->
      NoDup (map BotScorer.s_username scores)).
Proof.
  intros H scores. apply extract_rows_Forall2 in H.
  assert (HF : Forall2 (fun r s =>
                          BotScorer.s_username s = ur_username r
                          /\ BotScorer.s_user_id s = ur_user_id r
                          /\ BotScorer.s_is_verified s = ur_verified r
                          /\ BotScorer.s_has_blue s = ur_blue r)
                       user_data scores).
  { unfold scores, BotScorer.calculate_all_scores.
    induction H as [|r fv rs fs (now & Hr) _ IH]; cbn [map]; constructor;
      [|exact IH].
    apply extracted_identity in Hr. exact Hr. }
  assert (HM : map BotScorer.s_username scores = map ur_username user_data).
  { clear H. induction HF as [|r s rs ss (Hu & _) _ IH]; [reflexivity|].
    cbn [map]. now rewrite Hu, IH. }
  split; [exact HF|]. split; [exact HM|]. now rewrite HM.
Qed.

(** [one_score_row_per_account] at a table of two accounts. *)
Lemma one_score_row_witness :
  map BotScorer.s_username
    (BotScorer.calculate_all_scores []
       (match extract_all_features (fun _ => None) (fun _ => Some 3)
                (fun _ => 1730678400%Z) [account_85_5; account_38_125] with
        | Some fvs => fvs
        | None => []
        end))
  = ["news_fan_2024"; "maple_reader"].
Proof.
  destruct (extract_all_features (fun _ => None) (fun _ => Some 3)
              (fun _ => 1730678400%Z) [account_85_5; account_38_125])
    as [fvs|] eqn:E; [|discriminate E].
  exact (proj1 (proj2 (one_score_row_per_account _ _ _ [] _ fvs E))).
Defined.

(** *** The dominant keyword *)

Lemma max_by_count_max (best : string * nat) (l : list (string * nat))
  (x : string * nat) :
  In x (best :: l) -> (snd x <= snd (max_by_count best l))%nat.
Proof.
  revert best x. induction l as [|kv rest IH]; intros best x Hin.
  - destruct Hin as [<-|[]]. cbn. lia.
  - cbn [max_by_count]. destruct (snd best <? snd kv)%nat eqn:E.
    + apply Nat.ltb_lt in E.
      pose proof (IH kv kv (or_introl eq_refl)) as Hkv.
      destruct Hin as [<-|[<-|Hin]]; [lia | exact Hkv|].
      apply IH. now right.
    + apply Nat.ltb_ge in E.
      pose proof (IH best best (or_introl eq_refl)) as Hb.
      destruct Hin as [<-|[<-|Hin]]; [exact Hb | lia|].
      apply IH. now right.
Qed.

(** X17. When the extractor names a dominant keyword, the account has at
    least five posts, the keyword is one of the fourteen political
    keywords, it occurs in at least one post, and no keyword of the list
    occurs in more posts; with fewer than five posts there is no
    dominant keyword and the concentration is 0. *)
Theorem dominant_keyword_is_most_frequent (r : UserRow) :
  (forall k,
     snd (_calc_topic_diversity r) = Present k ->
     (5 <= List.length (ur_text r))%nat
     /\ In k political_keywords
     /\ (1 <= keyword_count (ur_text r) k)%nat
     /\ forall k', In k' political_keywords ->
                   (keyword_count (ur_text r) k'
                    <= keyword_count (ur_text r) k)%nat)
  /\ ((List.length (ur_text r) < 5)%nat ->
      _calc_topic_diversity r = (0, Missing)).
Proof.
  unfold _calc_topic_diversity. cbv zeta.
  change (fun keyword : string =>
            (keyword,
             List.length
               (filter (fun text => contains keyword (lower (str_of text)))
                       (ur_text r))))
    with (fun keyword : string => (keyword, keyword_count (ur_text r) keyword)).
  destruct (List.length (ur_text r) <? 5)%nat eqn:E5.
  - split; [intros k H; discriminate H | reflexivity].
  - apply Nat.ltb_ge in E5. split; [|intro; lia].
    intros k Hk.
    destruct (filter _ (map _ political_keywords)) as [|kv rest] eqn:Ek;
      [discriminate Hk|].
    cbn [snd] in Hk. injection Hk as Hk.
    pose proof (max_by_count_In kv rest) as Hin.
    pose proof (max_by_count_max kv rest) as Hmax.
    rewrite <- Ek in Hin, Hmax.
    apply filter_In in Hin. destruct Hin as [Hin Hpos].
    apply in_map_iff in Hin. destruct Hin as (k0 & Hd & Hk0).
    rewrite <- Hd in Hk, Hpos, Hmax. cbn [fst snd] in Hk, Hpos, Hmax.
    subst k0. apply Nat.ltb_lt in Hpos.
    split; [exact E5|]. split; [exact Hk0|]. split; [lia|].
    intros k' Hk'.
    destruct (0 <? keyword_count (ur_text r) k')%nat eqn:Ep.
    + apply (Hmax (k', keyword_count (ur_text r) k')).
      apply filter_In. split; [|exact Ep].
      apply in_map_iff. now exists k'.
    + apply Nat.ltb_ge in Ep. lia.
Qed.

End ExtractorExtras.

(** ** DataLoader: one record per account *)

Module LoaderExtras.

Import FeatureExtractor DataLoader.
#[local] Open Scope string_scope.
#[local] Open Scope list_scope.

Lemma key_compare_eq (u k : string) :
  OrdersEx.String_as_OT.compare u k = Eq -> u = k.
Proof.
  intro H. destruct (OrdersEx.String_as_OT.compare_spec u k);
    [assumption | discriminate | discriminate].
Qed.

Lemma key_compare_gt (u k : string) :
  OrdersEx.String_as_OT.compare u k = Gt -> key_lt k u.
Proof.
  intro H. destruct (OrdersEx.String_as_OT.compare_spec u k);
    [discriminate | discriminate | assumption].
Qed.

Lemma key_lt_trans (a b c : string) : key_lt a b -> key_lt b c -> key_lt a c.
Proof.
  unfold key_lt. apply OrdersEx.String_as_OT.lt_strorder.
Qed.

Lemma key_lt_irrefl (a : string) : ~ key_lt a a.
Proof.
  unfold key_lt. apply OrdersEx.String_as_OT.lt_strorder.
Qed.

Lemma insert_key_In (u v : string) (keys : list string) :
  In v (insert_key u keys) <-> v = u \/ In v keys.
Proof.
  induction keys as [|k rest IH]; cbn.
  - intuition auto.
  - destruct (OrdersEx.String_as_OT.compare u k) eqn:E; cbn.
    + apply key_compare_eq in E. subst k. intuition auto.
    + intuition auto.
    + rewrite IH. intuition auto.
Qed.

Lemma insert_key_sorted (u : string) (keys : list string) :
  StronglySorted key_lt keys -> StronglySorted key_lt (insert_key u keys).
Proof.
  induction keys as [|k rest IH]; cbn; intro H.
  - repeat constructor.
  - inversion H as [|? ? Hrest Hk]; subst.
    destruct (OrdersEx.String_as_OT.compare u k) eqn:E.
    + exact H.
    + constructor; [exact H|]. constructor; [exact E|].
      eapply Forall_impl; [|exact Hk]. intros x Hx.
      exact (key_lt_trans _ _ _ E Hx).
    + apply key_compare_gt in E. constructor; [now apply IH|].
      apply Forall_forall. intros x Hx. apply insert_key_In in Hx.
      destruct Hx as [->|Hx]; [exact E|].
      rewrite Forall_forall in Hk. now apply Hk.
Qed.

Lemma sorted_keys_NoDup (keys : list string) :
  StronglySorted key_lt keys -> NoDup keys.
Proof.
  induction 1 as [|k rest Hrest IH Hk]; constructor; [|exact IH].
  intro Hin. rewrite Forall_forall in Hk.
  exact (key_lt_irrefl k (Hk k Hin)).
Qed.

Lemma group_keys_sorted (raw_tweets : list RawTweet) :
  StronglySorted key_lt (group_keys raw_tweets).
Proof.
  unfold group_keys.
  induction (present (map rt_username raw_tweets)) as [|u rest IH]; cbn;
    [constructor | now apply insert_key_sorted].
Qed.

Lemma group_keys_In (raw_tweets : list RawTweet) (u : string) :
  In u (group_keys raw_tweets)
  <-> exists t, In t raw_tweets /\ rt_username t = Present u.
Proof.
  unfold group_keys.
  assert (H : In u (fold_right insert_key []
                      (present (map rt_username raw_tweets)))
              <-> In u (present (map rt_username raw_tweets))).
  { induction (present (map rt_username raw_tweets)) as [|v rest IH]; cbn;
      [reflexivity|].
    rewrite insert_key_In, IH. intuition auto. }
  rewrite H, ExtractorExtras.present_In, in_map_iff.
  split; intros (t & H1 & H2); exists t; auto.
Qed.

Lemma group_of_nonempty (raw_tweets : list RawTweet) (u : string) :
  In u (group_keys raw_tweets) -> group_of u raw_tweets <> [].
Proof.
  intro H. apply group_keys_In in H. destruct H as (t & Hin & Hu).
  assert (Hg : In t (group_of u raw_tweets)).
  { apply filter_In. split; [exact Hin|]. rewrite Hu. apply String.eqb_refl. }
  intro E. rewrite E in Hg. exact Hg.
Qed.

Lemma aggregate_usernames (raw_tweets : list RawTweet) :
  map ur_username (aggregate_by_user raw_tweets) = group_keys raw_tweets.
Proof.
  unfold aggregate_by_user.
  assert (H : forall keys,
             (forall u, In u keys -> group_of u raw_tweets <> []) ->
             map ur_username
               (flat_map (fun u => user_record u (group_of u raw_tweets)) keys)
             = keys).
  { induction keys as [|k rest IH]; intro Hne; [reflexivity|].
    cbn [flat_map]. rewrite map_app, IH by (intros; apply Hne; now right).
    specialize (Hne k (or_introl eq_refl)).
    destruct (group_of k raw_tweets); [contradiction | reflexivity]. }
  apply H. intros u Hu. now apply group_of_nonempty.
Qed.

Lemma aggregate_rows (raw_tweets : list RawTweet) (r : UserRow) :
  In r (aggregate_by_user raw_tweets) ->
  exists first rest,
    group_of (ur_username r) raw_tweets = first :: rest
    /\ r = hd r (user_record (ur_username r) (first :: rest)).
Proof.
  unfold aggregate_by_user. rewrite in_flat_map.
  intros (u & _ & Hr).
  destruct (group_of u raw_tweets) as [|first rest] eqn:E; [contradiction|].
  destruct Hr as [<-|[]]. cbn [ur_username]. rewrite E.
  now exists first, rest.
Qed.

(** X18. [aggregate_by_user] builds one record per username that occurs
    in the table, in increasing order of username and without
    repetition; rows without username join no record.  In every record
    the nine post lists have the same length, the number of rows of that
    username, which is at least one, and the profile fields are those of
    the first of these rows. *)
Theorem one_record_per_username (raw_tweets : list RawTweet) :
  let rows := aggregate_by_user raw_tweets in
  StronglySorted key_lt (map ur_username rows)
  /\ NoDup (map ur_username rows)
  /\ (forall u,
        In u (map ur_username rows)
        <-> exists t, In t raw_tweets /\ rt_username t = Present u)
  /\ Forall (fun r =>
               exists first rest,
                 group_of (ur_username r) raw_tweets = first :: rest
                 /\ aligned (S (List.length rest)) r
                 /\ ur_user_id r = rt_user_id first
                 /\ ur_created r = rt_created first
                 /\ ur_followersCount r = rt_followersCount first
                 /\ ur_friendsCount r = rt_friendsCount first
                 /\ ur_statusesCount r = rt_statusesCount first
                 /\ ur_favouritesCount r = rt_favouritesCount first
                 /\ ur_verified r = rt_verified first
                 /\ ur_blue r = rt_blue first
                 /\ ur_location r = rt_location first
                 /\ ur_rawDescription r = rt_rawDescription first
                 /\ ur_profileImageUrl r = rt_profileImageUrl first)
            rows.
Proof.
  cbv zeta. rewrite aggregate_usernames.
  split; [apply group_keys_sorted|].
  split; [apply sorted_keys_NoDup, group_keys_sorted|].
  split; [apply group_keys_In|].
  apply Forall_forall. intros r Hr.
  destruct (aggregate_rows raw_tweets r Hr) as (first & rest & Hg & Er).
  exists first, rest. split; [exact Hg|].
  rewrite Er. cbn. unfold aligned. cbn. rewrite !length_map.
  repeat split; reflexivity.
Qed.

Lemma scores_usernames (strptime : string -> option Z)
  (similarity_sum : list string -> option Q) (clock : nat -> Z)
  (farms : list string) (i : nat)
  (user_data : list UserRow) (fvs : list FeatureVector) :
  extract_rows strptime similarity_sum clock i user_data = Some fvs ->
  map BotScorer.s_username (BotScorer.calculate_all_scores farms fvs)
  = map ur_username user_data.
Proof.
  intro H. apply ExtractorExtras.extract_rows_Forall2 in H.
  unfold BotScorer.calculate_all_scores. rewrite map_map. cbn.
  induction H as [|r fv rs fs (now & Hr) _ IH]; [reflexivity|].
  cbn [map]. apply ExtractorExtras.extracted_identity in Hr.
  destruct Hr as [Hu _]. now rewrite Hu, IH.
Qed.

(** X19. From the raw table to the score table: when the extraction of
    the aggregated accounts succeeds, the score table holds exactly one
    row for each username that occurs in the raw table, in increasing
    order of username.  The extraction fails exactly when some account
    has no post with a timestamp. *)
Theorem raw_table_to_score_table
  (strptime : string -> option Z) (similarity_sum : list string -> option Q)
  (clock : nat -> Z) (farms : list string) (raw_tweets : list RawTweet) :
  (forall fvs,
     extract_all_features strptime similarity_sum clock
       (aggregate_by_user raw_tweets) = Some fvs ->
     let names :=
       map BotScorer.s_username (BotScorer.calculate_all_scores farms fvs) in
     NoDup names
     /\ StronglySorted key_lt names
     /\ forall u, In u names
                  <-> exists t, In t raw_tweets /\ rt_username t = Present u)
  /\ (extract_all_features strptime similarity_sum clock
        (aggregate_by_user raw_tweets) = None
      <-> exists u, In u (group_keys raw_tweets)
                    /\ present (map rt_epoch (group_of u raw_tweets)) = []).
Proof.
  split.
  - intros fvs H. cbv zeta.
    rewrite (scores_usernames _ _ _ farms _ _ _ H), aggregate_usernames.
    split; [apply sorted_keys_NoDup, group_keys_sorted|].
    split; [apply group_keys_sorted | apply group_keys_In].
  - unfold extract_all_features.
    rewrite ExtractorExtras.extract_rows_None, Exists_exists. split.
    + intros (r & Hr & _ & Hp).
      destruct (aggregate_rows raw_tweets r Hr) as (first & rest & Hg & Er).
      exists (ur_username r). split.
      * rewrite <- aggregate_usernames. now apply in_map.
      * rewrite Hg. rewrite Er in Hp. exact Hp.
    + intros (u & Hu & Hp).
      pose proof (group_of_nonempty raw_tweets u Hu) as Hne.
      destruct (group_of u raw_tweets) as [|first rest] eqn:Hg;
        [contradiction|].
      eexists. split; [|split].
      * unfold aggregate_by_user. apply in_flat_map. exists u.
        split; [exact Hu|]. rewrite Hg. now left.
      * cbn. discriminate.
      * cbn [ur_epoch]. exact Hp.
Qed.

(** [raw_table_to_score_table] at [raw_three]: the accounts come out as
    [adam], [zoe]. *)
Lemma raw_table_witness :
  map BotScorer.s_username
    (BotScorer.calculate_all_scores []
       (match extract_all_features (fun _ => None) (fun _ => Some 2)
                (fun _ => 1730678400%Z) (aggregate_by_user raw_three) with
        | Some fvs => fvs
        | None => []
        end))
  = ["adam"; "zoe"]
  /\ NoDup
       (map BotScorer.s_username
          (BotScorer.calculate_all_scores []
             (match extract_all_features (fun _ => None) (fun _ => Some 2)
                      (fun _ => 1730678400%Z) (aggregate_by_user raw_three)
              with
              | Some fvs => fvs
              | None => []
              end))).
Proof.
  destruct (extract_all_features (fun _ => None) (fun _ => Some 2)
              (fun _ => 1730678400%Z) (aggregate_by_user raw_three))
    as [fvs|] eqn:E; [|discriminate E].
  split.
  - injection E as <-. reflexivity.
  - exact (proj1 (proj1 (raw_table_to_score_table (fun _ => None)
                           (fun _ => Some 2) (fun _ => 1730678400%Z) []
                           raw_three) fvs E)).
Defined.

End LoaderExtras.
